(* ===== verification/_CoqProject ===== *)
-Q . S2P
Prelude.v
Scalar.v
ScalarQc.v
Tensor.v
Nn.v
Extractor.v
Attention.v
Encoder.v
Regressor.v
ScalarR.v
