(* ===== verification/Prelude.v ===== *)
(** * A verification development for the audio arousal regressor

    The program ([src/Audio-Arousal Model/audio_model.py]) is one PyTorch
    module graph that maps a batch of two-channel spectrograms of shape
    [B, 2, 512, 128] (time 512, frequency 128) to one arousal value per
    sample.  Its parts, in the order data flows through them:

    - [AudioExtractor]: four bias-free convolutions with kernels of height 1
      (the time axis is never mixed), two of them with stride 2 on the
      frequency axis, then [transpose(2, 1)] and [reshape([B, 512, -1])];
      the result is [B, 512, 768].
    - [padding_mask_audio]: a time step is kept when all of its 768 features
      differ from zero; the result is [B, 1, 512].
    - [Self_Attention], [MHA]: scaled dot-product attention with the mask
      filled in as [-1e9] before the softmax, split over heads by [view] and
      [transpose].
    - [FFN], [AELayer1], [AEBlock1]: the position-wise feed-forward block,
      the encoder layer (attention, residual, layer norm, feed-forward,
      residual, layer norm) and the stack of layers, which computes the mask
      once from the extractor's output.
    - [AudioRegressor]: extractor, encoder stack, a two-layer GRU and a
      linear head applied to the GRU's last output.

    ** How the program is modelled

    Tensors are nested lists in row-major order ([Tensor.v]); a shape is a
    predicate on them ([Prelude.shaped]).  Scalars are the elements of an
    ordered field with [exp] and [sqrt], given as the typeclass
    [Scalar.ScalarOps] with its laws [Scalar.ScalarLaws]: every definition
    computes for any instance, every theorem is proved against the
    interface, [ScalarQc.v] discharges the interface with the canonical
    rationals [Qc], on which the definitions run by [vm_compute], and
    [ScalarR.v] with the real numbers.  The
    rounding of IEEE floats is not modelled: a theorem about values is a
    theorem about the exact arithmetic the floats approximate.

    Operations that PyTorch refuses at run time (a channel count that does
    not match the weight, a kernel larger than the padded input, [matmul]
    with different inner sizes, a [view] or [reshape] whose sizes do not
    divide the number of elements, a mask that does not broadcast) return
    [Err] in the error monad [res] of this file; a [forward] is the
    composition of its lines in that monad.  Dropout draws one Bernoulli
    sample per element: the samples are a function [keep : nat -> bool] and
    the state threaded through a [forward] is the number of samples used so
    far (the monad [M] of this file).  A module's [training] flag is an
    argument of its [forward].

    ** Files

    - [Prelude.v] (this file): the monads [res] and [M] with their
      lemmas, shapes of nested lists, [chunks], [window], [transpose],
      their lemmas, the hint databases and tactics of the development.
    - [Scalar.v]: the scalar interface, the ordered-field lemmas derived
      from it, sums, dot products, [relu], [sigmoid] and [tanh].
    - [ScalarQc.v]: the instance on [Qc].
    - [Tensor.v]: tensors of rank 1 to 4, their shapes, indexing,
      element-wise maps, [matmul], [transpose], [reshape], [view] and
      broadcasting.
    - [Nn.v]: the layers of [torch.nn] and [torch.nn.functional] the
      program calls: [Conv2d], [Linear], [softmax], [Dropout],
      [masked_fill], [LayerNorm].
    - [Extractor.v]: [AudioExtractor] (record [AudioExtractor.t] of the
      four convolutions, [init] for [__init__], [forward]) and
      [padding_mask_audio].
    - [Attention.v]: [Self_Attention] and the module [MHA] ([init],
      [split_heads], [merge_heads], [forward]).
    - [Encoder.v]: the modules [FFN], [AELayer1] and [AEBlock1], each
      with its record, its constructor [init], its invariant [wf] and
      its [forward].
    - [Regressor.v]: [nn.GRU] ([cell], [scan], [run], [forward]) and the
      module [AudioRegressor], the whole model, with [default] for the
      hyperparameters 768, 4, 1536 and 6 of the source.
    - [ScalarR.v]: the instance of the scalar interface on the real
      numbers, with the real exponential and square root.

    Each module of the source is a [Module] with a record [t] of its
    sub-modules and hyperparameters, [init] for [__init__], an invariant
    [wf] on the shapes of the parameters, and [forward].  [init] builds
    the sub-modules from the hyperparameters as [__init__] does; the
    trained parameters, which PyTorch draws or loads, are its last
    argument (a record [weights] for [AELayer1] and [AudioRegressor]),
    and [init] yields a well-formed module when they have the shapes the
    hyperparameters ask for ([aelayer_init_wf], [aeblock_init_wf],
    [regressor_init_wf]).  Where a [forward] has a pure meaning on
    well-shaped inputs, the file gives it as a function
    ([AudioExtractor.features], [attention_scores], [FFN.eval],
    [AELayer1.without_attention]) and proves that the monadic code
    computes it.  The sum of a residual connection ([Tensor.add3])
    broadcasts as [+] does and is an error on shapes that do not
    broadcast.

    ** What the theorems show

    - Padding: a time step that is zero in both input channels is a zero
      row of the extractor's output, whatever the weights, so
      [padding_mask_audio] masks it ([extractor_masks_padding], from
      [conv2d_zero_at_time]); the mask does more than that, since one
      zero feature masks a whole step ([padding_mask_one_zero_feature]).
    - Refinement: [AudioExtractor.forward] computes [features] on every
      sample ([extractor_forward_refines]); [Self_Attention] computes
      the dropout of [attention_scores] and its product with [V]
      ([self_attention_refines]).
    - Shapes: each [forward] returns [Ok] on an input of the documented
      shape when the module is well formed, and the result has the
      documented shape: [[b, 512, 768]] for the extractor, with the sizes
      64, 64, 32, 32 and 768 = 24 * 32 computed from the convolution
      arithmetic, and [[b, t, hidden_dim]] through [MHA], [FFN],
      [AELayer1] and the whole [AEBlock1], by induction on its layers.
      The same theorems count the Bernoulli draws of a run.
    - Errors: a wrong channel count, a kernel that does not fit, a wrong
      number of features and a [reshape] that does not divide are
      [Err ShapeError]; an even time length other than 512 is accepted
      and reshaped into rows of the wrong width ([extractor_time_even]).
    - Attention: softmax rows are positive and sum to one; a masked key
      gets the score [-1e9] for every head and query; a sample whose
      keys are all masked attends uniformly.  [Self_Attention] builds
      its dropout layer itself, so the layer is in training mode whatever
      the mode of the model: in evaluation mode an encoder layer still
      makes its draws, and when every draw drops its element the layer
      returns [AELayer1.without_attention], the layer without the
      attention output ([eval_mode_attention_dropped]).
    - Layers: the normalised row of [LayerNorm] sums to zero; a dropout
      layer on a tensor of rank 3 is the identity in evaluation mode
      and in training mode maps every element [v] to 0 or to
      [v / (1 - p)], one draw per element ([dropout_forward3_spec]).
    - The whole model: [AudioRegressor.forward] succeeds on a batch
      [[b, 2, 512, 128]] in either mode; the encoder output it returns
      is [AEBlock1.forward] of the extractor's features, and the
      prediction, of shape [[b, 1]], is the head applied to step 511 of
      the output of the GRU on that encoder output from a zero initial
      state, padded or not ([regressor_forward_shape]);
      [out[:, -1, :]] reads the last step of every sample and is an index
      error on a sample without steps ([last_step_reads_last],
      [last_step_empty_sample]); the states of the GRU stay in the open
      interval (-1, 1) ([gru_forward_states_bounded]).
    - Round trips: [concat] and [chunks], [reshape] of a flattened
      tensor, [transpose] twice, splitting into heads and merging them
      ([merge_split_heads]).

    ** Bounds

    The extractor's [reshape] fixes the time length at 512, as the source
    does; the encoder's theorems hold for every batch size [b] and time
    length [t] of at least 1 and every hidden dimension that the number
    of heads divides.  Each file ends with its theorems applied at
    concrete inputs over [Qc]: the extractor's and the whole model's at
    batch size 1 with the shapes of the source (the default model: an
    encoder of 6 layers with 4 heads, hidden dimension 768 and inner
    dimension 1536), the others at small shapes where the values are
    computed by [vm_compute].  No definition uses fuel: every recursion is
    structural.

    ** Not modelled

    Gradients, parameter initialisation
    ([xavier_uniform_] draws the weights; here they are arbitrary values
    of the right shape), devices, and floating-point rounding are outside
    the model: on [Qc] the functions [exp] and [sqrt] are rational
    stand-ins that satisfy the laws of the interface, which is all the
    theorems use.  A dimension of size 0 cannot be read off a nested
    list; the theorems assume sizes of at least 1 where the code reads a
    size from the data. *)

From Stdlib Require Import Lia.
From stdpp Require Export base tactics option list numbers.

Set Default Proof Using "Type".

(** ** Errors as values *)

(** What PyTorch raises where the program can fail. *)
Inductive error : Set :=
| ShapeError   (* RuntimeError: the sizes of the operands do not fit *)
| IndexError.  (* IndexError: an index out of range *)

Inductive res (A : Type) : Type :=
| Ok (a : A)
| Err (e : error).
Arguments Ok {A} a.
Arguments Err {A} e.

#[export] Instance error_eq_dec : EqDecision error.
Proof. solve_decision. Defined.

#[export] Instance res_eq_dec `{EqDecision A} : EqDecision (res A).
Proof. solve_decision. Defined.

#[export] Instance res_ret : MRet res := @Ok.
#[export] Instance res_bind : MBind res := λ A B f m,
  match m with Ok a => f a | Err e => Err e end.
#[export] Instance res_fmap : FMap res := λ A B f m,
  match m with Ok a => Ok (f a) | Err e => Err e end.

Definition is_Ok {A} (m : res A) : Prop := ∃ a, m = Ok a.

(** [check b] is the run-time test of a size condition. *)
Definition check (b : bool) : res unit :=
  if b then Ok () else Err ShapeError.

(** ** The dropout monad: errors and a position in the stream of samples *)

Definition rng : Set := nat.
Definition M (A : Type) : Type := rng → res (A * rng).

#[export] Instance M_ret : MRet M := λ A a s, Ok (a, s).
#[export] Instance M_bind : MBind M := λ A B f m s,
  match m s with Ok (a, s') => f a s' | Err e => Err e end.
#[export] Instance M_fmap : FMap M := λ A B f m s,
  match m s with Ok (a, s') => Ok (f a, s') | Err e => Err e end.

Definition lift {A} (m : res A) : M A := λ s,
  match m with Ok a => Ok (a, s) | Err e => Err e end.

(** ** Nested lists *)

(** [shaped n P l]: [l] has [n] elements, each of which satisfies [P]. *)
Definition shaped {A} (n : nat) (P : A → Prop) (l : list A) : Prop :=
  length l = n ∧ Forall P l.

(** The first [k] consecutive pieces of length [n]. *)
Fixpoint chunks {A} (k n : nat) (l : list A) : list (list A) :=
  match k with
  | 0 => []
  | S k => take n l :: chunks k n (drop n l)
  end.

(** [len] elements from position [start]. *)
Definition window {A} (start len : nat) (l : list A) : list A :=
  take len (drop start l).

Definition ncols {A} (m : list (list A)) : nat :=
  match m with [] => 0 | r :: _ => length r end.

Fixpoint transpose_n {A} (n : nat) (m : list (list A)) : list (list A) :=
  match m with
  | [] => replicate n []
  | r :: m => zip_with cons r (transpose_n n m)
  end.

(** Rows become columns; the number of columns is read off the first row. *)
Definition transpose {A} (m : list (list A)) : list (list A) :=
  transpose_n (ncols m) m.

(** ** Automation *)

Create HintDb shape discriminated.
Create Rewrite HintDb res_simpl.

(** ** Lemmas on [res] and [M] *)

Section res_lemmas.
Context {A B : Type}.
Implicit Types (m : res A) (f : A → res B).

Lemma bind_Ok m f b : m ≫= f = Ok b ↔ ∃ a, m = Ok a ∧ f a = Ok b.
Proof.
  destruct m; simpl; [|split; [intros ?|intros (?&?&?)]; discriminate].
  split; eauto. intros (?&?&?). by simplify_eq.
Qed.

Lemma bind_Err m f e :
  m ≫= f = Err e ↔ m = Err e ∨ ∃ a, m = Ok a ∧ f a = Err e.
Proof.
  destruct m; simpl.
  - split; eauto. intros [?|(?&?&?)]; by simplify_eq.
  - split; [intros [= <-]; by left|]. intros [?|(?&?&?)]; by simplify_eq.
Qed.

Lemma fmap_Ok (g : A → B) m b : g <$> m = Ok b ↔ ∃ a, m = Ok a ∧ b = g a.
Proof.
  destruct m; simpl; [|split; [intros ?|intros (?&?&?)]; discriminate].
  split; [intros [= <-]; eauto|]. intros (?&?&?). by simplify_eq.
Qed.

Lemma check_Ok b u : check b = Ok u ↔ b = true.
Proof. by destruct b, u. Qed.

Lemma check_true b : b = true → check b = Ok ().
Proof. by intros ->. Qed.

Lemma check_false b : b = false → check b = Err ShapeError.
Proof. by intros ->. Qed.

(** A traversal whose every step succeeds is a map. *)
Lemma mapM_Ok_fmap f (g : A → B) (l : list A) :
  Forall (λ x, f x = Ok (g x)) l → mapM f l = Ok (g <$> l).
Proof. induction 1 as [|x l Hx _ IH]; simpl; [done|]. by rewrite Hx, IH. Qed.

Lemma mapM_Ok f (l : list A) (k : list B) :
  mapM f l = Ok k ↔ Forall2 (λ x y, f x = Ok y) l k.
Proof.
  revert k. induction l as [|x l IH]; intros k; simpl.
  - split; [intros [= <-]; constructor | by inversion 1].
  - split.
    + destruct (f x) as [y|] eqn:Hy; simpl; [|done].
      destruct (mapM f l) as [k'|]; simpl; [|done].
      intros [= <-]. constructor; [done|]. by apply IH.
    + inversion 1 as [|? y ? k' Hy Hk']; subst. rewrite Hy. simpl.
      apply IH in Hk'. by rewrite Hk'.
Qed.

(** The first failing step is the traversal's error. *)
Lemma mapM_Err f (l1 l2 : list A) (k : list B) x e :
  mapM f l1 = Ok k → f x = Err e → mapM f (l1 ++ x :: l2) = Err e.
Proof.
  revert k. induction l1 as [|y l1 IH]; intros k; simpl.
  - intros _ ->. done.
  - destruct (f y); simpl; [|done].
    destruct (mapM f l1) as [k'|] eqn:Hk'; simpl; [|done].
    intros _ Hx. by rewrite (IH k').
Qed.

End res_lemmas.

#[export] Hint Rewrite @bind_Ok @fmap_Ok @check_Ok : res_simpl.

(** Runs the error monad forwards through hypotheses that are known. *)
Ltac res_step :=
  match goal with
  | H : ?m = Ok _ |- context [?m] => rewrite H
  | H : ?m = Err _ |- context [?m] => rewrite H
  | |- context [check ?b] => rewrite (check_true b) by (try done; lia)
  end; simpl.
Ltac res_run := simpl; repeat res_step.

(** ** Lemmas on shapes, [chunks], [window] and [transpose] *)

Section shaped_lemmas.
Context {A : Type}.
Implicit Types (l : list A).

Lemma shaped_length n (P : A → Prop) l : shaped n P l → length l = n.
Proof. by intros [? _]. Qed.

Lemma shaped_Forall n (P : A → Prop) l : shaped n P l → Forall P l.
Proof. by intros [_ ?]. Qed.

Lemma shaped_lookup n (P : A → Prop) l i x :
  shaped n P l → l !! i = Some x → P x.
Proof. intros [_ H] ?. by eapply Forall_lookup_1. Qed.

Lemma shaped_replicate n (P : A → Prop) x : P x → shaped n P (replicate n x).
Proof. split; [apply length_replicate | by apply Forall_replicate]. Qed.

Lemma shaped_impl n (P Q : A → Prop) l :
  (∀ x, P x → Q x) → shaped n P l → shaped n Q l.
Proof. intros HPQ [? H]. split; [done|]. eapply Forall_impl; eauto. Qed.

Lemma shaped_fmap {B} n (P : B → Prop) (Q : A → Prop) (f : A → B) l :
  (∀ x, Q x → P (f x)) → shaped n Q l → shaped n P (f <$> l).
Proof.
  intros HPQ [? H]. split; [by rewrite length_fmap|].
  apply Forall_fmap. eapply Forall_impl; [|done]. intros x ?. by apply HPQ.
Qed.

Lemma shaped_nonempty n (P : A → Prop) l :
  0 < n → shaped n P l → ∃ x l', l = x :: l' ∧ P x.
Proof.
  intros ? [? H]. destruct l as [|x l']; simplify_eq/=; [lia|].
  inversion H; subst. eauto.
Qed.

End shaped_lemmas.

(** ** The dropout monad *)

Section M_lemmas.
Context {A B : Type}.
Implicit Types (m : M A) (f : A → M B).

Lemma M_bind_Ok m f n a n' : m n = Ok (a, n') → (m ≫= f) n = f a n'.
Proof. intros Hm. unfold mbind, M_bind. by rewrite Hm. Qed.

Lemma M_bind_Err m f n e : m n = Err e → (m ≫= f) n = Err e.
Proof. intros Hm. unfold mbind, M_bind. by rewrite Hm. Qed.

Lemma lift_Ok (r : res A) a n : r = Ok a → lift r n = Ok (a, n).
Proof. by intros ->. Qed.

Lemma lift_Err (r : res A) e n : r = Err e → lift r n = Err e.
Proof. by intros ->. Qed.

Lemma lift_Ok_bind (a : A) f : lift (Ok a) ≫= f = f a.
Proof. reflexivity. Qed.

Lemma lift_bind_Ok (r : res A) f a n : r = Ok a → (lift r ≫= f) n = f a n.
Proof. intros ->. by apply M_bind_Ok. Qed.

Lemma lift_bind_Err (r : res A) f e n : r = Err e → (lift r ≫= f) n = Err e.
Proof. intros ->. by apply M_bind_Err. Qed.

End M_lemmas.

(** A traversal in [M] whose every step succeeds and makes [c] draws
    succeeds and makes [c] draws per element. *)
Lemma mapM_M_shaped {A B} (f : A → M B) (P : A → Prop) (Q : B → Prop) c k l n :
  (∀ x n, P x → ∃ y, f x n = Ok (y, n + c) ∧ Q y) → shaped k P l →
  ∃ ys, mapM f l n = Ok (ys, n + k * c) ∧ shaped k Q ys.
Proof.
  intros Hf [<- Hl]. revert n.
  induction Hl as [|x l Hx Hl IH]; intros n; simpl.
  { exists []. split; [by rewrite Nat.add_0_r|by split]. }
  destruct (Hf x n Hx) as (y & Hy & HQ).
  destruct (IH (n + c)) as (ys & Hys & Hlen & HQs).
  exists (y :: ys). rewrite (M_bind_Ok _ _ _ _ _ Hy).
  rewrite (M_bind_Ok _ _ _ _ _ Hys). unfold mret, M_ret.
  split; [f_equal; f_equal; lia|]. split; [simpl; lia|by constructor].
Qed.

Lemma M_bind_inv {A B} (m : M A) (f : A → M B) n r :
  (m ≫= f) n = Ok r → ∃ a n', m n = Ok (a, n') ∧ f a n' = Ok r.
Proof.
  unfold mbind, M_bind. destruct (m n) as [[a n']|e]; [eauto|discriminate].
Qed.

(** What every step of a traversal in [M] establishes between its
    argument and its result holds between the list and the result. *)
Lemma mapM_M_inv {A B} (f : A → M B) (Q : A → B → Prop) l ys n n' :
  (∀ x k y k', f x k = Ok (y, k') → Q x y) →
  mapM f l n = Ok (ys, n') → Forall2 Q l ys.
Proof.
  intros Hf. revert ys n n'. induction l as [|x l IH]; intros ys n n' Hm.
  { injection Hm as <- _. constructor. }
  simpl in Hm. apply M_bind_inv in Hm as (y & n1 & Hy & Hm).
  apply M_bind_inv in Hm as (k & n2 & Hk & Hm). injection Hm as <- _.
  constructor; eauto.
Qed.

Lemma Forall_last {A} (P : A → Prop) (l : list A) d :
  Forall P l → P d → P (List.last l d).
Proof.
  induction 1 as [|a l Ha Hl IH]; [done|]. intros Hd. simpl.
  destruct l; [done|]. by apply IH.
Qed.

Lemma Forall_conj {A} (P Q : A → Prop) (l : list A) :
  Forall P l → Forall Q l → Forall (λ x, P x ∧ Q x) l.
Proof.
  induction 1 as [|x l HP _ IH]; intros HQ; [constructor|].
  inversion_clear HQ. constructor; auto.
Qed.

Lemma shaped_and {A} n (P Q : A → Prop) (l : list A) :
  shaped n P l → Forall Q l → shaped n (λ x, P x ∧ Q x) l.
Proof. intros [Hl HP] HQ. split; [done|]. by apply Forall_conj. Qed.

Lemma forallb_Forall {A} (f : A → bool) (l : list A) :
  forallb f l = true ↔ Forall (λ x, f x = true) l.
Proof.
  induction l as [|x l IH]; simpl; [by split|].
  by rewrite andb_true_iff, Forall_cons_iff, IH.
Qed.

Lemma shaped_zip_with {A B C} (f : A → B → C) k (P : A → Prop) (Q : B → Prop)
    (S : C → Prop) x y :
  (∀ a b, P a → Q b → S (f a b)) → shaped k P x → shaped k Q y →
  shaped k S (zip_with f x y).
Proof.
  intros Hf [<- Hx] [Hlen Hy]. split; [rewrite length_zip_with; lia|].
  revert y Hlen Hy. induction Hx as [|a x Ha Hx IH]; intros [|b y] ? Hy;
    simplify_eq/=; [done|]. inversion_clear Hy. constructor; auto.
Qed.

Lemma shaped_Forall2 {A B} k (P : A → Prop) (Q : B → Prop) x y :
  shaped k P x → shaped k Q y → Forall2 (λ a b, P a ∧ Q b) x y.
Proof.
  intros [<- Hx] [Hlen Hy]. revert y Hlen Hy.
  induction Hx as [|a x Ha Hx IH]; intros [|b y] ? Hy; simplify_eq/=;
    [done|]. inversion_clear Hy. constructor; auto.
Qed.

Section list_lemmas.
Context {A : Type}.
Implicit Types (l : list A) (m : list (list A)).

Lemma length_chunks k n l : length (chunks k n l) = k.
Proof. revert l. induction k; intros; simpl; by f_equal. Qed.

Lemma Forall_chunks k n l :
  k * n ≤ length l → Forall (λ c, length c = n) (chunks k n l).
Proof.
  revert l. induction k as [|k IH]; intros l Hl; simpl; constructor.
  - rewrite length_take. lia.
  - apply IH. rewrite length_drop. lia.
Qed.

Lemma shaped_chunks k n l :
  k * n ≤ length l → shaped k (λ c, length c = n) (chunks k n l).
Proof. split; [apply length_chunks | by apply Forall_chunks]. Qed.

(** Cutting a list into pieces and joining them gives the list back. *)
Lemma concat_chunks k n l : length l = k * n → concat (chunks k n l) = l.
Proof.
  revert l. induction k as [|k IH]; intros l Hl; simpl.
  - by destruct l.
  - rewrite IH, take_drop; [done|]. rewrite length_drop. lia.
Qed.

(** Joining [k] pieces of length [n] and cutting again gives the pieces. *)
Lemma chunks_concat k n m :
  shaped k (λ c, length c = n) m → chunks k n (concat m) = m.
Proof.
  intros [<- H]. induction H as [|c m Hc _ IH]; simpl; [done|].
  by rewrite take_app_length', drop_app_length', IH.
Qed.

Lemma length_concat_shaped k n m :
  shaped k (λ c, length c = n) m → length (concat m) = k * n.
Proof.
  intros [<- H]. induction H as [|c m Hc _ IH]; simpl; [done|].
  rewrite length_app. lia.
Qed.

Lemma length_window start len l :
  start + len ≤ length l → length (window start len l) = len.
Proof. intros. unfold window. rewrite length_take, length_drop. lia. Qed.

Lemma lookup_window start len l i :
  i < len → window start len l !! i = l !! (start + i).
Proof. intros. unfold window. by rewrite lookup_take_lt, lookup_drop. Qed.

Lemma window_all l : window 0 (length l) l = l.
Proof. unfold window. by rewrite drop_0, take_ge. Qed.

Lemma length_transpose_n n m : length (transpose_n n m) ≤ n.
Proof.
  induction m as [|r m IH]; simpl; [by rewrite length_replicate|].
  rewrite length_zip_with. lia.
Qed.

Lemma shaped_transpose_n k n m :
  shaped k (λ r, length r = n) m →
  shaped n (λ c, length c = k) (transpose_n n m).
Proof.
  intros [<- H]. induction H as [|r m Hr _ [IH1 IH2]]; simpl.
  - by apply shaped_replicate.
  - split; [rewrite length_zip_with; lia|].
    apply Forall_lookup. intros i c Hc.
    apply lookup_zip_with_Some in Hc as (x & c' & -> & _ & Hc').
    simpl. f_equal. exact (Forall_lookup_1 _ _ _ _ IH2 Hc').
Qed.

Lemma lookup_transpose_n k n m i j r x :
  shaped k (λ r, length r = n) m →
  m !! i = Some r → r !! j = Some x →
  ∃ c, transpose_n n m !! j = Some c ∧ c !! i = Some x.
Proof.
  intros [<- H]. revert i. induction H as [|r' m Hr' Hm IH]; intros i Hi Hj.
  { done. }
  assert (j < n) by (apply lookup_lt_Some in Hj; destruct i; simplify_eq/=;
    [lia | by rewrite <-(Forall_lookup_1 _ _ _ _ Hm Hi)]).
  destruct (lookup_lt_is_Some_2 (transpose_n n m) j) as [c' Hc'].
  { by rewrite (proj1 (shaped_transpose_n (length m) n m (conj eq_refl Hm))). }
  destruct (lookup_lt_is_Some_2 r' j) as [y Hy]; [lia|].
  exists (y :: c'). simpl. split.
  { apply lookup_zip_with_Some. eauto. }
  destruct i as [|i]; simplify_eq/=; [done|].
  destruct (IH i Hi Hj) as (c & ? & ?). by simplify_eq.
Qed.

(** Column [j] of the transpose lists the entries at [j] of the rows. *)
Lemma transpose_n_lookup n m j c :
  transpose_n n m !! j = Some c → Forall2 (λ r x, r !! j = Some x) m c.
Proof.
  revert c. induction m as [|r m IH]; intros c; simpl.
  - intros Hc. apply lookup_replicate in Hc as [-> _]. constructor.
  - intros Hc. apply lookup_zip_with_Some in Hc as (x & c' & -> & ? & ?).
    constructor; [done|]. by apply IH.
Qed.

Lemma transpose_lookup m j c :
  transpose m !! j = Some c → Forall2 (λ r x, r !! j = Some x) m c.
Proof. apply transpose_n_lookup. Qed.

Lemma shaped_transpose k n m :
  0 < k → shaped k (λ r, length r = n) m →
  shaped n (λ c, length c = k) (transpose m).
Proof.
  intros Hk Hm. unfold transpose.
  destruct (shaped_nonempty _ _ _ Hk Hm) as (r & m' & -> & Hr).
  cbn [ncols]. rewrite Hr. by apply shaped_transpose_n.
Qed.

End list_lemmas.

#[export] Hint Resolve shaped_replicate shaped_chunks shaped_transpose_n : shape.
#[export] Hint Rewrite @length_chunks @length_replicate : res_simpl.

(** ** The library's own laws *)

(** C-numbered properties are stated in the component files; the lemmas
    above are their shared helpers. *)

(** Transposing twice gives the matrix back. *)
Lemma transpose_involutive {A} k n (m : list (list A)) :
  0 < k → 0 < n → shaped k (λ r, length r = n) m →
  transpose (transpose m) = m.
Proof.
  intros Hk Hn Hm.
  pose proof (shaped_transpose _ _ _ Hk Hm) as Ht.
  pose proof (shaped_transpose _ _ _ Hn Ht) as Htt.
  apply (list_eq_same_length _ _ k);
    [by apply shaped_length in Hm|by apply shaped_length in Htt|].
  intros i r' r Hi Hr' Hr. apply transpose_lookup in Hr'.
  pose proof (shaped_lookup _ _ _ _ _ Hm Hr) as Hlr.
  apply (list_eq_same_length _ _ n); [done| |].
  { rewrite <-(Forall2_length Hr'). by apply shaped_length in Ht. }
  intros j x' x Hj Hx' Hx.
  destruct (Forall2_lookup_r _ _ _ _ _ Hr' Hx') as (c' & Hc' & Hc'i).
  destruct (shaped_nonempty _ _ _ Hk Hm) as (r0 & m' & -> & Hr0).
  unfold transpose in Hc'. cbn [ncols] in Hc'. rewrite Hr0 in Hc'.
  destruct (lookup_transpose_n _ _ _ _ _ _ _ Hm Hr Hx) as (c & Hc & Hci).
  by simplify_eq.
Qed.

(** ** Relations between two lists *)

Lemma Forall2_Forall_right {A B} (Q : A → B → Prop) (P : B → Prop) l k :
  (∀ x y, Q x y → P y) → Forall2 Q l k → Forall P k.
Proof. intros HQ. induction 1; constructor; eauto. Qed.

Lemma Forall_zip_with_l {A B C} (f : A → B → C) (P : A → Prop)
    (Q : C → Prop) x y :
  (∀ a b, P a → Q (f a b)) → Forall P x → Forall Q (zip_with f x y).
Proof.
  intros Hf Hx. revert y. induction Hx as [|a x Ha _ IH]; intros [|b y];
    simpl; constructor; auto.
Qed.

Lemma zip_with_Forall2_l {A B} (f : A → B → A) (Q : A → B → Prop) x y :
  (∀ a b, Q a b → f a b = a) → Forall2 Q x y → zip_with f x y = x.
Proof. intros Hf. induction 1; simpl; f_equal; auto. Qed.

(** The columns of a matrix hold entries of the matrix. *)
Lemma Forall_transpose {A} (P : A → Prop) (m : list (list A)) :
  Forall (Forall P) m → Forall (Forall P) (transpose m).
Proof.
  intros Hm. apply Forall_lookup. intros j c Hc%transpose_lookup.
  induction Hc as [|r x m c Hr _ IH]; [constructor|].
  inversion_clear Hm as [|?? HPr Hm']. constructor; [|by apply IH].
  exact (Forall_lookup_1 _ _ _ _ HPr Hr).
Qed.

Lemma Forall2_of_right {A B} (P : B → Prop) (l : list A) (k : list B) :
  length l = length k → Forall P k → Forall2 (λ _ y, P y) l k.
Proof.
  intros Hlen Hk. revert l Hlen.
  induction Hk as [|y k Hy _ IH]; intros [|x l] ?; simplify_eq/=;
    constructor; auto.
Qed.
