(* ===== verification/Scalar.v ===== *)
(** * Scalars: the arithmetic the tensors are made of

    The program computes on 32-bit floats.  The model computes on any
    ordered field with an exponential and a square root, given as the class
    [ScalarOps] (the operations, with decidable equality and order, so that
    [relu], [masked_fill] and [audio != 0] are functions) and the class
    [ScalarLaws] (what the theorems may use).  The laws are those of exact
    arithmetic: rounding, infinities and NaN are outside the model.

    This file derives the ordered-field lemmas the components share, and
    defines the constants of the source ([0.1], [-1e9], [1e-5]), sums, dot
    products, [relu], [sigmoid] and [tanh]. *)

From Stdlib Require Import Field.
From S2P Require Import Prelude.

Declare Scope scalar_scope.
Delimit Scope scalar_scope with sc.

(** ** The interface *)

Class ScalarOps (R : Type) : Type := {
  sc_zero : R;
  sc_one : R;
  sc_add : R → R → R;
  sc_mul : R → R → R;
  sc_sub : R → R → R;
  sc_opp : R → R;
  sc_div : R → R → R;
  sc_inv : R → R;
  sc_le : R → R → Prop;
  sc_exp : R → R;
  sc_sqrt : R → R;
  sc_eq_dec :: EqDecision R;
  sc_le_dec :: RelDecision sc_le;
}.

Notation "0" := sc_zero : scalar_scope.
Notation "1" := sc_one : scalar_scope.
Infix "+" := sc_add : scalar_scope.
Infix "*" := sc_mul : scalar_scope.
Infix "-" := sc_sub : scalar_scope.
Notation "- x" := (sc_opp x) : scalar_scope.
Infix "/" := sc_div : scalar_scope.
Infix "≤" := sc_le : scalar_scope.

Definition sc_lt `{ScalarOps R} (x y : R) : Prop := sc_le x y ∧ x ≠ y.
Infix "<" := sc_lt : scalar_scope.

Local Open Scope scalar_scope.

Class ScalarLaws (R : Type) `{ScalarOps R} : Prop := {
  sc_field :
    field_theory 0 1 sc_add sc_mul sc_sub sc_opp sc_div sc_inv (@eq R);
  sc_le_refl (x : R) : x ≤ x;
  sc_le_trans (x y z : R) : x ≤ y → y ≤ z → x ≤ z;
  sc_le_antisym (x y : R) : x ≤ y → y ≤ x → x = y;
  sc_le_total (x y : R) : x ≤ y ∨ y ≤ x;
  sc_add_le_mono_l (x y z : R) : x ≤ y → z + x ≤ z + y;
  sc_mul_nonneg (x y : R) : 0 ≤ x → 0 ≤ y → 0 ≤ x * y;
  sc_exp_pos (x : R) : 0 < sc_exp x;
  sc_sqrt_pos (x : R) : 0 < x → 0 < sc_sqrt x;
}.

(** ** Definitions over the interface *)

Section defs.
Context `{ScalarOps R}.

(** A positive literal, by its binary digits. *)
Fixpoint sc_of_pos (p : positive) : R :=
  match p with
  | xH => 1
  | xO p => let r := sc_of_pos p in r + r
  | xI p => let r := sc_of_pos p in 1 + (r + r)
  end.

(** A size as a scalar ([math.sqrt(dim)], the divisor of a mean). *)
Definition sc_of_nat (n : nat) : R :=
  match n with
  | O => 0
  | S _ => sc_of_pos (Pos.of_nat n)
  end.

(** [-1e9], the fill value of masked attention scores. *)
Definition neg_1e9 : R := - sc_of_pos 1000000000.

(** [0.1], the dropout probability everywhere in the source. *)
Definition p_drop : R := 1 / sc_of_pos 10.

(** [1e-5], the default [eps] of [nn.LayerNorm]. *)
Definition ln_eps : R := 1 / sc_of_pos 100000.

Definition zeros (n : nat) : list R := replicate n 0.

(** The sum of a list, and the dot product of two. *)
Fixpoint vsum (v : list R) : R :=
  match v with
  | [] => 0
  | x :: v => x + vsum v
  end.
Definition dot (u v : list R) : R := vsum (zip_with sc_mul u v).

(** [F.relu]: [max(0, x)]. *)
Definition relu (x : R) : R := if decide (x ≤ 0) then 0 else x.

(** The logistic function and the hyperbolic tangent, from [exp]. *)
Definition sigmoid (x : R) : R := 1 / (1 + sc_exp (- x)).
Definition tanh (x : R) : R :=
  (sc_exp x - sc_exp (- x)) / (sc_exp x + sc_exp (- x)).

(** [x != 0], as a boolean. *)
Definition nonzero (x : R) : bool := bool_decide (x ≠ 0).

End defs.

(** ** Ordered-field lemmas *)

Create HintDb scalar discriminated.

Section laws.
Context `{ScalarLaws R}.
Implicit Types x y z w : R.

Add Field sc_fld : sc_field.

Lemma sc_1_neq_0 : (1 : R) ≠ 0.
Proof. apply sc_field. Qed.

Lemma sc_le_0_sub x y : x ≤ y ↔ 0 ≤ y - x.
Proof.
  split; intros Hxy.
  - replace 0 with (- x + x) by ring. replace (y - x) with (- x + y) by ring.
    by apply sc_add_le_mono_l.
  - replace x with (x + 0) by ring. replace y with (x + (y - x)) by ring.
    by apply sc_add_le_mono_l.
Qed.

Lemma sc_add_le_mono x y z w : x ≤ y → z ≤ w → x + z ≤ y + w.
Proof.
  intros Hxy Hzw. apply sc_le_trans with (x + w).
  - by apply sc_add_le_mono_l.
  - replace (x + w) with (w + x) by ring. replace (y + w) with (w + y) by ring.
    by apply sc_add_le_mono_l.
Qed.

Lemma sc_add_nonneg x y : 0 ≤ x → 0 ≤ y → 0 ≤ x + y.
Proof. intros. replace 0 with (0 + 0) by ring. by apply sc_add_le_mono. Qed.

Lemma sc_opp_nonneg x : x ≤ 0 ↔ 0 ≤ - x.
Proof. rewrite sc_le_0_sub. by replace (0 - x) with (- x) by ring. Qed.

Lemma sc_opp_le x y : x ≤ y → - y ≤ - x.
Proof.
  rewrite (sc_le_0_sub x y), (sc_le_0_sub (- y)).
  by replace (- x - - y) with (y - x) by ring.
Qed.

Lemma sc_sq_nonneg x : 0 ≤ x * x.
Proof.
  destruct (sc_le_total 0 x) as [Hx|Hx]; [by apply sc_mul_nonneg|].
  replace (x * x) with (- x * - x) by ring.
  apply sc_mul_nonneg; by apply sc_opp_nonneg.
Qed.

Lemma sc_0_le_1 : (0 : R) ≤ 1.
Proof. replace 1 with (1 * 1 : R) by ring. apply sc_sq_nonneg. Qed.

Lemma sc_0_lt_1 : (0 : R) < 1.
Proof. split; [apply sc_0_le_1|]. intros Heq. by apply sc_1_neq_0. Qed.

Lemma sc_lt_le x y : x < y → x ≤ y.
Proof. by intros [? _]. Qed.

Lemma sc_lt_neq x y : x < y → x ≠ y.
Proof. by intros [_ ?]. Qed.

Lemma sc_lt_irrefl x : ¬ x < x.
Proof. by intros [_ ?]. Qed.

Lemma sc_pos_neq_0 x : 0 < x → x ≠ 0.
Proof. intros [_ ?] ->. done. Qed.

Lemma sc_le_lt_trans x y z : x ≤ y → y < z → x < z.
Proof.
  intros Hxy [Hyz Hne]. split; [by eapply sc_le_trans|].
  intros ->. apply Hne. by apply sc_le_antisym.
Qed.

Lemma sc_lt_le_trans x y z : x < y → y ≤ z → x < z.
Proof.
  intros [Hxy Hne] Hyz. split; [by eapply sc_le_trans|].
  intros ->. apply Hne. by apply sc_le_antisym.
Qed.

Lemma sc_lt_trans x y z : x < y → y < z → x < z.
Proof. intros ? ?. eapply sc_lt_le_trans; [done|]. by apply sc_lt_le. Qed.

Lemma sc_not_le x y : ¬ x ≤ y → y < x.
Proof.
  intros Hn. destruct (sc_le_total x y) as [?|Hyx]; [done|].
  split; [done|]. intros ->. apply Hn, sc_le_refl.
Qed.

Lemma sc_lt_not_le x y : x < y → ¬ y ≤ x.
Proof. intros [Hxy Hne] Hyx. apply Hne. by apply sc_le_antisym. Qed.

Lemma sc_lt_0_sub x y : x < y ↔ 0 < y - x.
Proof.
  unfold sc_lt. rewrite <-sc_le_0_sub. split; intros [? Hne]; split; try done.
  - intros Heq. apply Hne. replace y with (x + (y - x)) by ring.
    rewrite <-Heq. ring.
  - intros ->. apply Hne. ring.
Qed.

Lemma sc_add_pos_nonneg x y : 0 < x → 0 ≤ y → 0 < x + y.
Proof.
  intros Hx Hy. apply sc_lt_le_trans with x; [done|].
  replace x with (x + 0) at 1 by ring. by apply sc_add_le_mono_l.
Qed.

Lemma sc_add_nonneg_pos x y : 0 ≤ x → 0 < y → 0 < x + y.
Proof. intros. replace (x + y) with (y + x) by ring. by apply sc_add_pos_nonneg. Qed.

Lemma sc_add_pos x y : 0 < x → 0 < y → 0 < x + y.
Proof. intros ? ?. apply sc_add_pos_nonneg; [done|]. by apply sc_lt_le. Qed.

Lemma sc_mul_eq_0 x y : x * y = 0 → x = 0 ∨ y = 0.
Proof.
  intros Hxy. destruct (decide (x = 0)) as [?|Hx]; [by left|right].
  replace y with (sc_inv x * (x * y)) by (by field).
  rewrite Hxy. ring.
Qed.

Lemma sc_mul_pos x y : 0 < x → 0 < y → 0 < x * y.
Proof.
  intros [Hx Hx'] [Hy Hy']. split; [by apply sc_mul_nonneg|].
  intros Heq. symmetry in Heq. by apply sc_mul_eq_0 in Heq as [?|?].
Qed.

Lemma sc_inv_pos x : 0 < x → 0 < sc_inv x.
Proof.
  intros Hx. pose proof (sc_pos_neq_0 x Hx) as Hne. split.
  - replace (sc_inv x) with (x * (sc_inv x * sc_inv x)) by (by field).
    apply sc_mul_nonneg; [by apply sc_lt_le | apply sc_sq_nonneg].
  - intros Heq. apply sc_1_neq_0.
    replace 1 with (sc_inv x * x) by (by field). rewrite <-Heq. ring.
Qed.

Lemma sc_div_pos x y : 0 < x → 0 < y → 0 < x / y.
Proof.
  intros Hx Hy. replace (x / y) with (x * sc_inv y).
  - apply sc_mul_pos; [done|]. by apply sc_inv_pos.
  - field. by apply sc_pos_neq_0.
Qed.

Lemma sc_div_nonneg x y : 0 ≤ x → 0 < y → 0 ≤ x / y.
Proof.
  intros Hx Hy. replace (x / y) with (x * sc_inv y).
  - apply sc_mul_nonneg; [done|]. by apply sc_lt_le, sc_inv_pos.
  - field. by apply sc_pos_neq_0.
Qed.

Lemma sc_mul_le_mono_nonneg_l x y z : 0 ≤ z → x ≤ y → z * x ≤ z * y.
Proof.
  intros Hz Hxy. apply sc_le_0_sub.
  replace (z * y - z * x) with (z * (y - x)) by ring.
  apply sc_mul_nonneg; [done|]. by apply (proj1 (sc_le_0_sub x y)).
Qed.

Lemma sc_of_pos_pos p : (0 : R) < sc_of_pos p.
Proof.
  induction p as [p IH|p IH|]; simpl.
  - apply sc_add_pos; [apply sc_0_lt_1|]. by apply sc_add_pos.
  - by apply sc_add_pos.
  - apply sc_0_lt_1.
Qed.

Lemma sc_of_pos_succ p : sc_of_pos (Pos.succ p) = 1 + sc_of_pos p :> R.
Proof. induction p as [p IH|p IH|]; simpl; [rewrite IH|..]; ring. Qed.

Lemma sc_of_nat_S n : sc_of_nat (S n) = 1 + sc_of_nat n :> R.
Proof.
  destruct n as [|n]; [simpl; ring|].
  unfold sc_of_nat. rewrite Nat2Pos.inj_succ by done. apply sc_of_pos_succ.
Qed.

Lemma sc_of_nat_pos n : (0 < n)%nat → (0 : R) < sc_of_nat n.
Proof. destruct n; [lia|]. intros _. apply sc_of_pos_pos. Qed.

Lemma sc_of_nat_nonneg n : (0 : R) ≤ sc_of_nat n.
Proof. destruct n; [apply sc_le_refl|]. apply sc_lt_le, sc_of_pos_pos. Qed.

Lemma sc_opp_pos_neg x : 0 < x → - x < 0.
Proof.
  intros Hx. apply sc_lt_0_sub. by replace (0 - - x) with x by ring.
Qed.

Lemma neg_1e9_neg : neg_1e9 < (0 : R).
Proof. apply sc_opp_pos_neg, sc_of_pos_pos. Qed.

Lemma p_drop_pos : (0 : R) < p_drop.
Proof. apply sc_div_pos; [apply sc_0_lt_1 | apply sc_of_pos_pos]. Qed.

Lemma ln_eps_pos : (0 : R) < ln_eps.
Proof. apply sc_div_pos; [apply sc_0_lt_1 | apply sc_of_pos_pos]. Qed.

End laws.

#[export] Hint Resolve sc_le_refl sc_0_le_1 sc_0_lt_1 sc_lt_le sc_sq_nonneg
  sc_add_nonneg sc_mul_nonneg sc_add_pos sc_mul_pos sc_inv_pos sc_div_pos
  sc_div_nonneg sc_of_pos_pos sc_of_nat_nonneg sc_exp_pos sc_pos_neq_0
  p_drop_pos ln_eps_pos : scalar.

Arguments sc_of_pos : simpl never.
Arguments sc_of_nat : simpl never.

(** ** Sums, dot products and the activation functions *)

Section vectors.
Context `{ScalarLaws R}.
Implicit Types (x y c : R) (u v : list R).

Add Field sc_fld_v : sc_field.

Lemma vsum_app u v : vsum (u ++ v) = vsum u + vsum v.
Proof. induction u as [|x u IH]; simpl; [|rewrite IH]; ring. Qed.

Lemma vsum_zeros n : vsum (zeros n) = 0 :> R.
Proof. unfold zeros. induction n as [|n IH]; simpl; [|rewrite IH]; ring. Qed.

Lemma vsum_all_zero v : Forall (λ x, x = 0) v → vsum v = 0.
Proof. induction 1 as [|x v -> _ IH]; simpl; [|rewrite IH]; ring. Qed.

Lemma vsum_replicate n x : vsum (replicate n x) = sc_of_nat n * x.
Proof.
  induction n as [|n IH]; [unfold sc_of_nat; simpl; ring|].
  rewrite sc_of_nat_S. simpl. rewrite IH. ring.
Qed.

Lemma vsum_scale c v : vsum ((λ x, c * x) <$> v) = c * vsum v.
Proof. induction v as [|x v IH]; csimpl; [|rewrite IH]; ring. Qed.

Lemma vsum_div c v : c ≠ 0 → vsum ((λ x, x / c) <$> v) = vsum v / c.
Proof.
  intros Hc. induction v as [|x v IH]; csimpl; [|rewrite IH]; by field.
Qed.

Lemma vsum_sub_const c v :
  vsum ((λ x, x - c) <$> v) = vsum v - sc_of_nat (length v) * c.
Proof.
  induction v as [|x v IH]; [unfold sc_of_nat; simpl; ring|].
  cbn [length]. csimpl. rewrite IH, sc_of_nat_S. ring.
Qed.

Lemma vsum_nonneg v : Forall (λ x, 0 ≤ x) v → 0 ≤ vsum v.
Proof. induction 1; simpl; auto with scalar. Qed.

Lemma vsum_pos v : v ≠ [] → Forall (λ x, 0 < x) v → 0 < vsum v.
Proof.
  intros Hv Hpos. destruct Hpos as [|x v Hx Hpos]; [done|]. simpl.
  apply sc_add_pos_nonneg; [done|]. apply vsum_nonneg.
  eapply Forall_impl; [|done]. auto with scalar.
Qed.

Lemma dot_nil_r u : dot u [] = 0.
Proof. by destruct u. Qed.

Lemma dot_cons x y u v : dot (x :: u) (y :: v) = x * y + dot u v.
Proof. done. Qed.

Lemma dot_comm u v : dot u v = dot v u.
Proof.
  revert v. induction u as [|x u IH]; intros [|y v]; try done.
  rewrite !dot_cons, IH. ring.
Qed.

(** A dot product with a vector of zeros is zero, whatever the weights. *)
Lemma dot_all_zero_r u v : Forall (λ x, x = 0) v → dot u v = 0.
Proof.
  intros Hv. revert u. induction Hv as [|y v -> _ IH]; intros [|x u]; try done.
  rewrite dot_cons, IH. ring.
Qed.

Lemma dot_all_zero_l u v : Forall (λ x, x = 0) u → dot u v = 0.
Proof. rewrite dot_comm. apply dot_all_zero_r. Qed.

Lemma relu_0 : relu 0 = 0 :> R.
Proof. unfold relu. by case_decide. Qed.

Lemma relu_nonneg x : 0 ≤ relu x.
Proof.
  unfold relu. case_decide; [apply sc_le_refl|]. by apply sc_lt_le, sc_not_le.
Qed.

Lemma relu_of_nonneg x : 0 ≤ x → relu x = x.
Proof. unfold relu. intros. case_decide; [by apply sc_le_antisym|done]. Qed.

Lemma relu_of_nonpos x : x ≤ 0 → relu x = 0.
Proof. unfold relu. intros. by case_decide. Qed.

Lemma relu_idemp x : relu (relu x) = relu x.
Proof. apply relu_of_nonneg, relu_nonneg. Qed.

Lemma sigmoid_denominator_pos x : 0 < 1 + sc_exp (- x).
Proof. auto with scalar. Qed.

Lemma sigmoid_pos x : 0 < sigmoid x.
Proof. apply sc_div_pos; auto with scalar. Qed.

Lemma sigmoid_lt_1 x : sigmoid x < 1.
Proof.
  pose proof (sigmoid_denominator_pos x) as Hd.
  pose proof (sc_pos_neq_0 _ Hd). apply sc_lt_0_sub. unfold sigmoid.
  replace (1 - 1 / (1 + sc_exp (- x)))
    with (sc_exp (- x) / (1 + sc_exp (- x))) by (by field).
  auto with scalar.
Qed.

(** One minus a sigmoid is a sigmoid's complement in (0, 1). *)
Lemma sigmoid_compl_pos x : 0 < 1 - sigmoid x.
Proof. apply (proj1 (sc_lt_0_sub _ _)), sigmoid_lt_1. Qed.

Lemma tanh_denominator_pos x : 0 < sc_exp x + sc_exp (- x).
Proof. auto with scalar. Qed.

Lemma tanh_lt_1 x : tanh x < 1.
Proof.
  pose proof (tanh_denominator_pos x) as Hd.
  pose proof (sc_pos_neq_0 _ Hd). apply sc_lt_0_sub. unfold tanh.
  replace (1 - (sc_exp x - sc_exp (- x)) / (sc_exp x + sc_exp (- x)))
    with ((sc_exp (- x) + sc_exp (- x)) / (sc_exp x + sc_exp (- x)))
    by (by field).
  auto with scalar.
Qed.

Lemma tanh_gt_opp_1 x : - (1) < tanh x.
Proof.
  pose proof (tanh_denominator_pos x) as Hd.
  pose proof (sc_pos_neq_0 _ Hd). apply sc_lt_0_sub. unfold tanh.
  replace ((sc_exp x - sc_exp (- x)) / (sc_exp x + sc_exp (- x)) - - (1))
    with ((sc_exp x + sc_exp x) / (sc_exp x + sc_exp (- x)))
    by (by field).
  auto with scalar.
Qed.

End vectors.

#[export] Hint Resolve relu_nonneg sigmoid_pos sigmoid_lt_1 sigmoid_compl_pos
  tanh_lt_1 tanh_gt_opp_1 vsum_nonneg : scalar.
#[export] Hint Rewrite @vsum_app @vsum_zeros @relu_0 @relu_idemp : res_simpl.
