(* ===== verification/ScalarQc.v ===== *)
(** * The scalar interface on the canonical rationals

    [Qc] is an ordered field with decidable equality and order on which
    every definition of the development runs by [vm_compute].  It has no
    exponential and no square root; the instance takes for [exp] and [sqrt]
    rational functions that satisfy the laws of [Scalar.ScalarLaws] (they
    are positive where the laws ask for it).  They are stand-ins for
    testing the definitions on concrete tensors and for showing that the
    laws are satisfiable: nothing is proved about how close they are to the
    real functions, and no theorem of the development depends on them. *)

From Stdlib Require Import QArith Qcanon Field.
From S2P Require Import Prelude Scalar.

Local Open Scope Qc_scope.

(** The operations of [Qc], with [exp] and [sqrt] left open. *)
Definition Qc_ops_with (e s : Qc → Qc) : ScalarOps Qc := {|
  sc_zero := 0;
  sc_one := 1;
  sc_add := Qcplus;
  sc_mul := Qcmult;
  sc_sub := Qcminus;
  sc_opp := Qcopp;
  sc_div := Qcdiv;
  sc_inv := Qcinv;
  sc_le := Qcle;
  sc_exp := e;
  sc_sqrt := s;
|}.

(** [1 + x + x^2/2] for [0 <= x], its reciprocal at [-x] otherwise. *)
Definition Qc_exp (x : Qc) : Qc :=
  if decide (0 ≤ x) then 1 + x + x * x / 2
  else 1 / (1 - x + x * x / 2).

(** One Newton step from 1 towards the square root. *)
Definition Qc_sqrt (x : Qc) : Qc :=
  if decide (x ≤ 0) then 0 else (1 + x) / 2.

#[export] Instance Qc_ops : ScalarOps Qc := Qc_ops_with Qc_exp Qc_sqrt.

Lemma Qc_lt_iff (x y : Qc) : x < y ↔ x ≤ y ∧ x ≠ y.
Proof.
  split.
  - intros Hlt. split; [by apply Qclt_le_weak | by apply Qclt_not_eq].
  - intros [Hle Hne]. by destruct (Qcle_lt_or_eq _ _ Hle).
Qed.

(** Any positive [e] and any [s] positive on positives give a model. *)
Lemma Qc_laws_with (e s : Qc → Qc) :
  (∀ x, 0 < e x) → (∀ x, 0 < x → 0 < s x) →
  @ScalarLaws Qc (Qc_ops_with e s).
Proof.
  intros He Hs. split; simpl.
  - exact Qcft.
  - apply Qcle_refl.
  - apply Qcle_trans.
  - apply Qcle_antisym.
  - intros x y. destruct (Qclt_le_dec x y); auto using Qclt_le_weak.
  - intros x y z. apply Qcplus_le_mono_l.
  - apply Qcmult_nonneg_nonneg.
  - intros x. apply Qc_lt_iff, He.
  - intros x Hx. apply Qc_lt_iff, Hs, Qc_lt_iff, Hx.
Qed.

(** The ordered-field lemmas of [Scalar.v], read on [Qc]. *)
Lemma Qc_field_laws : @ScalarLaws Qc (Qc_ops_with (λ _, 1) (λ _, 1)).
Proof. by apply Qc_laws_with. Qed.

Lemma Qc_half_sq_nonneg (x : Qc) : 0 ≤ x * x / 2.
Proof.
  apply (@sc_div_nonneg _ _ Qc_field_laws).
  - apply (@sc_sq_nonneg _ _ Qc_field_laws).
  - by apply Qc_lt_iff.
Qed.

Lemma Qc_exp_pos (x : Qc) : 0 < Qc_exp x.
Proof.
  unfold Qc_exp. case_decide as Hx.
  - apply Qcplus_pos_nonneg; [|apply Qc_half_sq_nonneg].
    by apply Qcplus_pos_nonneg.
  - apply Qc_lt_iff, (@sc_div_pos _ _ Qc_field_laws); [by apply Qc_lt_iff|].
    apply Qc_lt_iff, Qcplus_pos_nonneg; [|apply Qc_half_sq_nonneg].
    apply Qcplus_pos_nonneg; [done|].
    apply (@sc_opp_nonneg _ _ Qc_field_laws), Qclt_le_weak. by apply Qclt_nge.
Qed.

Lemma Qc_sqrt_pos (x : Qc) : 0 < x → 0 < Qc_sqrt x.
Proof.
  intros Hx. unfold Qc_sqrt. case_decide as Hx'; [by apply Qclt_nge in Hx|].
  apply Qc_lt_iff, (@sc_div_pos _ _ Qc_field_laws); [|by apply Qc_lt_iff].
  apply Qc_lt_iff, Qcplus_pos_pos; done.
Qed.

#[export] Instance Qc_laws : ScalarLaws Qc.
Proof. apply Qc_laws_with; [apply Qc_exp_pos | apply Qc_sqrt_pos]. Qed.

(** ** The definitions run *)

(** An integer literal of [Qc]. *)
Definition q (n : Z) : Qc := Q2Qc (inject_Z n).

(** Closes a decidable goal on concrete rationals by evaluation. *)
Ltac qc_done :=
  match goal with
  | |- ?P =>
      let d := constr:(_ : Decision P) in
      apply (@bool_decide_unpack P d); vm_compute; exact I
  end.

Example vsum_runs : vsum [q 1; q 2; q 3] = q 6.
Proof. qc_done. Qed.

Example dot_runs : dot [q 1; q 2; q 3] [q 4; q 5; q 6] = q 32.
Proof. qc_done. Qed.

Example relu_runs : relu <$> [q (-2); q 0; q 3] = [q 0; q 0; q 3].
Proof. qc_done. Qed.

Example neg_1e9_runs : neg_1e9 = q (-1000000000).
Proof. qc_done. Qed.

Example p_drop_runs : (p_drop * q 10 = q 1)%sc.
Proof. qc_done. Qed.

Example sigmoid_runs : sigmoid (q 0) = (q 1 / q 2)%sc.
Proof. qc_done. Qed.

Example tanh_runs : tanh (q 0) = q 0.
Proof. qc_done. Qed.
