(* ===== verification/Tensor.v ===== *)
(** * Tensors as nested lists

    A tensor of rank [k] is a list nested [k] deep, in row-major order: the
    outermost list runs over dimension 0.  A shape is the predicate that
    every level has the given length ([shape1] to [shape4]).  A nested list
    cannot tell [[0, 5]] from [[0, 7]]: the development states its theorems
    for sizes of at least 1 where a size is read off the data.

    [torch.transpose], [reshape], [view], [matmul] and broadcasting are
    defined here on nested lists; [add3] is [+] on two tensors of rank 3,
    with broadcasting.  [reshape] and [view] go through the flat
    list of elements, as PyTorch does on contiguous storage; the lemmas
    [reshape3_flatten3], [view3_flatten3] and [view4_flatten3] say what they
    are on the shapes the program uses. *)

From S2P Require Import Prelude Scalar.

(** ** Types and shapes *)

Abbreviation tensor1 A := (list A) (only parsing).
Abbreviation tensor2 A := (list (list A)) (only parsing).
Abbreviation tensor3 A := (list (list (list A))) (only parsing).
Abbreviation tensor4 A := (list (list (list (list A)))) (only parsing).

Section shapes.
Context {A : Type}.

Definition shape1 (a : nat) (x : tensor1 A) : Prop := length x = a.
Definition shape2 (a b : nat) (x : tensor2 A) : Prop := shaped a (shape1 b) x.
Definition shape3 (a b c : nat) (x : tensor3 A) : Prop :=
  shaped a (shape2 b c) x.
Definition shape4 (a b c d : nat) (x : tensor4 A) : Prop :=
  shaped a (shape3 b c d) x.

(** All elements, in storage order. *)
Definition flatten2 (x : tensor2 A) : list A := concat x.
Definition flatten3 (x : tensor3 A) : list A := concat (flatten2 <$> x).
Definition flatten4 (x : tensor4 A) : list A := concat (flatten3 <$> x).

(** [x.transpose(1, 2)] on rank 3 and rank 4: dimension 0 is kept. *)
Definition transpose_12 {B} (x : list (list (list B))) : list (list (list B)) :=
  transpose <$> x.

(** [x.transpose(-2, -1)] on rank 4. *)
Definition transpose_last (x : tensor4 A) : tensor4 A :=
  fmap (M:=list) transpose <$> x.

(** [flat.reshape([d0, -1])]: the last size is inferred. *)
Definition reshape2 (d0 : nat) (flat : list A) : res (tensor2 A) :=
  let n := length flat in
  _ ← check (negb (d0 =? 0) && (n mod d0 =? 0));
  Ok (chunks d0 (n / d0) flat).

(** [flat.reshape([d0, d1, -1])]. *)
Definition reshape3 (d0 d1 : nat) (flat : list A) : res (tensor3 A) :=
  let n := length flat in
  _ ← check (negb (d0 * d1 =? 0) && (n mod (d0 * d1) =? 0));
  let d2 := n / (d0 * d1) in
  Ok (chunks d1 d2 <$> chunks d0 (d1 * d2) flat).

(** [flat.view(d0, -1, d2)]. *)
Definition view3 (d0 d2 : nat) (flat : list A) : res (tensor3 A) :=
  let n := length flat in
  _ ← check (negb (d0 * d2 =? 0) && (n mod (d0 * d2) =? 0));
  let d1 := n / (d0 * d2) in
  Ok (chunks d1 d2 <$> chunks d0 (d1 * d2) flat).

(** [flat.view(d0, -1, d2, d3)]. *)
Definition view4 (d0 d2 d3 : nat) (flat : list A) : res (tensor4 A) :=
  let n := length flat in
  _ ← check (negb (d0 * d2 * d3 =? 0) && (n mod (d0 * d2 * d3) =? 0));
  let d1 := n / (d0 * d2 * d3) in
  Ok (fmap (M:=list) (chunks d2 d3) <$>
        (chunks d1 (d2 * d3) <$> chunks d0 (d1 * (d2 * d3)) flat)).

(** Indexing: [x[i][j]], [x[i][j][k]] and [x[i][j][k][l]]. *)
Definition get2 (x : tensor2 A) (i j : nat) : option A :=
  x !! i ≫= (.!! j).
Definition get3 (x : tensor3 A) (i j k : nat) : option A :=
  x !! i ≫= λ s, get2 s j k.
Definition get4 (x : tensor4 A) (i j k l : nat) : option A :=
  x !! i ≫= λ s, get3 s j k l.

(** The row [x[i][j][k]] of a tensor of rank 4. *)
Definition row4 (x : tensor4 A) (i j k : nat) : option (list A) :=
  x !! i ≫= λ s, s !! j ≫= (.!! k).

(** Broadcasting of one dimension: sizes agree, or one of them is 1. *)
Definition broadcast_zip {B C} (f : A → B → res C)
    (x : list A) (y : list B) : res (list C) :=
  if length x =? length y then mapM (λ p, f p.1 p.2) (zip x y)
  else match x, y with
       | [a], _ => mapM (f a) y
       | _, [b] => mapM (λ a, f a b) x
       | _, _ => Err ShapeError
       end.

End shapes.

#[export] Instance shaped_dec {A} (P : A → Prop) `{∀ x, Decision (P x)} n l :
  Decision (shaped n P l).
Proof. unfold shaped. apply _. Defined.
#[export] Instance shape1_dec {A} a (x : tensor1 A) : Decision (shape1 a x).
Proof. unfold shape1. apply _. Defined.
#[export] Instance shape2_dec {A} a b (x : tensor2 A) : Decision (shape2 a b x).
Proof. unfold shape2. apply _. Defined.
#[export] Instance shape3_dec {A} a b c (x : tensor3 A) :
  Decision (shape3 a b c x).
Proof. unfold shape3. apply _. Defined.
#[export] Instance shape4_dec {A} a b c d (x : tensor4 A) :
  Decision (shape4 a b c d x).
Proof. unfold shape4. apply _. Defined.

(** ** Arithmetic on tensors *)

Section arith.
Context `{ScalarOps R}.

(** [torch.matmul] on two matrices: rows of [x] against columns of [y]. *)
Definition matmul_raw (x y : tensor2 R) : tensor2 R :=
  (λ row, dot row <$> transpose y) <$> x.

Definition matmul2 (x y : tensor2 R) : res (tensor2 R) :=
  _ ← check (forallb (λ row, length row =? length y) x);
  Ok (matmul_raw x y).

(** [torch.matmul] on rank 4: a matrix product per pair of leading indices,
    the leading dimensions broadcast. *)
Definition matmul4 (x y : tensor4 R) : res (tensor4 R) :=
  broadcast_zip (broadcast_zip matmul2) x y.

(** Element-wise operations. *)
Definition vadd (u v : list R) : list R := zip_with sc_add u v.
Definition add2 (x y : tensor2 R) : tensor2 R := zip_with vadd x y.
Definition add3_raw (x y : tensor3 R) : tensor3 R := zip_with add2 x y.

(** [x + y] on rank 3: the operands broadcast against each other in each
    dimension, and sizes that do not fit are an error. *)
Definition add3 (x y : tensor3 R) : res (tensor3 R) :=
  broadcast_zip (broadcast_zip (broadcast_zip (λ a b, Ok (sc_add a b)))) x y.
Definition map2 (f : R → R) (x : tensor2 R) : tensor2 R := fmap (M:=list) f <$> x.
Definition map3 (f : R → R) (x : tensor3 R) : tensor3 R := map2 f <$> x.
Definition map4 (f : R → R) (x : tensor4 R) : tensor4 R := map3 f <$> x.

End arith.

(** ** Shape lemmas *)

Section shape_lemmas.
Context {A : Type}.
Implicit Types (v : tensor1 A) (x : tensor2 A) (y : tensor3 A) (z : tensor4 A).

Lemma shape2_replicate a b (e : A) : shape2 a b (replicate a (replicate b e)).
Proof. apply shaped_replicate, length_replicate. Qed.

Lemma shape3_length a b c y : shape3 a b c y → length y = a.
Proof. apply shaped_length. Qed.

Lemma shape4_length a b c d z : shape4 a b c d z → length z = a.
Proof. apply shaped_length. Qed.

Lemma length_flatten2 a b x : shape2 a b x → length (flatten2 x) = a * b.
Proof. apply length_concat_shaped. Qed.

Lemma shaped_flatten2 a b c y :
  shape3 a b c y → shaped a (λ r, length r = b * c) (flatten2 <$> y).
Proof. apply shaped_fmap. intros x. apply length_flatten2. Qed.

Lemma length_flatten3 a b c y : shape3 a b c y → length (flatten3 y) = a * (b * c).
Proof. intros. by apply length_concat_shaped, shaped_flatten2. Qed.

Lemma shaped_flatten3 a b c d z :
  shape4 a b c d z → shaped a (λ r, length r = b * (c * d)) (flatten3 <$> z).
Proof. apply shaped_fmap. intros y. apply length_flatten3. Qed.

Lemma length_flatten4 a b c d z :
  shape4 a b c d z → length (flatten4 z) = a * (b * (c * d)).
Proof. intros. by apply length_concat_shaped, shaped_flatten3. Qed.

(** Flattening a rank-4 tensor is flattening the rank-3 tensor whose rows
    are its flattened matrices. *)
Lemma flatten4_flatten3 z : flatten4 z = flatten3 (fmap (M:=list) flatten2 <$> z).
Proof.
  unfold flatten4, flatten3. f_equal. rewrite <-list_fmap_compose.
  by apply list_fmap_ext.
Qed.

Lemma shape3_fmap_flatten2 a b c d z :
  shape4 a b c d z → shape3 a b (c * d) (fmap (M:=list) flatten2 <$> z).
Proof.
  apply shaped_fmap. intros y. apply shaped_fmap. intros x.
  apply length_flatten2.
Qed.

Lemma chunks_fmap_concat (k n : nat) (y : tensor3 A) :
  Forall (shaped k (λ r, length r = n)) y →
  chunks k n <$> (flatten2 <$> y) = y.
Proof.
  intros Hy. rewrite <-list_fmap_compose.
  rewrite <-(list_fmap_id y) at 2. apply Forall_fmap_ext.
  eapply Forall_impl; [|done]. intros x Hx. by apply chunks_concat.
Qed.

Lemma shape_div_mod a b : 0 < a → (a * b) mod a = 0 ∧ (a * b) / a = b.
Proof.
  intros. rewrite (Nat.mul_comm a b).
  split; [apply Nat.Div0.mod_mul | apply Nat.div_mul; lia].
Qed.

(** [reshape([d0, d1, -1])] of the elements of a [[d0, d1, c]] tensor is
    that tensor. *)
Lemma reshape3_flatten3 d0 d1 c y :
  0 < d0 → 0 < d1 → shape3 d0 d1 c y → reshape3 d0 d1 (flatten3 y) = Ok y.
Proof.
  intros H0 H1 Hy. unfold reshape3.
  rewrite (length_flatten3 _ _ _ _ Hy), Nat.mul_assoc.
  destruct (shape_div_mod (d0 * d1) c) as [-> ->]; [lia|].
  rewrite check_true by (apply andb_true_iff; split;
    [apply negb_true_iff, Nat.eqb_neq; lia | by apply Nat.eqb_eq]).
  simpl. f_equal. unfold flatten3.
  rewrite chunks_concat by by apply shaped_flatten2.
  apply chunks_fmap_concat, Hy.
Qed.

(** The same for [view(d0, -1, d2)]. *)
Lemma view3_flatten3 d0 d1 d2 y :
  0 < d0 → 0 < d2 → shape3 d0 d1 d2 y → view3 d0 d2 (flatten3 y) = Ok y.
Proof.
  intros H0 H2 Hy. unfold view3.
  rewrite (length_flatten3 _ _ _ _ Hy).
  replace (d0 * (d1 * d2)) with ((d0 * d2) * d1) by lia.
  destruct (shape_div_mod (d0 * d2) d1) as [-> ->]; [lia|].
  rewrite check_true by (apply andb_true_iff; split;
    [apply negb_true_iff, Nat.eqb_neq; lia | by apply Nat.eqb_eq]).
  simpl. f_equal. unfold flatten3.
  rewrite chunks_concat by by apply shaped_flatten2.
  apply chunks_fmap_concat, Hy.
Qed.

(** [view(d0, -1, d2, d3)] of a [[d0, d1, d2 * d3]] tensor cuts every row
    into [d2] pieces of length [d3]. *)
Lemma view4_flatten3 d0 d1 d2 d3 y :
  0 < d0 → 0 < d2 → 0 < d3 → shape3 d0 d1 (d2 * d3) y →
  view4 d0 d2 d3 (flatten3 y) = Ok (fmap (M:=list) (chunks d2 d3) <$> y).
Proof.
  intros H0 H2 H3 Hy. unfold view4.
  rewrite (length_flatten3 _ _ _ _ Hy).
  replace (d0 * (d1 * (d2 * d3))) with ((d0 * d2 * d3) * d1) by lia.
  destruct (shape_div_mod (d0 * d2 * d3) d1) as [-> ->]; [lia|].
  rewrite check_true by (apply andb_true_iff; split;
    [apply negb_true_iff, Nat.eqb_neq; lia | by apply Nat.eqb_eq]).
  simpl. do 2 f_equal. unfold flatten3.
  rewrite chunks_concat by by apply shaped_flatten2.
  apply chunks_fmap_concat, Hy.
Qed.

(** [reshape([d0, d1, -1])] succeeds exactly when [d0 * d1] is not zero and
    divides the number of elements; it keeps the elements in order. *)
Lemma reshape3_ok d0 d1 c (flat : list A) :
  0 < d0 → 0 < d1 → length flat = d0 * d1 * c →
  ∃ y, reshape3 d0 d1 flat = Ok y ∧ shape3 d0 d1 c y ∧ flatten3 y = flat.
Proof.
  intros H0 H1 Hlen. unfold reshape3. rewrite Hlen.
  destruct (shape_div_mod (d0 * d1) c) as [-> ->]; [lia|].
  rewrite check_true by (apply andb_true_iff; split;
    [apply negb_true_iff, Nat.eqb_neq; lia | by apply Nat.eqb_eq]).
  eexists. split; [reflexivity|].
  assert (Hrows : shaped d0 (λ r, length r = d1 * c) (chunks d0 (d1 * c) flat))
    by (apply shaped_chunks; lia).
  split.
  - eapply shaped_fmap; [|done]. intros r Hr. simpl in Hr.
    apply shaped_chunks. lia.
  - unfold flatten3. rewrite <-list_fmap_compose.
    rewrite (Forall_fmap_ext_1 _ id), list_fmap_id; [apply concat_chunks; lia|].
    eapply Forall_impl; [|exact (shaped_Forall _ _ _ Hrows)].
    intros r Hr. apply concat_chunks. exact Hr.
Qed.

Lemma reshape3_err d0 d1 (flat : list A) :
  d0 * d1 = 0 ∨ length flat mod (d0 * d1) ≠ 0 →
  reshape3 d0 d1 flat = Err ShapeError.
Proof.
  intros Hbad. unfold reshape3. rewrite check_false; [done|].
  apply andb_false_iff.
  destruct Hbad; [left; apply negb_false_iff | right]; by apply Nat.eqb_neq
    || by apply Nat.eqb_eq.
Qed.

Lemma shape4_fmap_chunks d0 d1 d2 d3 y :
  shape3 d0 d1 (d2 * d3) y → shape4 d0 d1 d2 d3 (fmap (M:=list) (chunks d2 d3) <$> y).
Proof.
  apply shaped_fmap. intros x. apply shaped_fmap. intros v Hv.
  apply shaped_chunks. unfold shape1 in Hv. lia.
Qed.

Lemma shape3_transpose_12 {B} a b c (P : B → Prop) (y : list (list (list B))) :
  0 < b →
  shaped a (shaped b (shaped c P)) y →
  shaped a (shaped c (λ r, length r = b)) (transpose_12 y).
Proof.
  intros Hb. apply shaped_fmap. intros x Hx. apply shaped_transpose; [done|].
  eapply shaped_impl; [|done]. intros r. apply shaped_length.
Qed.

Lemma shape3_replicate a b c (e : A) :
  shape3 a b c (replicate a (replicate b (replicate c e))).
Proof. apply shaped_replicate, shape2_replicate. Qed.

Lemma shape4_replicate a b c d (e : A) :
  shape4 a b c d (replicate a (replicate b (replicate c (replicate d e)))).
Proof. apply shaped_replicate, shape3_replicate. Qed.

(** [transpose(1, 2)] of a [[a, b, c, d]] tensor is [[a, c, b, d]]. *)
Lemma shape4_transpose_12 a b c d z :
  0 < b → shape4 a b c d z → shape4 a c b d (transpose_12 z).
Proof.
  intros Hb. apply shaped_fmap. intros y Hy. split.
  { eapply shaped_length, shaped_transpose; [done|].
    eapply shaped_impl; [|done]. intros x. apply shaped_length. }
  apply Forall_lookup. intros j col Hcol.
  pose proof (transpose_lookup _ _ _ Hcol) as Hrows.
  pose proof Hrows as Hlen. apply Forall2_length in Hlen.
  split; [by rewrite <-Hlen, (shaped_length _ _ _ Hy)|].
  apply Forall_lookup. intros i v Hv.
  destruct (Forall2_lookup_r _ _ _ _ _ Hrows Hv) as (x & Hx & Hxv).
  eapply shaped_lookup; [|done].
  exact (shaped_lookup _ _ _ _ _ Hy Hx).
Qed.

End shape_lemmas.

Section map_lemmas.
Context `{ScalarOps R}.
Implicit Types (f : R → R).

Lemma shape2_map2 f a b (x : tensor2 R) : shape2 a b x → shape2 a b (map2 f x).
Proof.
  apply shaped_fmap. intros v. unfold shape1. by rewrite length_fmap.
Qed.

Lemma shape3_map3 f a b c (y : tensor3 R) :
  shape3 a b c y → shape3 a b c (map3 f y).
Proof. apply shaped_fmap. intros x. apply shape2_map2. Qed.

Lemma shape4_map4 f a b c d (z : tensor4 R) :
  shape4 a b c d z → shape4 a b c d (map4 f z).
Proof. apply shaped_fmap. intros y. apply shape3_map3. Qed.

End map_lemmas.

#[export] Hint Resolve shape2_replicate shape3_fmap_flatten2
  shape4_fmap_chunks : shape.

(** ** Broadcasting, products and sums *)

Section broadcast.
Context {A B C : Type}.
Implicit Types (f : A → B → res C) (g : A → B → C).

Lemma mapM_zip_Ok f g x y :
  Forall2 (λ a b, f a b = Ok (g a b)) x y →
  mapM (λ p, f p.1 p.2) (zip x y) = Ok (zip_with g x y).
Proof.
  induction 1 as [|a b x y Hab _ IH]; [done|]. simpl in *.
  by rewrite Hab, IH.
Qed.

(** Equal sizes: the operation is applied position by position. *)
Lemma broadcast_zip_same f g x y :
  Forall2 (λ a b, f a b = Ok (g a b)) x y →
  broadcast_zip f x y = Ok (zip_with g x y).
Proof.
  intros Hxy. unfold broadcast_zip.
  rewrite (Forall2_length Hxy), Nat.eqb_refl. by apply mapM_zip_Ok.
Qed.

(** A right operand of size 1 is used at every position of the left. *)
Lemma broadcast_zip_r1 f g x b :
  Forall (λ a, f a b = Ok (g a b)) x →
  broadcast_zip f x [b] = Ok ((λ a, g a b) <$> x).
Proof.
  intros Hx. unfold broadcast_zip.
  destruct x as [|a [|a' x]]; [done| |].
  - inversion_clear Hx as [|?? Ha _]. simpl. by rewrite Ha.
  - rewrite (proj2 (Nat.eqb_neq _ _)) by (simpl; lia).
    by apply (mapM_Ok_fmap (λ a, f a b) (λ a, g a b)).
Qed.

Lemma broadcast_zip_length_err f x y :
  length x ≠ length y → length x ≠ 1 → length y ≠ 1 →
  broadcast_zip f x y = Err ShapeError.
Proof.
  intros Hxy Hx Hy. unfold broadcast_zip.
  rewrite (proj2 (Nat.eqb_neq _ _) Hxy).
  by destruct x as [|? [|??]], y as [|? [|??]].
Qed.

End broadcast.

Section matmul.
Context `{ScalarOps R}.

Lemma shape2_matmul_raw a n c (x y : tensor2 R) :
  0 < n → shape2 a n x → shape2 n c y → shape2 a c (matmul_raw x y).
Proof.
  intros Hn Hx Hy. unfold matmul_raw. eapply shaped_fmap; [|exact Hx].
  intros row _. unfold shape1. rewrite length_fmap.
  by apply (shaped_length _ _ _ (shaped_transpose _ _ _ Hn Hy)).
Qed.

Lemma matmul2_ok a n c (x y : tensor2 R) :
  shape2 a n x → shape2 n c y → matmul2 x y = Ok (matmul_raw x y).
Proof.
  intros Hx Hy. unfold matmul2. rewrite check_true; [done|].
  apply forallb_Forall. eapply Forall_impl; [|exact (shaped_Forall _ _ _ Hx)].
  intros row Hrow. apply Nat.eqb_eq.
  by rewrite (shaped_length _ _ _ Hy).
Qed.

Lemma matmul2_err a n n' (x y : tensor2 R) :
  0 < a → n ≠ n' → shape2 a n x → length y = n' →
  matmul2 x y = Err ShapeError.
Proof.
  intros Ha Hn Hx Hy. unfold matmul2. rewrite check_false; [done|].
  destruct (shaped_nonempty _ _ _ Ha Hx) as (r & x' & -> & Hr). simpl.
  apply andb_false_iff. left. apply Nat.eqb_neq. unfold shape1 in Hr. lia.
Qed.

(** [matmul4] on [[b, h, t, n]] and [[b, h, n, c]]: no broadcasting is
    needed, and the result is [[b, h, t, c]]. *)
Lemma matmul4_ok b h t n c (x y : tensor4 R) :
  0 < n → shape4 b h t n x → shape4 b h n c y →
  matmul4 x y = Ok (zip_with (zip_with matmul_raw) x y) ∧
  shape4 b h t c (zip_with (zip_with matmul_raw) x y).
Proof.
  intros Hn Hx Hy. split.
  - apply broadcast_zip_same.
    eapply Forall2_impl; [|exact (shaped_Forall2 _ _ _ _ _ Hx Hy)].
    intros xs ys [Hxs Hys]. simpl in *. apply broadcast_zip_same.
    eapply Forall2_impl; [|exact (shaped_Forall2 _ _ _ _ _ Hxs Hys)].
    intros xm ym [Hxm Hym]. by eapply matmul2_ok.
  - eapply shaped_zip_with; [|exact Hx|exact Hy]. intros xs ys Hxs Hys.
    eapply shaped_zip_with; [|exact Hxs|exact Hys]. intros xm ym Hxm Hym.
    by eapply shape2_matmul_raw.
Qed.

Lemma shape4_transpose_last b h t d (x : tensor4 R) :
  0 < t → shape4 b h t d x → shape4 b h d t (transpose_last x).
Proof.
  intros Ht Hx. unfold transpose_last. eapply shaped_fmap; [|exact Hx].
  intros xs Hxs. eapply shaped_fmap; [|exact Hxs].
  intros xm Hxm. by apply shaped_transpose.
Qed.

Lemma shape3_add3 a b c (x y : tensor3 R) :
  shape3 a b c x → shape3 a b c y → shape3 a b c (add3_raw x y).
Proof.
  intros Hx Hy. eapply shaped_zip_with; [|exact Hx|exact Hy].
  intros xs ys Hxs Hys. eapply shaped_zip_with; [|exact Hxs|exact Hys].
  intros u v Hu Hv. unfold shape1, vadd in *. rewrite length_zip_with. lia.
Qed.

(** On operands of one shape [add3] is the element-wise sum. *)
Lemma add3_ok a b c (x y : tensor3 R) :
  shape3 a b c x → shape3 a b c y → add3 x y = Ok (add3_raw x y).
Proof.
  intros Hx Hy. apply broadcast_zip_same.
  eapply Forall2_impl; [|exact (shaped_Forall2 _ _ _ _ _ Hx Hy)].
  intros xs ys [Hxs Hys]. simpl in *. apply broadcast_zip_same.
  eapply Forall2_impl; [|exact (shaped_Forall2 _ _ _ _ _ Hxs Hys)].
  intros u v [Hu Hv]. simpl in *.
  apply (broadcast_zip_same _ sc_add). apply Forall2_true; [done|].
  unfold shape1 in *. lia.
Qed.

End matmul.
