(* ===== verification/Nn.v ===== *)
(** * The layers of [torch.nn] that the program calls

    [Conv2d] (no bias, zero padding, dilation 1, one group), as the source
    constructs it on lines 28-31 and calls it on lines 41-44.  The value
    of an output element is the one of the PyTorch documentation:
    [out[co][i][j] = sum over ci, di, dj of
       weight[co][ci][di][dj] * padded[ci][i * sh + di][j * sw + dj]],
    and the output sizes are [(n + 2 * p - k) / s + 1].

    A time step [t] of a sample is the row [t] of each of its channels;
    [zero_at_time t x] says that these rows hold only zeros.  With a
    kernel of height 1, no padding and stride 1 on the time axis, a
    bias-free convolution maps a zero time step to a zero time step
    ([conv2d_zero_at_time]): this is what lets the program recognise the
    padding of the input in the extractor's output.

    [Linear] is [y = x W^T + b] on the last dimension, with an optional
    bias.  [softmax] is over the last dimension.  [Dropout] reads the
    Bernoulli draws of the run from a [Sampler] and counts them in the
    monad [M]; in evaluation mode it is the identity.  [masked_fill]
    broadcasts the mask against the tensor.  [LayerNorm] normalises the
    last dimension with the biased variance and [eps = 1e-5].

    The theorems are stated over the scalar interface; the last part of
    the file applies them at concrete inputs over the rationals. *)

From Stdlib Require Import Field Lia.
From S2P Require Import Prelude Scalar ScalarQc Tensor.

Local Open Scope scalar_scope.

(** ** Shared definitions on samples *)

Section samples.
Context `{ScalarOps R}.

(** Height and width of a sample [[C, H, W]], read off its first channel. *)
Definition dim_h (x : tensor3 R) : nat := ncols x.
Definition dim_w (x : tensor3 R) : nat :=
  match x with [] => O | ch :: _ => ncols ch end.

Definition all_zero (r : list R) : Prop := Forall (λ v, v = 0) r.

(** Row [t] of every channel of the sample is zero. *)
Definition zero_at_time (t : nat) (x : tensor3 R) : Prop :=
  Forall (λ ch : tensor2 R, ∀ r, ch !! t = Some r → all_zero r) x.

End samples.

(** ** [nn.Conv2d] *)

Module Conv2d.
Section with_scalar.
Context `{ScalarOps R}.

Record t : Type := make {
  in_channels : nat;
  out_channels : nat;
  kernel_size : nat * nat;
  padding : nat * nat;
  stride : nat * nat;
  weight : tensor4 R;  (* [out_channels, in_channels, kh, kw]; bias=False *)
}.

(** What the constructor guarantees: the weight has the shape the
    hyperparameters give, and the strides are positive. *)
Definition wf (c : t) : Prop :=
  shape4 (out_channels c) (in_channels c)
         (kernel_size c).1 (kernel_size c).2 (weight c) ∧
  (0 < (stride c).1)%nat ∧ (0 < (stride c).2)%nat.

(** The size of an output dimension. *)
Definition out_size (n p k s : nat) : nat := (n + 2 * p - k) / s + 1.

Definition pad_row (pw : nat) (r : list R) : list R :=
  zeros pw ++ r ++ zeros pw.

(** Zero padding of one channel: [ph] rows above and below, [pw] columns
    left and right. *)
Definition pad2d (ph pw : nat) (x : tensor2 R) : tensor2 R :=
  let w := (ncols x + 2 * pw)%nat in
  replicate ph (zeros w) ++ (pad_row pw <$> x) ++ replicate ph (zeros w).

(** The [kh] by [kw] patch of a channel whose corner is at [(i, j)]. *)
Definition patch (kh kw i j : nat) (x : tensor2 R) : tensor2 R :=
  window j kw <$> window i kh x.

(** Cross-correlation of a kernel with a patch. *)
Definition corr2 (k p : tensor2 R) : R := vsum (zip_with dot k p).

(** One output element: the sum over the input channels. *)
Definition conv_at (kh kw : nat) (wco xp : tensor3 R) (i j : nat) : R :=
  vsum (zip_with (λ k x, corr2 k (patch kh kw i j x)) wco xp).

(** The output of a sample whose height and width are [h] and [w]. *)
Definition forward_raw (c : t) (h w : nat) (x : tensor3 R) : tensor3 R :=
  let kh := (kernel_size c).1 in
  let kw := (kernel_size c).2 in
  let xp := pad2d (padding c).1 (padding c).2 <$> x in
  let ho := out_size h (padding c).1 kh (stride c).1 in
  let wo := out_size w (padding c).2 kw (stride c).2 in
  (λ wco,
     (λ i, (λ j, conv_at kh kw wco xp (i * (stride c).1) (j * (stride c).2))
             <$> seq 0 wo)
       <$> seq 0 ho)
    <$> weight c.

(** One sample [[C, H, W]]: the checks PyTorch makes, then the output. *)
Definition forward_sample (c : t) (x : tensor3 R) : res (tensor3 R) :=
  _ ← check (length x =? in_channels c);
  _ ← check (((kernel_size c).1 <=? dim_h x + 2 * (padding c).1)
             && ((kernel_size c).2 <=? dim_w x + 2 * (padding c).2));
  Ok (forward_raw c (dim_h x) (dim_w x) x).

(** [self.conv(x)] for a batch [x] of shape [[B, C, H, W]]. *)
Definition forward (c : t) (x : tensor4 R) : res (tensor4 R) :=
  mapM (forward_sample c) x.

End with_scalar.

Arguments t R : clear implicits.

(** ** Shapes and errors *)

Section shape.
Context `{ScalarOps R}.
Implicit Types (c : t R) (x : tensor3 R).

Lemma dims_of_shape a h w x :
  (0 < a)%nat → (0 < h)%nat → shape3 a h w x →
  length x = a ∧ dim_h x = h ∧ dim_w x = w.
Proof.
  intros Ha Hh Hx.
  destruct (shaped_nonempty _ _ _ Ha Hx) as (ch & x' & -> & Hch).
  destruct (shaped_nonempty _ _ _ Hh Hch) as (r & ch' & -> & Hr).
  split; [by apply shaped_length in Hx|].
  split; [by apply shaped_length in Hch | done].
Qed.

Lemma forward_sample_ok c h w x :
  (0 < in_channels c)%nat → (0 < h)%nat →
  shape3 (in_channels c) h w x →
  ((kernel_size c).1 ≤ h + 2 * (padding c).1)%nat →
  ((kernel_size c).2 ≤ w + 2 * (padding c).2)%nat →
  forward_sample c x = Ok (forward_raw c h w x).
Proof.
  intros Hc Hh Hx Hkh Hkw. unfold forward_sample.
  destruct (dims_of_shape _ _ _ _ Hc Hh Hx) as (-> & -> & ->).
  rewrite Nat.eqb_refl. simpl. rewrite check_true; [reflexivity|].
  apply andb_true_iff. split; by apply Nat.leb_le.
Qed.

Lemma forward_sample_inv c x y :
  forward_sample c x = Ok y → y = forward_raw c (dim_h x) (dim_w x) x.
Proof.
  unfold forward_sample. intros Hy.
  apply bind_Ok in Hy as (_ & _ & Hy). apply bind_Ok in Hy as (_ & _ & Hy).
  by injection Hy.
Qed.

Lemma shape_forward_raw c h w x :
  length (weight c) = out_channels c →
  shape3 (out_channels c)
    (out_size h (padding c).1 (kernel_size c).1 (stride c).1)
    (out_size w (padding c).2 (kernel_size c).2 (stride c).2)
    (forward_raw c h w x).
Proof.
  intros Hw. unfold forward_raw. split; [by rewrite length_fmap|].
  apply Forall_fmap, Forall_true. intros wco. simpl.
  split; [by rewrite length_fmap, length_seq|].
  apply Forall_fmap, Forall_true. intros i. simpl.
  unfold shape1. by rewrite length_fmap, length_seq.
Qed.

Lemma forward_sample_channels c x :
  length x ≠ in_channels c → forward_sample c x = Err ShapeError.
Proof.
  intros Hne. unfold forward_sample.
  rewrite (check_false (length x =? in_channels c)); [reflexivity|].
  by apply Nat.eqb_neq.
Qed.

Lemma forward_sample_kernel c x :
  length x = in_channels c →
  (dim_w x + 2 * (padding c).2 < (kernel_size c).2)%nat →
  forward_sample c x = Err ShapeError.
Proof.
  intros Hc Hk. unfold forward_sample.
  rewrite Hc, Nat.eqb_refl. simpl. rewrite check_false; [reflexivity|].
  apply andb_false_iff. right. apply Nat.leb_gt. lia.
Qed.

(** On a well-shaped batch every check passes and [forward] is the map of
    [forward_raw]. *)
Lemma conv2d_batch_ok c b h w (x : tensor4 R) :
  wf c → (0 < in_channels c)%nat → (0 < h)%nat →
  shape4 b (in_channels c) h w x →
  ((kernel_size c).1 ≤ h + 2 * (padding c).1)%nat →
  ((kernel_size c).2 ≤ w + 2 * (padding c).2)%nat →
  forward c x = Ok (forward_raw c h w <$> x) ∧
  shape4 b (out_channels c)
    (out_size h (padding c).1 (kernel_size c).1 (stride c).1)
    (out_size w (padding c).2 (kernel_size c).2 (stride c).2)
    (forward_raw c h w <$> x).
Proof.
  intros (Hw & _ & _) Hc Hh Hx Hkh Hkw. split.
  - apply mapM_Ok_fmap. eapply Forall_impl; [|exact (shaped_Forall _ _ _ Hx)].
    intros xs Hxs. by apply forward_sample_ok.
  - eapply shaped_fmap; [|done]. intros xs _.
    apply shape_forward_raw. by apply shaped_length in Hw.
Qed.

(** C29: a batch whose first sample has a number of channels other than
    [in_channels] is refused with a shape error. *)
Theorem conv2d_wrong_channels c xs (x : tensor4 R) :
  length xs ≠ in_channels c → forward c (xs :: x) = Err ShapeError.
Proof. intros Hne. unfold forward. simpl. by rewrite forward_sample_channels. Qed.

(** C30: a kernel wider than the padded input is refused with a shape
    error. *)
Theorem conv2d_kernel_too_wide c xs (x : tensor4 R) :
  length xs = in_channels c →
  (dim_w xs + 2 * (padding c).2 < (kernel_size c).2)%nat →
  forward c (xs :: x) = Err ShapeError.
Proof. intros ? ?. unfold forward. simpl. by rewrite forward_sample_kernel. Qed.

(** C14: on a batch of shape [[b, in_channels, h, w]] that the kernel fits,
    [forward] succeeds and the result has shape
    [[b, out_channels, (h + 2 ph - kh) / sh + 1, (w + 2 pw - kw) / sw + 1]]. *)
Theorem conv2d_forward_shape c b h w (x : tensor4 R) :
  wf c → (0 < in_channels c)%nat → (0 < h)%nat →
  shape4 b (in_channels c) h w x →
  ((kernel_size c).1 ≤ h + 2 * (padding c).1)%nat →
  ((kernel_size c).2 ≤ w + 2 * (padding c).2)%nat →
  ∃ y, forward c x = Ok y ∧
    shape4 b (out_channels c)
      (out_size h (padding c).1 (kernel_size c).1 (stride c).1)
      (out_size w (padding c).2 (kernel_size c).2 (stride c).2) y.
Proof. intros. eexists. by apply conv2d_batch_ok. Qed.

End shape.

(** ** Zero time steps *)

Section zero.
Context `{ScalarLaws R}.
Implicit Types (c : t R) (x : tensor3 R) (r : list R).

Lemma all_zero_zeros n : all_zero (zeros n : list R).
Proof. by apply Forall_replicate. Qed.

Lemma all_zero_pad_row pw r : all_zero r → all_zero (pad_row pw r).
Proof.
  intros. unfold all_zero, pad_row. rewrite !Forall_app.
  split_and!; [apply all_zero_zeros | done | apply all_zero_zeros].
Qed.

Lemma all_zero_window i n r : all_zero r → all_zero (window i n r).
Proof. intros. by apply Forall_take, Forall_drop. Qed.

Lemma corr2_all_zero (k p : tensor2 R) : Forall all_zero p → corr2 k p = 0.
Proof.
  intros Hp. apply vsum_all_zero, Forall_lookup. intros i v Hv.
  apply lookup_zip_with_Some in Hv as (kr & pr & -> & _ & Hpr).
  apply dot_all_zero_r. exact (Forall_lookup_1 _ _ _ _ Hp Hpr).
Qed.

Lemma window_1_rows {A} (l : list A) t (P : A → Prop) :
  (∀ a, l !! t = Some a → P a) → Forall P (window t 1 l).
Proof.
  intros Hl. apply Forall_lookup. intros i a Ha. unfold window in Ha.
  apply lookup_take_Some in Ha as [Ha Hi]. rewrite lookup_drop in Ha.
  apply Hl. by replace t with (t + i)%nat by lia.
Qed.

(** With kernel height 1 and no padding in time, the patch at row [t] of a
    channel whose row [t] is zero holds only zeros. *)
Lemma patch_zero_row pw kw t j (ch : tensor2 R) :
  (∀ r, ch !! t = Some r → all_zero r) →
  Forall all_zero (patch 1 kw t j (pad2d 0 pw ch)).
Proof.
  intros Hch. unfold patch, pad2d. simpl. rewrite app_nil_r.
  apply Forall_fmap, window_1_rows. intros r Hr. simpl.
  apply list_lookup_fmap_Some in Hr as (r0 & -> & Hr0).
  by apply all_zero_window, all_zero_pad_row, Hch.
Qed.

Lemma conv_at_zero kw pw (wco x : tensor3 R) t j :
  zero_at_time t x →
  conv_at 1 kw wco (pad2d 0 pw <$> x) t j = 0.
Proof.
  intros Hx. apply vsum_all_zero, Forall_lookup. intros i v Hv.
  apply lookup_zip_with_Some in Hv as (k & xp & -> & _ & Hxp).
  apply list_lookup_fmap_Some in Hxp as (ch & -> & Hch).
  apply corr2_all_zero, patch_zero_row.
  exact (Forall_lookup_1 _ _ _ _ Hx Hch).
Qed.

Lemma forward_raw_zero_at_time c h w x t :
  (kernel_size c).1 = 1%nat → (padding c).1 = O → (stride c).1 = 1%nat →
  zero_at_time t x → zero_at_time t (forward_raw c h w x).
Proof.
  intros Hk Hp Hs Hx. unfold forward_raw. rewrite Hk, Hp, Hs.
  apply Forall_fmap, Forall_true. intros wco r Hr. simpl in Hr.
  apply list_lookup_fmap_Some in Hr as (i & -> & Hi).
  apply lookup_seq in Hi as [-> _].
  apply Forall_fmap, Forall_true. intros j. simpl.
  rewrite Nat.mul_1_r. by apply conv_at_zero.
Qed.

(** C13: a bias-free convolution whose kernel has height 1, with no
    padding and stride 1 on the time axis, maps a time step that is zero in
    every input channel to a time step that is zero in every output
    channel, whatever the weights. *)
Theorem conv2d_zero_at_time c (x y : tensor4 R) b t xs :
  (kernel_size c).1 = 1%nat → (padding c).1 = O → (stride c).1 = 1%nat →
  forward c x = Ok y →
  x !! b = Some xs → zero_at_time t xs →
  ∃ ys, y !! b = Some ys ∧ zero_at_time t ys.
Proof.
  intros Hk Hp Hs Hy Hb Hz. apply mapM_Ok in Hy.
  destruct (Forall2_lookup_l _ _ _ _ _ Hy Hb) as (ys & Hys & Hf).
  exists ys. split; [done|]. rewrite (forward_sample_inv _ _ _ Hf).
  by apply forward_raw_zero_at_time.
Qed.

End zero.
End Conv2d.


(** ** [nn.Linear] *)

Module Linear.
Section with_scalar.
Context `{ScalarOps R}.

Record t : Type := make {
  in_features : nat;
  out_features : nat;
  weight : tensor2 R;        (* [out_features, in_features] *)
  bias : option (list R);    (* [out_features], or [None] for bias=False *)
}.

Definition wf (l : t) : Prop :=
  shape2 (out_features l) (in_features l) (weight l) ∧
  from_option (shape1 (out_features l)) True (bias l).

(** [y = x W^T + b] on one vector of features. *)
Definition forward_row (l : t) (x : list R) : list R :=
  let y := dot x <$> weight l in
  match bias l with Some b => vadd y b | None => y end.

Definition forward1 (l : t) (x : list R) : res (list R) :=
  _ ← check (length x =? in_features l);
  Ok (forward_row l x).

(** [self.fc(x)] on [[B, in]] and on [[B, T, in]]: the layer acts on the
    last dimension. *)
Definition forward2 (l : t) (x : tensor2 R) : res (tensor2 R) :=
  mapM (forward1 l) x.
Definition forward (l : t) (x : tensor3 R) : res (tensor3 R) :=
  mapM (forward2 l) x.

End with_scalar.

Arguments t R : clear implicits.

Section shape.
Context `{ScalarOps R}.
Implicit Types (l : t R).

Lemma length_forward_row l x :
  wf l → length (forward_row l x) = out_features l.
Proof.
  intros [[Hw _] Hb]. unfold forward_row.
  destruct (bias l) as [b|]; simpl in *; [unfold vadd|];
    rewrite ?length_zip_with, length_fmap, ?Hb; lia.
Qed.

Lemma forward1_ok l x :
  length x = in_features l → forward1 l x = Ok (forward_row l x).
Proof. intros Hx. unfold forward1. by rewrite Hx, Nat.eqb_refl. Qed.

Lemma forward1_err l x :
  length x ≠ in_features l → forward1 l x = Err ShapeError.
Proof.
  intros Hx. unfold forward1.
  by rewrite (check_false (length x =? _)) by by apply Nat.eqb_neq.
Qed.

Lemma forward2_ok l a (x : tensor2 R) :
  wf l → shape2 a (in_features l) x →
  forward2 l x = Ok (forward_row l <$> x) ∧
  shape2 a (out_features l) (forward_row l <$> x).
Proof.
  intros Hl Hx. split.
  - apply mapM_Ok_fmap. eapply Forall_impl; [|exact (shaped_Forall _ _ _ Hx)].
    intros r Hr. by apply forward1_ok.
  - eapply shaped_fmap; [|exact Hx]. intros r _. by apply length_forward_row.
Qed.

Lemma linear_forward_ok l a b (x : tensor3 R) :
  wf l → shape3 a b (in_features l) x →
  forward l x = Ok (fmap (M:=list) (forward_row l) <$> x) ∧
  shape3 a b (out_features l) (fmap (M:=list) (forward_row l) <$> x).
Proof.
  intros Hl Hx. split.
  - apply mapM_Ok_fmap. eapply Forall_impl; [|exact (shaped_Forall _ _ _ Hx)].
    intros s Hs. by apply (forward2_ok l b s Hl).
  - eapply shaped_fmap; [|exact Hx]. intros s Hs.
    by apply (forward2_ok l b s Hl).
Qed.

End shape.
End Linear.

(** ** [F.softmax(x, dim=-1)] *)

Section softmax.
Context `{ScalarOps R}.

Definition softmax (x : list R) : list R :=
  let e := sc_exp <$> x in
  let s := vsum e in
  (λ v, v / s) <$> e.

Definition softmax4 (x : tensor4 R) : tensor4 R :=
  fmap (M:=list) (fmap (M:=list) softmax) <$> x.

End softmax.

(** ** [nn.Dropout] *)

(** The Bernoulli draws of the run: [keep n] says whether the [n]-th
    element that a dropout layer visits is kept.  The state of the dropout
    monad [M] is the number of elements visited so far. *)
Class Sampler : Type := keep : nat → bool.

Module Dropout.
Section with_scalar.
Context `{ScalarOps R} `{Sampler}.

(** One element in training mode: zeroed, or scaled by [1 / (1 - p)]. *)
Definition drop (p : R) (x : R) : M R := λ n,
  Ok (if keep n then x / (1 - p) else 0, S n).

Definition forward3 (training : bool) (p : R) (x : tensor3 R) : M (tensor3 R) :=
  if training then mapM (mapM (mapM (drop p))) x else mret x.
Definition forward4 (training : bool) (p : R) (x : tensor4 R) : M (tensor4 R) :=
  if training then mapM (mapM (mapM (mapM (drop p)))) x else mret x.

(** [w] is what some draw makes of the element [v]. *)
Definition outcome (p : R) (v w : R) : Prop :=
  ∃ n, w = if keep n then v / (1 - p) else 0.

End with_scalar.
End Dropout.

(** ** [torch.masked_fill] *)

Section masked_fill.
Context `{ScalarOps R}.

(** [mask.unsqueeze(1)]: from [[B, 1, T]] to [[B, 1, 1, T]]. *)
Definition unsqueeze_1 {A} (x : tensor3 A) : tensor4 A := (λ s, [s]) <$> x.

(** [~mask] *)
Definition not4 (mask : tensor4 bool) : tensor4 bool :=
  fmap (M:=list) (fmap (M:=list) (fmap (M:=list) negb)) <$> mask.

(** [torch.masked_fill(x, mask, v)]: [v] where the mask holds, the two
    tensors broadcast against each other in each dimension. *)
Definition masked_fill (x : tensor4 R) (mask : tensor4 bool) (v : R) :
    res (tensor4 R) :=
  broadcast_zip (broadcast_zip (broadcast_zip (broadcast_zip
    (λ s (m : bool), Ok (if m then v else s))))) x mask.

(** The rows of a score tensor [[B, H, T, T]] under a key mask [[B, T]]:
    what [masked_fill] computes when no dimension has size 1. *)
Definition fill_row (v : R) (mrow : list bool) (row : list R) : list R :=
  zip_with (λ s (m : bool), if m then v else s) row mrow.

(** What [masked_fill] computes on scores [[B, H, T, T]] under a mask
    [[B, 1, 1, T]]: the one row of a sample's mask fills every row of the
    sample's scores. *)
Definition fill_sample (v : R) (s : tensor3 R) (m : tensor3 bool) : tensor3 R :=
  fmap (M:=list) (fill_row v (flatten3 m)) <$> s.
Definition fill_keys (v : R) (x : tensor4 R) (mask : tensor4 bool) : tensor4 R :=
  zip_with (fill_sample v) x mask.

End masked_fill.

(** ** [nn.LayerNorm] *)

Module LayerNorm.
Section with_scalar.
Context `{ScalarOps R}.

Record t : Type := make {
  normalized_shape : nat;
  weight : list R;
  bias : list R;
}.

Definition wf (l : t) : Prop :=
  length (weight l) = normalized_shape l ∧
  length (bias l) = normalized_shape l.

Definition mean (x : list R) : R := vsum x / sc_of_nat (length x).

(** The biased variance: the sum of squares is divided by the length. *)
Definition var (x : list R) : R :=
  let μ := mean x in
  vsum ((λ v, (v - μ) * (v - μ)) <$> x) / sc_of_nat (length x).

Definition normalize (x : list R) : list R :=
  let μ := mean x in
  let σ := sc_sqrt (var x + ln_eps) in
  (λ v, (v - μ) / σ) <$> x.

Definition forward_row (l : t) (x : list R) : list R :=
  vadd (zip_with sc_mul (normalize x) (weight l)) (bias l).

Definition forward1 (l : t) (x : list R) : res (list R) :=
  _ ← check (length x =? normalized_shape l);
  Ok (forward_row l x).

Definition forward (l : t) (x : tensor3 R) : res (tensor3 R) :=
  mapM (mapM (forward1 l)) x.

End with_scalar.

Arguments t R : clear implicits.
End LayerNorm.

(** ** Softmax rows are probability distributions *)

Section softmax_shape.
Context `{ScalarOps R}.

Lemma length_softmax (x : list R) : length (softmax x) = length x.
Proof. unfold softmax. by rewrite !length_fmap. Qed.

Lemma shape4_softmax4 a b c d (x : tensor4 R) :
  shape4 a b c d x → shape4 a b c d (softmax4 x).
Proof.
  intros Hx. unfold softmax4. eapply shaped_fmap; [|exact Hx].
  intros xs Hxs. eapply shaped_fmap; [|exact Hxs].
  intros xm Hxm. eapply shaped_fmap; [|exact Hxm].
  intros r Hr. unfold shape1. by rewrite length_softmax.
Qed.

End softmax_shape.

Section softmax_lemmas.
Context `{ScalarLaws R}.
Implicit Types (x : list R).
Add Field sc_fld_softmax : sc_field.

Lemma exp_sum_pos x : x ≠ [] → 0 < vsum (sc_exp <$> x).
Proof.
  intros Hx. apply vsum_pos; [by destruct x|].
  apply Forall_fmap, Forall_true. intros v. apply sc_exp_pos.
Qed.

Lemma softmax_pos x : Forall (λ v, 0 < v) (softmax x).
Proof.
  destruct (decide (x = [])) as [->|Hx]; [constructor|].
  unfold softmax. apply Forall_fmap, Forall_fmap, Forall_true. intros v.
  simpl. apply sc_div_pos; [apply sc_exp_pos|by apply exp_sum_pos].
Qed.

Lemma softmax_sum x : x ≠ [] → vsum (softmax x) = 1.
Proof.
  intros Hx. unfold softmax. pose proof (exp_sum_pos x Hx) as Hs.
  apply sc_pos_neq_0 in Hs. rewrite vsum_div by done. by field.
Qed.

Lemma softmax_replicate n c :
  (0 < n)%nat → softmax (replicate n c) = replicate n (1 / sc_of_nat n).
Proof.
  intros Hn. unfold softmax. rewrite !fmap_replicate, vsum_replicate.
  f_equal. pose proof (sc_pos_neq_0 _ (sc_exp_pos c)).
  pose proof (sc_pos_neq_0 _ (sc_of_nat_pos n Hn)). by field.
Qed.

End softmax_lemmas.

(** ** Dropout: shapes and draws *)

Section dropout_lemmas.
Context `{ScalarOps R} `{Sampler}.

Lemma drop_Ok p (v : R) n :
  ∃ y, Dropout.drop p v n = Ok (y, (n + 1)%nat) ∧ True.
Proof. eexists. unfold Dropout.drop. rewrite Nat.add_1_r. done. Qed.

Lemma dropout1_train p b (x : list R) n :
  shape1 b x →
  ∃ y, mapM (Dropout.drop p) x n = Ok (y, (n + b * 1)%nat) ∧ shape1 b y.
Proof.
  intros Hx.
  destruct (mapM_M_shaped (Dropout.drop p) (λ _, True) (λ _, True) 1 b x n)
    as (y & Hy & Hlen & _); [intros; apply drop_Ok| |by eauto].
  split; [done|]. by apply Forall_true.
Qed.

Lemma dropout2_train p a b (x : tensor2 R) n :
  shape2 a b x →
  ∃ y, mapM (mapM (Dropout.drop p)) x n = Ok (y, (n + a * (b * 1))%nat) ∧
    shape2 a b y.
Proof.
  intros Hx. eapply mapM_M_shaped; [|exact Hx].
  intros r k Hr. by apply dropout1_train.
Qed.

Lemma dropout3_train p a b c (x : tensor3 R) n :
  shape3 a b c x →
  ∃ y, Dropout.forward3 true p x n = Ok (y, (n + a * (b * (c * 1)))%nat) ∧
    shape3 a b c y.
Proof.
  intros Hx. eapply mapM_M_shaped; [|exact Hx].
  intros r k Hr. by apply dropout2_train.
Qed.

Lemma dropout4_train p a b c d (x : tensor4 R) n :
  shape4 a b c d x →
  ∃ y, Dropout.forward4 true p x n = Ok (y, (n + a * (b * (c * (d * 1))))%nat) ∧
    shape4 a b c d y.
Proof.
  intros Hx. eapply mapM_M_shaped; [|exact Hx].
  intros r k Hr. by apply dropout3_train.
Qed.

Lemma drop_outcome p (v w : R) n n' :
  Dropout.drop p v n = Ok (w, n') → Dropout.outcome p v w.
Proof. intros [= <- _]. by exists n. Qed.

Lemma outcome_cases p (v w : R) :
  Dropout.outcome p v w → w = 0 ∨ w = v / (1 - p).
Proof. intros [n ->]. destruct (keep n); auto. Qed.

Lemma outcome_all_dropped p (v w : R) :
  (∀ n, keep n = false) → Dropout.outcome p v w → w = 0.
Proof. intros Hk [n ->]. by rewrite Hk. Qed.

(** Every element of the result of a dropout in training mode is the
    outcome of a draw on the element at its position. *)
Lemma dropout3_outcome p (x y : tensor3 R) n n' :
  Dropout.forward3 true p x n = Ok (y, n') →
  Forall2 (Forall2 (Forall2 (Dropout.outcome p))) x y.
Proof.
  apply mapM_M_inv. intros ? ? ? ?. apply mapM_M_inv. intros ? ? ? ?.
  apply mapM_M_inv. intros ? ? ? ?. apply drop_outcome.
Qed.

Lemma dropout4_outcome p (x y : tensor4 R) n n' :
  Dropout.forward4 true p x n = Ok (y, n') →
  Forall2 (Forall2 (Forall2 (Forall2 (Dropout.outcome p)))) x y.
Proof.
  apply mapM_M_inv. intros ? ? ? ?. apply mapM_M_inv. intros ? ? ? ?.
  apply mapM_M_inv. intros ? ? ? ?. apply mapM_M_inv. intros ? ? ? ?.
  apply drop_outcome.
Qed.

(** In either mode a dropout layer keeps the shape; it makes one draw per
    element in training mode and none in evaluation mode. *)
Lemma dropout3_ok training p a b c (x : tensor3 R) n :
  shape3 a b c x →
  ∃ y, Dropout.forward3 training p x n =
         Ok (y, (n + (if training then a * b * c else 0))%nat) ∧
    shape3 a b c y.
Proof.
  intros Hx. destruct training.
  - destruct (dropout3_train p a b c x n Hx) as (y & -> & Hy).
    exists y. split; [f_equal; f_equal; lia|done].
  - exists x. by rewrite Nat.add_0_r.
Qed.

End dropout_lemmas.

(** ** [masked_fill] under a key mask *)

Section masked_fill_lemmas.
Context `{ScalarOps R}.
Implicit Types (x : tensor4 R) (mask : tensor4 bool) (v : R).

Lemma shape1_inv {A} (m : tensor3 A) c :
  shape3 1 1 c m → ∃ r, m = [[r]] ∧ length r = c.
Proof.
  intros [Hl Hm]. destruct m as [|m1 [|??]]; simplify_eq/=.
  inversion_clear Hm as [|?? [Hl1 Hm1] _].
  destruct m1 as [|r [|??]]; simplify_eq/=.
  inversion_clear Hm1 as [|?? Hr _]. by exists r.
Qed.

Lemma length_fill_row v mrow (row : list R) :
  length mrow = length row → length (fill_row v mrow row) = length row.
Proof. intros Hl. unfold fill_row. rewrite length_zip_with. lia. Qed.

Lemma masked_fill_sample v h t c (s : tensor3 R) (m : tensor3 bool) :
  shape3 h t c s → shape3 1 1 c m →
  broadcast_zip (broadcast_zip (broadcast_zip
    (λ a (k : bool), Ok (if k then v else a)))) s m = Ok (fill_sample v s m) ∧
  shape3 h t c (fill_sample v s m).
Proof.
  intros Hs (mrow & -> & Hm)%shape1_inv. unfold fill_sample, flatten3.
  simpl. rewrite !app_nil_r. split.
  - apply (broadcast_zip_r1 _ (λ a b, fill_row v mrow <$> a)).
    eapply Forall_impl; [|exact (shaped_Forall _ _ _ Hs)]. intros a Ha.
    apply (broadcast_zip_r1 _ (λ r _, fill_row v mrow r)).
    eapply Forall_impl; [|exact (shaped_Forall _ _ _ Ha)]. intros r Hr.
    apply (broadcast_zip_same _ (λ a (k : bool), if k then v else a)).
    apply Forall2_true; [done|]. unfold shape1 in Hr. lia.
  - eapply shaped_fmap; [|exact Hs]. intros a Ha.
    eapply shaped_fmap; [|exact Ha]. intros r Hr. unfold shape1 in *.
    rewrite length_fill_row; lia.
Qed.

(** [masked_fill] of scores [[b, h, t, c]] under a mask [[b, 1, 1, c]]:
    the mask of a sample is used for every head and every query. *)
Lemma masked_fill_ok v b h t c x mask :
  shape4 b h t c x → shape4 b 1 1 c mask →
  masked_fill x mask v = Ok (fill_keys v x mask) ∧
  shape4 b h t c (fill_keys v x mask).
Proof.
  intros Hx Hm. split.
  - apply broadcast_zip_same.
    eapply Forall2_impl; [|exact (shaped_Forall2 _ _ _ _ _ Hx Hm)].
    intros s m [Hs Hm']. by apply (masked_fill_sample v h t c).
  - eapply shaped_zip_with; [|exact Hx|exact Hm].
    intros s m Hs Hm'. by apply (masked_fill_sample v h t c).
Qed.

Lemma shape4_not4_unsqueeze b c (mask : tensor3 bool) :
  shape3 b 1 c mask → shape4 b 1 1 c (not4 (unsqueeze_1 mask)).
Proof.
  intros Hm. unfold not4, unsqueeze_1. rewrite <-list_fmap_compose.
  eapply shaped_fmap; [|exact Hm]. intros m [Hl Hr]. simpl.
  split; [done|]. apply Forall_singleton.
  eapply shaped_fmap; [|by split]. intros r Hr'. unfold shape1 in *.
  by rewrite length_fmap.
Qed.

(** Element [(i, j, q, k)] of the filled scores: [v] when key [k] of
    sample [i] is masked, the score otherwise. *)
Lemma get4_fill_keys v x (mask : tensor3 bool) i j q k s mk :
  get4 x i j q k = Some s → get3 mask i 0 k = Some mk →
  get4 (fill_keys v x (not4 (unsqueeze_1 mask))) i j q k =
    Some (if mk then s else v).
Proof.
  unfold get4, get3, get2, fill_keys, not4, unsqueeze_1. intros Hs Hmk.
  destruct (x !! i) as [xs|] eqn:Hi; simplify_eq/=.
  destruct (mask !! i) as [m|] eqn:Hmi; simplify_eq/=.
  rewrite <-list_fmap_compose.
  rewrite lookup_zip_with, Hi, list_lookup_fmap, Hmi. simpl.
  unfold fill_sample. rewrite list_lookup_fmap.
  destruct (xs !! j) as [xm|]; simplify_eq/=. rewrite list_lookup_fmap.
  destruct (xm !! q) as [row|]; simplify_eq/=.
  destruct m as [|mrow m']; simplify_eq/=. unfold fill_row, flatten3.
  simpl. rewrite lookup_zip_with, Hs. simpl.
  rewrite app_nil_r, lookup_app_l
    by (apply lookup_lt_is_Some; rewrite list_lookup_fmap, Hmk; eauto).
  rewrite list_lookup_fmap, Hmk. simpl. by destruct mk.
Qed.

End masked_fill_lemmas.

(** ** [LayerNorm]: the normalised row *)

Section layernorm_lemmas.
Context `{ScalarLaws R}.
Import LayerNorm.
Implicit Types (l : LayerNorm.t R) (x : list R).
Add Field sc_fld_ln : sc_field.

Lemma length_normalize x : length (normalize x) = length x.
Proof. unfold normalize. by rewrite length_fmap. Qed.

Lemma sc_div_0_l (y : R) : 0 / y = 0.
Proof. rewrite (Fdiv_def sc_field). ring. Qed.

Lemma var_nonneg x : 0 ≤ var x.
Proof.
  unfold var. destruct x as [|v x].
  { simpl. rewrite sc_div_0_l. apply sc_le_refl. }
  apply sc_div_nonneg; [|apply sc_of_nat_pos; simpl; lia].
  apply vsum_nonneg, Forall_fmap, Forall_true. intros w. apply sc_sq_nonneg.
Qed.

(** The denominator of the normalisation is positive: [eps] keeps it
    away from zero on a constant row. *)
Lemma sigma_pos x : 0 < sc_sqrt (var x + ln_eps).
Proof.
  apply sc_sqrt_pos, sc_add_nonneg_pos; [apply var_nonneg|apply ln_eps_pos].
Qed.

Lemma normalize_sum x : x ≠ [] → vsum (normalize x) = 0.
Proof.
  intros Hx. unfold normalize.
  pose proof (sc_pos_neq_0 _ (sigma_pos x)) as Hσ.
  assert (Hn : sc_of_nat (length x) ≠ (0 : R)).
  { apply sc_pos_neq_0, sc_of_nat_pos. destruct x; [done|simpl; lia]. }
  change (vsum (((λ w, w / sc_sqrt (var x + ln_eps)) ∘ (λ v, v - mean x))
             <$> x) = 0).
  rewrite list_fmap_compose.
  rewrite vsum_div, vsum_sub_const by done. unfold mean. by field.
Qed.

Lemma length_ln_forward_row l x :
  wf l → length x = normalized_shape l →
  length (forward_row l x) = normalized_shape l.
Proof.
  intros [Hw Hb] Hx. unfold forward_row, vadd.
  rewrite !length_zip_with, length_normalize. lia.
Qed.

Lemma layernorm_forward_ok l a b (y : tensor3 R) :
  wf l → shape3 a b (normalized_shape l) y →
  forward l y = Ok (fmap (M:=list) (forward_row l) <$> y) ∧
  shape3 a b (normalized_shape l) (fmap (M:=list) (forward_row l) <$> y).
Proof.
  intros Hl Hy. split.
  - apply mapM_Ok_fmap. eapply Forall_impl; [|exact (shaped_Forall _ _ _ Hy)].
    intros s Hs. apply mapM_Ok_fmap.
    eapply Forall_impl; [|exact (shaped_Forall _ _ _ Hs)].
    intros r Hr. unfold forward1. by rewrite Hr, Nat.eqb_refl.
  - eapply shaped_fmap; [|exact Hy]. intros s Hs.
    eapply shaped_fmap; [|exact Hs]. intros r Hr.
    by apply length_ln_forward_row.
Qed.

End layernorm_lemmas.

(** ** The properties of the layers *)

Section layer_properties.
Context `{ScalarLaws R}.
Add Field sc_fld_props : sc_field.

(** C7: a softmax row is a probability distribution: every weight is
    positive and the weights of a non-empty row sum to one. *)
Theorem softmax_distribution (x : list R) :
  x ≠ [] →
  length (softmax x) = length x ∧ Forall (λ v, 0 < v) (softmax x) ∧
  vsum (softmax x) = 1.
Proof.
  intros Hx. split; [apply length_softmax|].
  split; [apply softmax_pos|by apply softmax_sum].
Qed.

(** C8: [masked_fill] of scores [[b, h, t, c]] with the negation of a
    key mask [[b, 1, c]] succeeds and keeps the shape, and element
    [(i, j, q, k)] of the result is the fill value when key [k] of sample
    [i] is masked and the score otherwise, for every head [j] and every
    query [q]. *)
Theorem masked_fill_key v b h t c (x : tensor4 R) (mask : tensor3 bool) :
  shape4 b h t c x → shape3 b 1 c mask →
  ∃ y, masked_fill x (not4 (unsqueeze_1 mask)) v = Ok y ∧
    shape4 b h t c y ∧
    ∀ i j q k s mk,
      get4 x i j q k = Some s → get3 mask i 0 k = Some mk →
      get4 y i j q k = Some (if mk then s else v).
Proof.
  intros Hx Hm. exists (fill_keys v x (not4 (unsqueeze_1 mask))).
  destruct (masked_fill_ok v b h t c x _ Hx (shape4_not4_unsqueeze _ _ _ Hm))
    as [E S].
  split; [done|]. split; [done|]. intros. by apply get4_fill_keys.
Qed.

(** C25: on an input [[a, b, in_features]] a linear layer returns
    [[a, b, out_features]]. *)
Theorem linear_forward_shape (l : Linear.t R) a b (x : tensor3 R) :
  Linear.wf l → shape3 a b (Linear.in_features l) x →
  ∃ y, Linear.forward l x = Ok y ∧ shape3 a b (Linear.out_features l) y.
Proof. intros. eexists. by apply Linear.linear_forward_ok. Qed.

(** C26: a linear layer refuses an input whose first row does not have
    [in_features] features. *)
Theorem linear_wrong_features (l : Linear.t R) (r : list R) s (x : tensor3 R) :
  length r ≠ Linear.in_features l →
  Linear.forward l ((r :: s) :: x) = Err ShapeError.
Proof.
  intros Hr. unfold Linear.forward, Linear.forward2. simpl.
  by rewrite Linear.forward1_err.
Qed.

(** C27: the normalised row of [LayerNorm] has mean zero: its entries
    sum to zero. *)
Theorem layernorm_mean_zero (x : list R) :
  x ≠ [] →
  length (LayerNorm.normalize x) = length x ∧
  vsum (LayerNorm.normalize x) = 0.
Proof. intros. split; [apply length_normalize|by apply normalize_sum]. Qed.

End layer_properties.

Section dropout_properties.
Context `{ScalarOps R} `{Sampler}.

(** C28: a dropout layer keeps the shape of its input.  In training
    mode it makes one draw per element, and every element of the result
    is zero or the element of the input at the same position divided by
    [1 - p]; in evaluation mode it returns its input and makes no
    draw. *)
Theorem dropout_forward3_spec training p a b c (x : tensor3 R) n :
  shape3 a b c x →
  ∃ y, Dropout.forward3 training p x n =
         Ok (y, (n + if training then a * b * c else 0)%nat) ∧
    shape3 a b c y ∧
    if training
    then Forall2 (Forall2 (Forall2 (λ v w, w = 0 ∨ w = v / (1 - p)))) x y
    else y = x.
Proof.
  intros Hx. destruct (dropout3_ok training p a b c x n Hx) as (y & E & S).
  exists y. split; [done|]. split; [done|]. destruct training.
  - eapply Forall2_impl; [|exact (dropout3_outcome _ _ _ _ _ E)].
    intros ? ? ?. eapply Forall2_impl; [|done].
    intros ? ? ?. eapply Forall2_impl; [|done]. apply outcome_cases.
  - by injection E as <-.
Qed.

End dropout_properties.

(** ** The properties at concrete inputs, over the rationals *)

Module Nn_examples.

Definition c0 : Conv2d.t Qcanon.Qc :=
  Conv2d.make 1 1 (1%nat, 2%nat) (0%nat, 0%nat) (1%nat, 1%nat) [[[[q 1; q 1]]]].
Definition x0 : tensor4 Qcanon.Qc := [[[[q 0; q 0; q 0]; [q 1; q 2; q 3]]]].
Definition y0 : tensor4 Qcanon.Qc := [[[[q 0; q 0]; [q 3; q 5]]]].
Definition l0 : Linear.t Qcanon.Qc :=
  Linear.make 2 1 [[q 1; q 2]] (Some [q 1]).
Definition scores0 : tensor4 Qcanon.Qc := [[[[q 1; q 2]; [q 3; q 4]]]].
Definition mask0 : tensor3 bool := [[[true; false]]].

End Nn_examples.

Import Nn_examples.

Lemma conv2d_zero_at_time_witness :
  ∃ ys, y0 !! 0%nat = Some ys ∧ zero_at_time 0 ys.
Proof.
  apply (Conv2d.conv2d_zero_at_time c0 x0 y0 0 0 [[[q 0; q 0; q 0]; [q 1; q 2; q 3]]]);
    [reflexivity..|qc_done|reflexivity|].
  constructor; [|constructor]. intros r [= <-]. by repeat constructor.
Defined.

Lemma conv2d_forward_shape_witness :
  ∃ y, Conv2d.forward c0 x0 = Ok y ∧ shape4 1 1 2 2 y.
Proof.
  apply (Conv2d.conv2d_forward_shape c0 1 2 3 x0); simpl; try lia; qc_done.
Defined.

Lemma conv2d_wrong_channels_witness :
  Conv2d.forward c0 [[[[q 1]]; [[q 2]]]] = Err ShapeError.
Proof. apply (Conv2d.conv2d_wrong_channels c0). simpl. lia. Defined.

Lemma conv2d_kernel_too_wide_witness :
  Conv2d.forward c0 [[[[q 1]]]] = Err ShapeError.
Proof. apply (Conv2d.conv2d_kernel_too_wide c0); simpl; lia. Defined.

Lemma softmax_distribution_witness :
  length (softmax [q 1; q 2]) = length [q 1; q 2] ∧
  Forall (λ v, 0 < v) (softmax [q 1; q 2]) ∧ vsum (softmax [q 1; q 2]) = 1.
Proof. apply (softmax_distribution [q 1; q 2]). discriminate. Defined.

Lemma masked_fill_key_witness :
  ∃ y, masked_fill scores0 (not4 (unsqueeze_1 mask0)) neg_1e9 = Ok y ∧
    shape4 1 1 2 2 y ∧
    ∀ i j q k s mk,
      get4 scores0 i j q k = Some s → get3 mask0 i 0 k = Some mk →
      get4 y i j q k = Some (if mk then s else neg_1e9).
Proof. apply (masked_fill_key neg_1e9 1 1 2 2 scores0 mask0); qc_done. Defined.

Lemma linear_forward_shape_witness :
  ∃ y, Linear.forward l0 [[[q 1; q 1]]] = Ok y ∧ shape3 1 1 1 y.
Proof.
  apply (linear_forward_shape l0 1 1 [[[q 1; q 1]]]); [|qc_done].
  split; [qc_done|reflexivity].
Defined.

Lemma linear_wrong_features_witness :
  Linear.forward l0 [[[q 1]]] = Err ShapeError.
Proof. apply (linear_wrong_features l0 [q 1] [] []). simpl. lia. Defined.

Lemma layernorm_mean_zero_witness :
  length (LayerNorm.normalize [q 1; q 3]) = length [q 1; q 3] ∧
  vsum (LayerNorm.normalize [q 1; q 3]) = 0.
Proof. apply (layernorm_mean_zero [q 1; q 3]). discriminate. Defined.

Lemma dropout_forward3_spec_witness :
  ∃ y, Dropout.forward3 (H0:=λ k, Nat.even k) true p_drop [[[q 1; q 2]]] 0%nat =
         Ok (y, (0 + 1 * 1 * 2)%nat) ∧
    shape3 1 1 2 y ∧
    Forall2 (Forall2 (Forall2 (λ v w, w = 0 ∨ w = v / (1 - p_drop))))
      [[[q 1; q 2]]] y.
Proof.
  apply (dropout_forward3_spec (H0:=λ k, Nat.even k) true p_drop 1 1 2
           [[[q 1; q 2]]] 0%nat). qc_done.
Defined.
