(* ===== verification/Extractor.v ===== *)
(** * [AudioExtractor] and [padding_mask_audio]

    [AudioExtractor] (lines 9-48 of the source) is four bias-free
    convolutions whose kernels have height 1, so that the 512 time steps of
    the input are never mixed, followed by [transpose(2, 1)] and
    [reshape([batch_size, 512, -1])].  [padding_mask_audio] (lines 51-57)
    keeps a time step when all of its features are non-zero.

    The module's state is the four convolutions; [init] is [__init__] with
    the drawn weights as arguments, [wf] the invariant that the module is
    such a value with weights of the shapes the hyperparameters give.

    [features] is the specification of [forward]: what one sample is mapped
    to, as a pure function.  [extractor_forward_refines] shows that the
    monadic [forward], with all its run-time checks, returns [features] of
    every sample on a well-shaped batch, and [extractor_forward_shape] that
    the result is [[b, 512, 768]].  [extractor_masks_padding] is the
    property the design aims at: a time step that is zero in both input
    channels is masked, whatever the weights. *)

From Stdlib Require Import Lia.
From S2P Require Import Prelude Scalar ScalarQc Tensor Nn.

Module AudioExtractor.
Section with_scalar.
Context `{ScalarOps R}.

Record t : Type := make {
  conv1 : Conv2d.t R;
  conv2 : Conv2d.t R;
  conv3 : Conv2d.t R;
  conv4 : Conv2d.t R;
}.

(** [__init__]: the hyperparameters of lines 28-31; [w1] to [w4] are the
    weights that [xavier_uniform_] leaves in the four layers. *)
Definition init (w1 w2 w3 w4 : tensor4 R) : t := {|
  conv1 := Conv2d.make 2 8 (1, 4) (0, 1) (1, 2) w1;
  conv2 := Conv2d.make 8 8 (1, 7) (0, 3) (1, 1) w2;
  conv3 := Conv2d.make 8 24 (1, 4) (0, 1) (1, 2) w3;
  conv4 := Conv2d.make 24 24 (1, 7) (0, 3) (1, 1) w4;
|}.

Definition weights_ok (w1 w2 w3 w4 : tensor4 R) : Prop :=
  shape4 8 2 1 4 w1 ∧ shape4 8 8 1 7 w2 ∧
  shape4 24 8 1 4 w3 ∧ shape4 24 24 1 7 w4.

(** The invariant of the module: it was built by [init], and its weights
    have kept their shapes. *)
Definition wf (m : t) : Prop :=
  ∃ w1 w2 w3 w4, m = init w1 w2 w3 w4 ∧ weights_ok w1 w2 w3 w4.

(** [forward], line by line. *)
Definition forward (m : t) (x : tensor4 R) : res (tensor3 R) :=
  let batch_size := length x in
  x ← Conv2d.forward (conv1 m) x;
  let x := map4 relu x in
  x ← Conv2d.forward (conv2 m) x;
  let x := map4 relu x in
  x ← Conv2d.forward (conv3 m) x;
  let x := map4 relu x in
  x ← Conv2d.forward (conv4 m) x;
  let x := transpose_12 x in
  reshape3 batch_size 512 (flatten4 x).

(** The four layers on one sample [[2, T, 128]], as a pure function: the
    result is [[24, T, 32]]. *)
Definition conv_features (m : t) (T : nat) (s : tensor3 R) : tensor3 R :=
  let s1 := map3 relu (Conv2d.forward_raw (conv1 m) T 128 s) in
  let s2 := map3 relu (Conv2d.forward_raw (conv2 m) T 64 s1) in
  let s3 := map3 relu (Conv2d.forward_raw (conv3 m) T 64 s2) in
  Conv2d.forward_raw (conv4 m) T 32 s3.

(** The specification of [forward] on one sample [[2, 512, 128]]: the four
    layers, then the 24 channels of each time step side by side. *)
Definition features (m : t) (s : tensor3 R) : tensor2 R :=
  flatten2 <$> transpose (conv_features m 512 s).

End with_scalar.

Arguments t R : clear implicits.
End AudioExtractor.

(** ** [padding_mask_audio] *)

Section mask.
Context `{ScalarOps R}.

(** [torch.all(audio != 0, axis=2).unsqueeze(-2)]: from [[B, T, F]] to
    [[B, 1, T]]. *)
Definition padding_mask_audio (audio : tensor3 R) : tensor3 bool :=
  (λ sample : tensor2 R, [forallb nonzero <$> sample]) <$> audio.

End mask.

Import AudioExtractor.

(** ** [forward] against its specification *)

Section refine.
Context `{ScalarOps R}.
Implicit Types (m : t R) (x : tensor4 R).

(** One layer of the extractor: the time axis keeps its size. *)
Lemma conv_stage (c : Conv2d.t R) b cin cout h w w' kw pw sw wt x :
  c = Conv2d.make cin cout (1, kw) (0, pw) (1, sw) wt →
  shape4 cout cin 1 kw wt → 0 < cin → 0 < h → 0 < sw → kw ≤ w + 2 * pw →
  w' = Conv2d.out_size w pw kw sw →
  shape4 b cin h w x →
  Conv2d.forward c x = Ok (Conv2d.forward_raw c h w <$> x) ∧
  shape4 b cout h w' (Conv2d.forward_raw c h w <$> x).
Proof.
  intros -> Hwt Hcin Hh Hsw Hkw -> Hx.
  destruct (Conv2d.conv2d_batch_ok
    (Conv2d.make cin cout (1, kw) (0, pw) (1, sw) wt) b h w x) as [E S];
    try done; simpl; try lia.
  { split; [done|]. simpl. lia. }
  split; [done|]. simpl in S.
  replace (Conv2d.out_size h 0 1 1) with h in S; [done|].
  unfold Conv2d.out_size. rewrite Nat.div_1_r. lia.
Qed.

Lemma map4_fmap (f : R → R) (g : tensor3 R → tensor3 R) x :
  map4 f (g <$> x) = (λ s, map3 f (g s)) <$> x.
Proof. unfold map4. by rewrite <-list_fmap_compose. Qed.

(** A layer in the middle of [forward]: the batch so far is [g] of every
    sample, and [k] is the rest of [forward]. *)
Lemma forward_stage (c : Conv2d.t R) b cin cout h w w' kw pw sw wt
    (g : tensor3 R → tensor3 R) x {A} (k : tensor4 R → res A) :
  c = Conv2d.make cin cout (1, kw) (0, pw) (1, sw) wt →
  shape4 cout cin 1 kw wt → 0 < cin → 0 < h → 0 < sw → kw ≤ w + 2 * pw →
  w' = Conv2d.out_size w pw kw sw →
  shape4 b cin h w (g <$> x) →
  (Conv2d.forward c (g <$> x) ≫= k) =
    k ((λ s, Conv2d.forward_raw c h w (g s)) <$> x) ∧
  shape4 b cout h w' ((λ s, Conv2d.forward_raw c h w (g s)) <$> x).
Proof.
  intros Hc Hwt ? ? ? ? Hw' Hx.
  destruct (conv_stage c b cin cout h w w' kw pw sw wt (g <$> x) Hc Hwt)
    as [-> S]; try done.
  by rewrite <-list_fmap_compose in S |- *.
Qed.

Lemma shape_relu_stage b c h w (g : tensor3 R → tensor3 R) x :
  shape4 b c h w (g <$> x) →
  shape4 b c h w ((λ s, map3 relu (g s)) <$> x).
Proof. intros Hx. rewrite <-map4_fmap. by apply shape4_map4. Qed.

(** The four layers of [forward] on a batch of any time length [T]: every
    check passes, and what is left is the [reshape]. *)
Lemma extractor_convs_ok m b T x :
  wf m → 0 < T → shape4 b 2 T 128 x →
  forward m x =
    reshape3 b 512 (flatten4 (transpose_12 (conv_features m T <$> x))) ∧
  shape4 b 24 T 32 (conv_features m T <$> x).
Proof.
  intros (w1 & w2 & w3 & w4 & -> & H1 & H2 & H3 & H4) HT Hx.
  unfold forward. rewrite (shape4_length _ _ _ _ _ Hx).
  rewrite <-(list_fmap_id x) in Hx. rewrite <-(list_fmap_id x) at 1.
  edestruct (forward_stage (conv1 (init w1 w2 w3 w4)) b 2 8 T 128 64 4 1 2)
    as [-> S1]; [reflexivity|done|lia..|reflexivity|exact Hx|].
  cbv beta zeta. rewrite map4_fmap. apply shape_relu_stage in S1.
  edestruct (forward_stage (conv2 (init w1 w2 w3 w4)) b 8 8 T 64 64 7 3 1)
    as [-> S2]; [reflexivity|done|lia..|reflexivity|exact S1|].
  cbv beta zeta. rewrite map4_fmap. apply shape_relu_stage in S2.
  edestruct (forward_stage (conv3 (init w1 w2 w3 w4)) b 8 24 T 64 32 4 1 2)
    as [-> S3]; [reflexivity|done|lia..|reflexivity|exact S2|].
  cbv beta zeta. rewrite map4_fmap. apply shape_relu_stage in S3.
  edestruct (forward_stage (conv4 (init w1 w2 w3 w4)) b 24 24 T 32 32 7 3 1)
    as [-> S4]; [reflexivity|done|lia..|reflexivity|exact S3|].
  done.
Qed.

Lemma extractor_forward_ok m b x :
  wf m → 0 < b → shape4 b 2 512 128 x →
  forward m x = Ok (features m <$> x) ∧ shape3 b 512 768 (features m <$> x).
Proof.
  intros Hm Hb Hx.
  destruct (extractor_convs_ok m b 512 x Hm) as [-> S4]; [lia|done|].
  apply (shape4_transpose_12 b 24 512 32) in S4; [|lia].
  apply shape3_fmap_flatten2 in S4.
  rewrite flatten4_flatten3, (reshape3_flatten3 b 512 (24 * 32)); [|lia..|done].
  unfold transpose_12, features in *. by rewrite <-!list_fmap_compose in *.
Qed.

(** C2: on a batch of shape [[b, 2, 512, 128]], [forward], with every
    run-time check of the four convolutions and of the reshape, returns the
    pure function [features] of each sample. *)
Theorem extractor_forward_refines m b x :
  wf m → 0 < b → shape4 b 2 512 128 x →
  forward m x = Ok (features m <$> x).
Proof. intros. by eapply extractor_forward_ok. Qed.

(** C15: on a batch of shape [[b, 2, 512, 128]], [forward] returns a tensor
    of shape [[b, 512, 768]]: the frequency axis shrinks 128, 64, 64, 32,
    32 and the 24 channels of 32 features are laid side by side. *)
Theorem extractor_forward_shape m b x :
  wf m → 0 < b → shape4 b 2 512 128 x →
  ∃ y, forward m x = Ok y ∧ shape3 b 512 768 y.
Proof. intros. eexists. by eapply extractor_forward_ok. Qed.

Lemma length_conv_flat m b T x :
  shape4 b 24 T 32 (conv_features m T <$> x) →
  length (flatten4 (transpose_12 (conv_features m T <$> x))) = b * T * 768.
Proof.
  intros S4. apply (shape4_transpose_12 b 24 T 32) in S4; [|lia].
  rewrite (length_flatten4 _ _ _ _ _ S4). lia.
Qed.

(** C22: the time length 512 is written into the reshape.  A batch with an
    even number [2 * k] of time steps passes every check, and the result
    has rows of [3 * k] features: 768 only when [k = 256]. *)
Theorem extractor_time_even m b k x :
  wf m → 0 < b → 0 < k → shape4 b 2 (2 * k) 128 x →
  ∃ y, forward m x = Ok y ∧ shape3 b 512 (3 * k) y.
Proof.
  intros Hm Hb Hk Hx.
  destruct (extractor_convs_ok m b (2 * k) x Hm) as [-> S4]; [lia|done|].
  destruct (reshape3_ok b 512 (3 * k)
    (flatten4 (transpose_12 (conv_features m (2 * k) <$> x))))
    as (y & Hy & Sy & _); [lia..| |by eauto].
  rewrite (length_conv_flat _ _ _ _ S4). lia.
Qed.

(** C23: a batch with an odd number of time steps is refused by the
    reshape with a shape error. *)
Theorem extractor_time_odd m b k x :
  wf m → 0 < b → shape4 b 2 (2 * k + 1) 128 x →
  forward m x = Err ShapeError.
Proof.
  intros Hm Hb Hx.
  destruct (extractor_convs_ok m b (2 * k + 1) x Hm) as [-> S4]; [lia|done|].
  apply reshape3_err. right. rewrite (length_conv_flat _ _ _ _ S4).
  replace (b * (2 * k + 1) * 768) with (b * 256 + (3 * k + 1) * (b * 512))
    by lia.
  rewrite Nat.Div0.mod_add, Nat.mod_small; lia.
Qed.

(** C24: a batch whose first sample does not have two channels is refused
    by the first convolution. *)
Theorem extractor_wrong_channels m xs x :
  wf m → length xs ≠ 2 → forward m (xs :: x) = Err ShapeError.
Proof.
  intros (w1 & w2 & w3 & w4 & -> & _) Hxs. unfold forward. simpl.
  by rewrite Conv2d.forward_sample_channels.
Qed.

End refine.

(** ** Zero time steps and the padding mask *)

Section zero.
Context `{ScalarLaws R}.
Implicit Types (m : t R) (s : tensor3 R).

Lemma zero_at_time_map3 (f : R → R) t s :
  f sc_zero = sc_zero → zero_at_time t s → zero_at_time t (map3 f s).
Proof.
  intros Hf Hs. apply Forall_fmap. eapply Forall_impl; [|exact Hs].
  intros ch Hch r Hr. simpl in Hr. unfold map2 in Hr.
  apply list_lookup_fmap_Some in Hr as (r0 & -> & Hr0).
  apply Forall_fmap. eapply Forall_impl; [|exact (Hch _ Hr0)].
  by intros v ->.
Qed.

Lemma zero_at_time_layer (c : Conv2d.t R) h w t s :
  (Conv2d.kernel_size c).1 = 1 → (Conv2d.padding c).1 = 0 →
  (Conv2d.stride c).1 = 1 → zero_at_time t s →
  zero_at_time t (map3 relu (Conv2d.forward_raw c h w s)).
Proof.
  intros. apply zero_at_time_map3; [apply relu_0|].
  by apply Conv2d.forward_raw_zero_at_time.
Qed.

(** The four layers keep a zero time step zero, for any time length. *)
Lemma conv_features_zero_at_time m T s t :
  wf m → zero_at_time t s → zero_at_time t (conv_features m T s).
Proof.
  intros (w1 & w2 & w3 & w4 & -> & _) Hs. unfold conv_features.
  set (m := init w1 w2 w3 w4).
  apply (zero_at_time_layer (conv1 m) T 128) in Hs; [|reflexivity..].
  apply (zero_at_time_layer (conv2 m) T 64) in Hs; [|reflexivity..].
  apply (zero_at_time_layer (conv3 m) T 64) in Hs; [|reflexivity..].
  by apply (Conv2d.forward_raw_zero_at_time (conv4 m) T 32) in Hs.
Qed.

Lemma features_zero_row m s t row :
  wf m → zero_at_time t s → features m s !! t = Some row → all_zero row.
Proof.
  intros Hm Hs Hrow. unfold features in Hrow.
  apply list_lookup_fmap_Some in Hrow as (col & -> & Hcol).
  apply transpose_lookup in Hcol.
  apply (conv_features_zero_at_time m 512) in Hs; [|done].
  apply Forall_concat, Forall_lookup. intros i r Hr.
  destruct (Forall2_lookup_r _ _ _ _ _ Hcol Hr) as (ch & Hch & Hchr).
  exact (Forall_lookup_1 _ _ _ _ Hs Hch _ Hchr).
Qed.

Lemma padding_mask_lookup (audio : tensor3 R) i ys :
  audio !! i = Some ys →
  padding_mask_audio audio !! i = Some [forallb nonzero <$> ys].
Proof. intros Hi. unfold padding_mask_audio. by rewrite list_lookup_fmap, Hi. Qed.

Lemma forallb_nonzero_all_zero (row : list R) :
  row ≠ [] → all_zero row → forallb nonzero row = false.
Proof.
  intros Hne Hz. destruct Hz as [|v row -> _]; [done|]. simpl.
  unfold nonzero. by rewrite bool_decide_eq_false_2 by auto.
Qed.

Lemma forallb_nonzero_zero (row : list R) j :
  row !! j = Some sc_zero → forallb nonzero row = false.
Proof.
  intros Hj. apply not_true_iff_false. intros Hall%forallb_Forall.
  apply (Forall_lookup_1 _ _ _ _ Hall) in Hj. unfold nonzero in Hj.
  by apply bool_decide_eq_true in Hj.
Qed.

(** C1: a time step that is zero in both channels of a sample of the
    input is masked in the extractor's output, whatever the weights:
    [forward] succeeds, and [padding_mask_audio] of its result holds
    [False] at that time step of that sample. *)
Theorem extractor_masks_padding m b x i xs t :
  wf m → 0 < b → shape4 b 2 512 128 x →
  x !! i = Some xs → t < 512 → zero_at_time t xs →
  ∃ y mrow, forward m x = Ok y ∧
    padding_mask_audio y !! i = Some [mrow] ∧ mrow !! t = Some false.
Proof.
  intros Hm Hb Hx Hi Ht Hz.
  destruct (extractor_forward_ok m b x Hm Hb Hx) as [E S].
  assert (Hys : (features m <$> x) !! i = Some (features m xs))
    by by rewrite list_lookup_fmap, Hi.
  pose proof (shaped_lookup _ _ _ _ _ S Hys) as [Hlen Hrows].
  destruct (lookup_lt_is_Some_2 (features m xs) t) as [row Hrow]; [lia|].
  exists (features m <$> x), (forallb nonzero <$> features m xs).
  split; [done|]. split; [by apply padding_mask_lookup|].
  rewrite list_lookup_fmap, Hrow. simpl. f_equal.
  apply forallb_nonzero_all_zero; [|by eapply features_zero_row].
  pose proof (Forall_lookup_1 _ _ _ _ Hrows Hrow) as Hr. unfold shape1 in Hr.
  by intros ->.
Qed.

(** The mask of a batch [[b, T, F]] has shape [[b, 1, T]]. *)
Lemma padding_mask_shape (audio : tensor3 R) b T F :
  shape3 b T F audio → shape3 b 1 T (padding_mask_audio audio).
Proof.
  intros Ha. unfold padding_mask_audio. eapply shaped_fmap; [|exact Ha].
  intros ys [Hlen _]. split; [done|]. apply Forall_singleton.
  unfold shape1. by rewrite length_fmap.
Qed.

(** C21: the mask keeps a time step exactly when every feature of it is
    non-zero. *)
Theorem padding_mask_spec (audio : tensor3 R) i ys t row :
  audio !! i = Some ys → ys !! t = Some row →
  ∃ mrow, padding_mask_audio audio !! i = Some [mrow] ∧
    ∃ v, mrow !! t = Some v ∧ (v = true ↔ Forall (λ f, f ≠ sc_zero) row).
Proof.
  intros Hi Ht. eexists. split; [by apply padding_mask_lookup|].
  exists (forallb nonzero row). rewrite list_lookup_fmap, Ht.
  split; [done|]. rewrite forallb_Forall. apply Forall_iff. intros f.
  unfold nonzero. apply bool_decide_eq_true.
Qed.

(** C20: one feature that is exactly zero masks the whole time step, even
    when every other feature of it is non-zero: the mask does not
    recognise padding, which is a time step that is zero throughout. *)
Theorem padding_mask_one_zero_feature (audio : tensor3 R) i ys t row j :
  audio !! i = Some ys → ys !! t = Some row → row !! j = Some sc_zero →
  ∃ mrow, padding_mask_audio audio !! i = Some [mrow] ∧
    mrow !! t = Some false.
Proof.
  intros Hi Ht Hj. eexists. split; [by apply padding_mask_lookup|].
  rewrite list_lookup_fmap, Ht. simpl. f_equal.
  by eapply forallb_nonzero_zero.
Qed.

End zero.

(** ** The properties at concrete inputs, over the rationals *)

Lemma wf_init `{ScalarOps R} (w1 w2 w3 w4 : tensor4 R) :
  weights_ok w1 w2 w3 w4 → wf (init w1 w2 w3 w4).
Proof. intros Hw. by exists w1, w2, w3, w4. Qed.

Module Extractor_examples.

Definition ones (a b c d : nat) : tensor4 Qcanon.Qc :=
  replicate a (replicate b (replicate c (replicate d (q 1)))).

(** An extractor whose weights are all 1. *)
Definition m0 : AudioExtractor.t Qcanon.Qc :=
  init (ones 8 2 1 4) (ones 8 8 1 7) (ones 24 8 1 4) (ones 24 24 1 7).

(** One sample of 511 time steps of ones and a last time step of zeros. *)
Definition xs0 : tensor3 Qcanon.Qc :=
  replicate 2 (replicate 511 (replicate 128 (q 1)) ++ [zeros 128]).
Definition x0 : tensor4 Qcanon.Qc := [xs0].

Lemma m0_wf : wf m0.
Proof. apply wf_init. repeat split; apply shape4_replicate. Qed.

Lemma x0_shape : shape4 1 2 512 128 x0.
Proof. qc_done. Qed.

Lemma xs0_zero : zero_at_time 511 xs0.
Proof.
  apply Forall_replicate. intros r Hr.
  rewrite lookup_app_r, length_replicate in Hr by (rewrite length_replicate; lia).
  injection Hr as <-. by apply Forall_replicate.
Qed.

End Extractor_examples.

Import Extractor_examples.

Lemma extractor_masks_padding_witness :
  ∃ y mrow, forward m0 x0 = Ok y ∧
    padding_mask_audio y !! 0 = Some [mrow] ∧ mrow !! 511 = Some false.
Proof.
  apply (extractor_masks_padding m0 1 x0 0 xs0 511);
    [apply m0_wf|lia|apply x0_shape|reflexivity|lia|apply xs0_zero].
Defined.

Lemma extractor_forward_refines_witness :
  forward m0 x0 = Ok (features m0 <$> x0).
Proof.
  apply (extractor_forward_refines m0 1 x0);
    [apply m0_wf|lia|apply x0_shape].
Defined.

Lemma extractor_forward_shape_witness :
  ∃ y, forward m0 x0 = Ok y ∧ shape3 1 512 768 y.
Proof.
  apply (extractor_forward_shape m0 1 x0); [apply m0_wf|lia|apply x0_shape].
Defined.

Lemma extractor_time_even_witness :
  ∃ y, forward m0 (ones 1 2 2 128) = Ok y ∧ shape3 1 512 3 y.
Proof.
  apply (extractor_time_even m0 1 1 (ones 1 2 2 128));
    [apply m0_wf|lia..|apply shape4_replicate].
Defined.

Lemma extractor_time_odd_witness :
  forward m0 (ones 1 2 1 128) = Err ShapeError.
Proof.
  apply (extractor_time_odd m0 1 0 (ones 1 2 1 128));
    [apply m0_wf|lia|apply shape4_replicate].
Defined.

Lemma extractor_wrong_channels_witness :
  forward m0 [[[[q 1]]]] = Err ShapeError.
Proof.
  apply (extractor_wrong_channels m0 [[[q 1]]] []); [apply m0_wf|simpl; lia].
Defined.

Lemma padding_mask_spec_witness :
  ∃ mrow, padding_mask_audio [[[q 1; q 2]; [q 0; q 0]]] !! 0 = Some [mrow] ∧
    ∃ v, mrow !! 0 = Some v ∧
      (v = true ↔ Forall (λ f, f ≠ sc_zero) [q 1; q 2]).
Proof.
  apply (padding_mask_spec [[[q 1; q 2]; [q 0; q 0]]] 0
           [[q 1; q 2]; [q 0; q 0]] 0 [q 1; q 2]); reflexivity.
Defined.

Lemma padding_mask_one_zero_feature_witness :
  ∃ mrow, padding_mask_audio [[[q 1; sc_zero; q 3]]] !! 0 = Some [mrow] ∧
    mrow !! 0 = Some false.
Proof.
  apply (padding_mask_one_zero_feature [[[q 1; sc_zero; q 3]]] 0
           [[q 1; sc_zero; q 3]] 0 [q 1; sc_zero; q 3] 1); reflexivity.
Defined.
