(* ===== verification/Attention.v ===== *)
(** * [Self_Attention] and [MHA]

    [Self_Attention] (lines 86-109 of the source) is scaled dot-product
    attention: the scores [Q K^T / sqrt(dim)], the masked keys filled with
    [-1e9], a softmax over the keys, a dropout, and the product with [V].
    The dropout layer is built inside the function, so it is always in
    training mode: [Self_Attention] runs in the dropout monad [M] whatever
    the mode of the model, and takes no [training] flag.

    [MHA] (lines 112-146) projects its three inputs, splits the features
    into [num_head] heads with [view] and [transpose(1, 2)], calls
    [Self_Attention], merges the heads and projects the result.  Its
    fields [scale] and [dropout] are never read by [forward]; the record
    keeps [dropout] and leaves out [scale], which is the square root of an
    empty tensor.

    When every draw drops its element, the attention values are zero and,
    the output projection having no bias, so is the output of [MHA]
    ([mha_forward_all_dropped]). *)

From Stdlib Require Import Field Lia.
From S2P Require Import Prelude Scalar ScalarQc Tensor Nn.

Local Open Scope scalar_scope.

Section attention.
Context `{ScalarOps R} `{Sampler}.

(** [x.size()[-1]] *)
Definition size_last (x : tensor4 R) : nat :=
  match x with [] => O | s :: _ => dim_w s end.

(** [Self_Attention(Q, K, V, mask)], line by line. *)
Definition Self_Attention (Q K V : tensor4 R) (mask : option (tensor3 bool)) :
    M (tensor4 R * tensor4 R) :=
  let K_t := transpose_last K in
  KV ← lift (matmul4 Q K_t);
  let dim := size_last Q in
  let score := map4 (λ v, v / sc_sqrt (sc_of_nat dim)) KV in
  score ← lift (match mask with
                | Some mask =>
                    let mask := unsqueeze_1 mask in
                    masked_fill score (not4 mask) neg_1e9
                | None => Ok score
                end);
  score ← Dropout.forward4 true p_drop (softmax4 score);
  att_value ← lift (matmul4 score V);
  mret (att_value, score).

End attention.

Module MHA.
Section with_scalar.
Context `{ScalarOps R} `{Sampler}.

Record t : Type := make {
  hidden_dim : nat;
  num_head : nat;
  head_dim : nat;
  Q_fc : Linear.t R;
  K_fc : Linear.t R;
  V_fc : Linear.t R;
  Out_fc : Linear.t R;
  dropout : R;
}.

(** [__init__]; [wq], [wk], [wv] and [wo] are the weights of the four
    bias-free projections. *)
Definition init (hidden_dim num_head : nat) (dropout : R)
    (wq wk wv wo : tensor2 R) : t := {|
  hidden_dim := hidden_dim;
  num_head := num_head;
  head_dim := hidden_dim / num_head;
  Q_fc := Linear.make hidden_dim hidden_dim wq None;
  K_fc := Linear.make hidden_dim hidden_dim wk None;
  V_fc := Linear.make hidden_dim hidden_dim wv None;
  Out_fc := Linear.make hidden_dim hidden_dim wo None;
  dropout := dropout;
|}.

(** The invariant: the number of heads divides the hidden dimension, and
    the four projections are square and have no bias. *)
Definition wf (m : t) : Prop :=
  (0 < num_head m)%nat ∧ (0 < hidden_dim m)%nat ∧
  (hidden_dim m mod num_head m = 0)%nat ∧
  head_dim m = (hidden_dim m / num_head m)%nat ∧
  Forall (λ l, Linear.wf l ∧ Linear.in_features l = hidden_dim m ∧
               Linear.out_features l = hidden_dim m ∧ Linear.bias l = None)
    [Q_fc m; K_fc m; V_fc m; Out_fc m].

(** [x.view(batch_size, -1, num_head, head_dim).transpose(1, 2)] *)
Definition split_heads (m : t) (batch_size : nat) (x : tensor3 R) :
    res (tensor4 R) :=
  x ← view4 batch_size (num_head m) (head_dim m) (flatten3 x);
  Ok (transpose_12 x).

(** [x.transpose(1, 2).contiguous().view(batch_size, -1, hidden_dim)] *)
Definition merge_heads (m : t) (batch_size : nat) (x : tensor4 R) :
    res (tensor3 R) :=
  view3 batch_size (hidden_dim m) (flatten4 (transpose_12 x)).

Definition forward (m : t) (Q_input K_input V_input : tensor3 R)
    (mask : option (tensor3 bool)) : M (tensor3 R) :=
  let batch_size := length Q_input in
  Q ← lift (Linear.forward (Q_fc m) Q_input ≫= split_heads m batch_size);
  K ← lift (Linear.forward (K_fc m) K_input ≫= split_heads m batch_size);
  V ← lift (Linear.forward (V_fc m) V_input ≫= split_heads m batch_size);
  '(att_value, score) ← Self_Attention Q K V mask;
  att_value ← lift (merge_heads m batch_size att_value);
  lift (Linear.forward (Out_fc m) att_value).

End with_scalar.

Arguments t R : clear implicits.
End MHA.

(** ** [Self_Attention] against its pure specification *)

Section attention_spec.
Context `{ScalarOps R} `{Sampler}.

(** The scores before the dropout, as a pure function. *)
Definition attention_scores (Q K : tensor4 R) (mask : option (tensor3 bool)) :
    tensor4 R :=
  let KV := zip_with (zip_with matmul_raw) Q (transpose_last K) in
  let score := map4 (λ v, v / sc_sqrt (sc_of_nat (size_last Q))) KV in
  softmax4 (match mask with
            | Some mask => fill_keys neg_1e9 score (not4 (unsqueeze_1 mask))
            | None => score
            end).

Lemma shape4_attention_scores b h t d Q K mask :
  (0 < t)%nat → (0 < d)%nat →
  shape4 b h t d Q → shape4 b h t d K →
  from_option (shape3 b 1 t) True mask →
  shape4 b h t t (attention_scores Q K mask).
Proof.
  intros Ht Hd HQ HK Hmask. unfold attention_scores.
  pose proof (shape4_transpose_last _ _ _ _ _ Ht HK) as HKt.
  destruct (matmul4_ok b h t d t Q _ Hd HQ HKt) as [_ S1].
  apply (shape4_map4 (λ v, v / sc_sqrt (sc_of_nat (size_last Q)))) in S1.
  apply shape4_softmax4. destruct mask as [mask|]; [|done].
  by apply masked_fill_ok, shape4_not4_unsqueeze.
Qed.

(** The checks of [Self_Attention] pass on operands of one shape, and what
    is left is the dropout of the scores and the product with [V]. *)
Lemma Self_Attention_pure b h t d Q K V mask :
  (0 < t)%nat → (0 < d)%nat →
  shape4 b h t d Q → shape4 b h t d K →
  from_option (shape3 b 1 t) True mask →
  Self_Attention Q K V mask =
    (score ← Dropout.forward4 true p_drop (attention_scores Q K mask);
     att_value ← lift (matmul4 score V);
     mret (att_value, score)).
Proof.
  intros Ht Hd HQ HK Hmask. unfold Self_Attention, attention_scores.
  pose proof (shape4_transpose_last _ _ _ _ _ Ht HK) as HKt.
  destruct (matmul4_ok b h t d t Q _ Hd HQ HKt) as [-> S1].
  rewrite lift_Ok_bind. cbv zeta.
  apply (shape4_map4 (λ v, v / sc_sqrt (sc_of_nat (size_last Q)))) in S1.
  destruct mask as [mask|]; [|done]. simpl in Hmask.
  by destruct (masked_fill_ok neg_1e9 b h t t _ _ S1
    (shape4_not4_unsqueeze _ _ _ Hmask)) as [-> _].
Qed.

Lemma Self_Attention_ok b h t d Q K V mask n :
  (0 < t)%nat → (0 < d)%nat →
  shape4 b h t d Q → shape4 b h t d K → shape4 b h t d V →
  from_option (shape3 b 1 t) True mask →
  ∃ att score,
    Self_Attention Q K V mask n = Ok ((att, score), (n + b * h * t * t)%nat) ∧
    shape4 b h t d att ∧ shape4 b h t t score.
Proof.
  intros Ht Hd HQ HK HV Hmask.
  rewrite (Self_Attention_pure b h t d) by done.
  pose proof (shape4_attention_scores b h t d Q K mask Ht Hd HQ HK Hmask) as S.
  destruct (dropout4_train p_drop b h t t _ n S) as (score & E & S').
  destruct (matmul4_ok b h t t d score V Ht S' HV) as [E' S''].
  eexists _, score. split; [|done].
  rewrite (M_bind_Ok _ _ _ _ _ E), (lift_bind_Ok _ _ _ _ E').
  unfold mret, M_ret. do 2 f_equal. lia.
Qed.

End attention_spec.

(** ** The heads of [MHA] *)

Section mha_lemmas.
Context `{ScalarOps R} `{Sampler}.
Implicit Types (m : MHA.t R) (x : tensor3 R).

Lemma mha_wf_dims m :
  MHA.wf m →
  (0 < MHA.num_head m)%nat ∧ (0 < MHA.head_dim m)%nat ∧
  MHA.hidden_dim m = (MHA.num_head m * MHA.head_dim m)%nat.
Proof.
  intros (HH & Hh & Hmod & -> & _).
  pose proof (Nat.div_mod (MHA.hidden_dim m) (MHA.num_head m) ltac:(lia))
    as Hdiv.
  rewrite Hmod, Nat.add_0_r in Hdiv. split; [done|]. split; [|done].
  destruct (MHA.hidden_dim m / MHA.num_head m)%nat; lia.
Qed.

Lemma mha_wf_linear m l :
  MHA.wf m → l ∈ [MHA.Q_fc m; MHA.K_fc m; MHA.V_fc m; MHA.Out_fc m] →
  Linear.wf l ∧ Linear.in_features l = MHA.hidden_dim m ∧
  Linear.out_features l = MHA.hidden_dim m.
Proof.
  intros (_ & _ & _ & _ & Hls) Hl%list_elem_of_In. rewrite Forall_forall in Hls.
  by destruct (Hls l Hl) as (? & ? & ? & _).
Qed.

(** Splitting [[b, t, hidden]] into heads gives [[b, num_head, t, head_dim]]. *)
Lemma split_heads_ok m b t x :
  MHA.wf m → (0 < b)%nat → (0 < t)%nat →
  shape3 b t (MHA.hidden_dim m) x →
  MHA.split_heads m b x =
    Ok (transpose_12 (fmap (M:=list)
          (chunks (MHA.num_head m) (MHA.head_dim m)) <$> x)) ∧
  shape4 b (MHA.num_head m) t (MHA.head_dim m)
    (transpose_12 (fmap (M:=list)
       (chunks (MHA.num_head m) (MHA.head_dim m)) <$> x)).
Proof.
  intros (HH & Hd & Hh)%mha_wf_dims Hb Ht Hx. rewrite Hh in Hx.
  unfold MHA.split_heads. rewrite (view4_flatten3 b t) by done.
  split; [done|]. apply shape4_transpose_12; [done|].
  by apply shape4_fmap_chunks.
Qed.

(** Merging [[b, num_head, t, head_dim]] gives [[b, t, hidden]]. *)
Lemma merge_heads_ok m b t (y : tensor4 R) :
  MHA.wf m → (0 < b)%nat →
  shape4 b (MHA.num_head m) t (MHA.head_dim m) y →
  MHA.merge_heads m b y = Ok (fmap (M:=list) flatten2 <$> transpose_12 y) ∧
  shape3 b t (MHA.hidden_dim m) (fmap (M:=list) flatten2 <$> transpose_12 y).
Proof.
  intros Hm Hb Hy. pose proof Hm as (HH & Hd & Hh)%mha_wf_dims.
  apply shape4_transpose_12 in Hy; [|done].
  apply shape3_fmap_flatten2 in Hy. rewrite <-Hh in Hy.
  unfold MHA.merge_heads. rewrite flatten4_flatten3.
  rewrite (view3_flatten3 b t) by (done || lia). done.
Qed.

Lemma mha_project m l b t x :
  MHA.wf m → l ∈ [MHA.Q_fc m; MHA.K_fc m; MHA.V_fc m; MHA.Out_fc m] →
  (0 < b)%nat → (0 < t)%nat → shape3 b t (MHA.hidden_dim m) x →
  ∃ y, Linear.forward l x ≫= MHA.split_heads m b = Ok y ∧
    shape4 b (MHA.num_head m) t (MHA.head_dim m) y.
Proof.
  intros Hm Hl Hb Ht Hx.
  destruct (mha_wf_linear m l Hm Hl) as (Hwf & Hi & Ho).
  rewrite <-Hi in Hx. destruct (Linear.linear_forward_ok l b t x Hwf Hx) as [-> S].
  rewrite Ho in S. eexists. by apply split_heads_ok.
Qed.

End mha_lemmas.

(** ** [MHA.forward] *)

Section mha_forward.
Context `{ScalarOps R} `{Sampler}.
Implicit Types (m : MHA.t R) (x : tensor3 R).

(** C16: merging the heads undoes splitting them: on an input of shape
    [[b, t, hidden_dim]], [view] and [transpose(1, 2)] followed by
    [transpose(1, 2)] and [view] return the input. *)
Theorem merge_split_heads m b t x :
  MHA.wf m → (0 < b)%nat → (0 < t)%nat →
  shape3 b t (MHA.hidden_dim m) x →
  MHA.split_heads m b x ≫= MHA.merge_heads m b = Ok x.
Proof.
  intros Hm Hb Ht Hx. pose proof Hm as (HH & Hd & Hh)%mha_wf_dims.
  destruct (split_heads_ok m b t x Hm Hb Ht Hx) as [-> S]. simpl.
  destruct (merge_heads_ok m b t _ Hm Hb S) as [-> _]. f_equal.
  rewrite Hh in Hx. pose proof (shape4_fmap_chunks _ _ _ _ _ Hx) as Hc.
  unfold transpose_12. rewrite <-!list_fmap_compose.
  rewrite <-(list_fmap_id x) at 2. apply Forall_fmap_ext_1.
  eapply Forall_impl; [|exact (shaped_Forall _ _ _ Hx)].
  intros s Hs. simpl.
  rewrite (transpose_involutive t (MHA.num_head m)); [|done..|].
  - rewrite <-list_fmap_compose. rewrite <-(list_fmap_id s) at 2.
    apply Forall_fmap_ext_1.
    eapply Forall_impl; [|exact (shaped_Forall _ _ _ Hs)].
    intros r Hr. simpl. by apply concat_chunks.
  - eapply shaped_fmap; [|exact Hs]. intros r Hr. by rewrite length_chunks.
Qed.

(** [MHA.forward] on inputs of one shape: the three projections split
    into heads, [Self_Attention] on them, and the output projection of
    the merged heads. *)
Lemma mha_forward_unfold m b t Q_input K_input V_input mask n :
  MHA.wf m → (0 < b)%nat → (0 < t)%nat →
  shape3 b t (MHA.hidden_dim m) Q_input →
  shape3 b t (MHA.hidden_dim m) K_input →
  shape3 b t (MHA.hidden_dim m) V_input →
  from_option (shape3 b 1 t) True mask →
  ∃ Q K V att score,
    shape4 b (MHA.num_head m) t (MHA.head_dim m) Q ∧
    shape4 b (MHA.num_head m) t (MHA.head_dim m) K ∧
    shape4 b (MHA.num_head m) t (MHA.head_dim m) V ∧
    Self_Attention Q K V mask n =
      Ok ((att, score), (n + b * MHA.num_head m * t * t)%nat) ∧
    MHA.forward m Q_input K_input V_input mask n =
      Ok (fmap (M:=list) (Linear.forward_row (MHA.Out_fc m)) <$>
            (fmap (M:=list) flatten2 <$> transpose_12 att),
          (n + b * MHA.num_head m * t * t)%nat) ∧
    shape3 b t (MHA.hidden_dim m)
      (fmap (M:=list) (Linear.forward_row (MHA.Out_fc m)) <$>
         (fmap (M:=list) flatten2 <$> transpose_12 att)).
Proof.
  intros Hm Hb Ht HQ HK HV Hmask.
  pose proof Hm as (HH & Hd & Hh)%mha_wf_dims.
  unfold MHA.forward. rewrite (shape3_length _ _ _ _ HQ).
  destruct (mha_project m (MHA.Q_fc m) b t Q_input) as (Q & -> & SQ);
    [done|repeat constructor|done..|].
  destruct (mha_project m (MHA.K_fc m) b t K_input) as (K & -> & SK);
    [done|repeat constructor|done..|].
  destruct (mha_project m (MHA.V_fc m) b t V_input) as (V & -> & SV);
    [done|repeat constructor|done..|].
  rewrite !lift_Ok_bind.
  destruct (Self_Attention_ok b (MHA.num_head m) t (MHA.head_dim m)
              Q K V mask n) as (att & score & E & Satt & _); [done..|].
  exists Q, K, V, att, score. do 4 (split; [done|]).
  rewrite (M_bind_Ok _ _ _ _ _ E).
  destruct (merge_heads_ok m b t att Hm Hb Satt) as [-> Sy].
  rewrite lift_Ok_bind.
  destruct (mha_wf_linear m (MHA.Out_fc m) Hm) as (Hwf & Hi & Ho);
    [repeat constructor|].
  rewrite <-Hi in Sy.
  destruct (Linear.linear_forward_ok _ b t _ Hwf Sy) as [-> Sz].
  by rewrite Ho in Sz.
Qed.

Lemma mha_forward_ok m b t Q_input K_input V_input mask n :
  MHA.wf m → (0 < b)%nat → (0 < t)%nat →
  shape3 b t (MHA.hidden_dim m) Q_input →
  shape3 b t (MHA.hidden_dim m) K_input →
  shape3 b t (MHA.hidden_dim m) V_input →
  from_option (shape3 b 1 t) True mask →
  ∃ y, MHA.forward m Q_input K_input V_input mask n =
         Ok (y, (n + b * MHA.num_head m * t * t)%nat) ∧
    shape3 b t (MHA.hidden_dim m) y.
Proof.
  intros Hm Hb Ht HQ HK HV Hmask.
  destruct (mha_forward_unfold m b t Q_input K_input V_input mask n)
    as (Q & K & V & att & score & _ & _ & _ & _ & E & S); eauto.
Qed.

End mha_forward.

(** ** The attention when every draw drops its element *)

Section all_dropped.
Context `{ScalarLaws R} `{Sampler}.
Implicit Types (m : MHA.t R).

Lemma matmul_raw_zero_l (s v : tensor2 R) :
  Forall all_zero s → Forall all_zero (matmul_raw s v).
Proof.
  intros Hs. unfold matmul_raw. apply Forall_fmap.
  eapply Forall_impl; [|exact Hs]. intros row Hrow. simpl.
  apply Forall_fmap, Forall_true. intros c. by apply dot_all_zero_l.
Qed.

(** When every draw drops its element, the attention values are zero
    whatever the queries, the keys and the values are. *)
Lemma self_attention_all_dropped b h t d (Q K V : tensor4 R) mask n att score n' :
  (0 < t)%nat → (0 < d)%nat →
  shape4 b h t d Q → shape4 b h t d K → shape4 b h t d V →
  from_option (shape3 b 1 t) True mask → (∀ k, keep k = false) →
  Self_Attention Q K V mask n = Ok ((att, score), n') →
  Forall (Forall (Forall all_zero)) att.
Proof.
  intros Ht Hd HQ HK HV Hmask all_dropped Hsa.
  rewrite (Self_Attention_pure b h t d) in Hsa by done.
  apply M_bind_inv in Hsa as (s & n1 & Hs & Hsa).
  pose proof (shape4_attention_scores b h t d Q K mask Ht Hd HQ HK Hmask) as S.
  destruct (dropout4_train p_drop b h t t _ n S) as (s' & E & S').
  rewrite E in Hs. injection Hs as -> _.
  destruct (matmul4_ok b h t t d s V Ht S' HV) as [E' _].
  rewrite (lift_bind_Ok _ _ _ _ E') in Hsa. injection Hsa as <- _ _.
  apply dropout4_outcome in E.
  assert (Hz : Forall (Forall (Forall all_zero)) s).
  { eapply Forall2_Forall_right; [|exact E]. intros ? ? ?.
    eapply Forall2_Forall_right; [|done]. intros ? ? ?.
    eapply Forall2_Forall_right; [|done]. intros ? ? ?.
    eapply Forall2_Forall_right; [|done]. intros ? ?.
    by apply outcome_all_dropped. }
  eapply Forall_zip_with_l; [|exact Hz]. intros sh vh Hsh.
  eapply Forall_zip_with_l; [|exact Hsh]. intros sm vm Hsm.
  by apply matmul_raw_zero_l.
Qed.

Lemma linear_row_zero (l : Linear.t R) (r : list R) :
  Linear.bias l = None → all_zero r → all_zero (Linear.forward_row l r).
Proof.
  intros Hb Hr. unfold Linear.forward_row. rewrite Hb.
  apply Forall_fmap, Forall_true. intros w. by apply dot_all_zero_l.
Qed.

(** When every draw drops its element, [MHA.forward] returns zeros. *)
Lemma mha_forward_all_dropped m b t (x : tensor3 R) mask n :
  MHA.wf m → (0 < b)%nat → (0 < t)%nat →
  shape3 b t (MHA.hidden_dim m) x →
  from_option (shape3 b 1 t) True mask → (∀ k, keep k = false) →
  ∃ y, MHA.forward m x x x mask n =
         Ok (y, (n + b * MHA.num_head m * t * t)%nat) ∧
    shape3 b t (MHA.hidden_dim m) y ∧ Forall (Forall all_zero) y.
Proof.
  intros Hm Hb Ht Hx Hmask all_dropped.
  pose proof Hm as (HH & Hd & Hh)%mha_wf_dims.
  destruct (mha_forward_unfold m b t x x x mask n Hm Hb Ht Hx Hx Hx Hmask)
    as (Q & K & V & att & score & SQ & SK & SV & Hsa & E & S).
  eexists. split; [exact E|]. split; [exact S|].
  pose proof (self_attention_all_dropped b (MHA.num_head m) t
                (MHA.head_dim m) Q K V mask n att score _
                Ht Hd SQ SK SV Hmask all_dropped Hsa) as Hz.
  assert (Hb0 : Linear.bias (MHA.Out_fc m) = None).
  { destruct Hm as (_ & _ & _ & _ & Hls).
    repeat (inversion_clear Hls as [|?? ? Hls']; rename Hls' into Hls).
    tauto. }
  unfold transpose_12. do 3 apply Forall_fmap.
  eapply Forall_impl; [|exact Hz]. intros s Hs. simpl.
  apply Forall_fmap, Forall_fmap.
  eapply Forall_impl; [|exact (Forall_transpose _ _ Hs)].
  intros c Hc. simpl. apply linear_row_zero; [done|].
  by apply Forall_concat.
Qed.

End all_dropped.

(** ** The properties of the attention *)

Section attention_properties.
Context `{ScalarLaws R} `{Sampler}.

Lemma fill_row_all (v : R) (row : list R) :
  fill_row v (replicate (length row) true) row = replicate (length row) v.
Proof.
  unfold fill_row. induction row as [|s row IH]; [done|]. simpl.
  by rewrite IH.
Qed.

Lemma row4_softmax4 (x : tensor4 R) i j k (row : list R) :
  row4 x i j k = Some row → row4 (softmax4 x) i j k = Some (softmax row).
Proof.
  unfold row4, softmax4. rewrite list_lookup_fmap.
  destruct (x !! i) as [s|]; [|done]. simpl. rewrite list_lookup_fmap.
  destruct (s !! j) as [m|]; [|done]. simpl. rewrite list_lookup_fmap.
  by intros ->.
Qed.

(** C12: when every key of a sample is masked, every query of the sample
    attends to all [t] keys with the same weight [1 / t]: the scores are
    all [-1e9] before the softmax, and the padded keys are not left
    out. *)
Theorem attention_all_masked_uniform b h t d (Q K : tensor4 R) mask i j k
    (r0 : list R) :
  (0 < t)%nat → (0 < d)%nat →
  shape4 b h t d Q → shape4 b h t d K → shape3 b 1 t mask →
  mask !! i = Some [replicate t false] →
  row4 Q i j k = Some r0 →
  row4 (attention_scores Q K (Some mask)) i j k =
    Some (replicate t (1 / sc_of_nat t)).
Proof.
  intros Ht Hd HQ HK Hmask Hi Hq. unfold attention_scores. cbv zeta.
  unfold row4 in Hq.
  pose proof (shape4_transpose_last _ _ _ _ _ Ht HK) as HKt.
  destruct (matmul4_ok b h t d t Q _ Hd HQ HKt) as [_ S1].
  apply (shape4_map4 (λ v, v / sc_sqrt (sc_of_nat (size_last Q)))) in S1.
  set (score := map4 _ _) in *.
  destruct (Q !! i) as [Qs|] eqn:HQi; [|done].
  destruct (lookup_lt_is_Some_2 score i) as [s Hs].
  { rewrite (shape4_length _ _ _ _ _ S1), <-(shape4_length _ _ _ _ _ HQ).
    by eapply lookup_lt_Some. }
  pose proof (shaped_lookup _ _ _ _ _ S1 Hs) as Ss.
  pose proof (shaped_lookup _ _ _ _ _ HQ HQi) as SQs. simpl in Hq.
  destruct (Qs !! j) as [Qm|] eqn:HQj; [|done].
  destruct (lookup_lt_is_Some_2 s j) as [m Hm].
  { rewrite (shaped_length _ _ _ Ss), <-(shaped_length _ _ _ SQs).
    by eapply lookup_lt_Some. }
  pose proof (shaped_lookup _ _ _ _ _ Ss Hm) as Sm.
  pose proof (shaped_lookup _ _ _ _ _ SQs HQj) as SQm. simpl in Hq.
  destruct (lookup_lt_is_Some_2 m k) as [row Hrow].
  { rewrite (shaped_length _ _ _ Sm), <-(shaped_length _ _ _ SQm).
    by eapply lookup_lt_Some. }
  pose proof (shaped_lookup _ _ _ _ _ Sm Hrow) as Srow. unfold shape1 in Srow.
  erewrite row4_softmax4; [by rewrite softmax_replicate|].
  unfold row4, fill_keys, not4, unsqueeze_1. rewrite <-list_fmap_compose.
  rewrite lookup_zip_with, Hs, list_lookup_fmap, Hi. simpl.
  unfold fill_sample. rewrite list_lookup_fmap, Hm. simpl.
  rewrite list_lookup_fmap, Hrow. simpl. f_equal.
  unfold flatten3, flatten2. simpl. rewrite !app_nil_r, fmap_replicate.
  simpl. rewrite <-Srow. apply fill_row_all.
Qed.

(** C6: on operands of shape [[b, h, t, d]], with or without a key mask,
    [Self_Attention] returns the scores [attention_scores] after a
    dropout in training mode and their product with [V]; the dropout
    makes [b * h * t * t] draws whatever the mode of the model is. *)
Theorem self_attention_refines b h t d (Q K V : tensor4 R) mask n :
  (0 < t)%nat → (0 < d)%nat →
  shape4 b h t d Q → shape4 b h t d K → shape4 b h t d V →
  from_option (shape3 b 1 t) True mask →
  ∃ score,
    Dropout.forward4 true p_drop (attention_scores Q K mask) n =
      Ok (score, (n + b * h * t * t)%nat) ∧
    Self_Attention Q K V mask n =
      Ok ((zip_with (zip_with matmul_raw) score V, score),
          (n + b * h * t * t)%nat) ∧
    shape4 b h t t score ∧
    shape4 b h t d (zip_with (zip_with matmul_raw) score V).
Proof.
  intros Ht Hd HQ HK HV Hmask.
  rewrite (Self_Attention_pure b h t d) by done.
  pose proof (shape4_attention_scores b h t d Q K mask Ht Hd HQ HK Hmask) as S.
  destruct (dropout4_train p_drop b h t t _ n S) as (score & E & S').
  destruct (matmul4_ok b h t t d score V Ht S' HV) as [E' S''].
  exists score. rewrite (M_bind_Ok _ _ _ _ _ E), (lift_bind_Ok _ _ _ _ E').
  replace (n + b * h * t * t)%nat with (n + b * (h * (t * (t * 1))))%nat
    by lia.
  done.
Qed.

(** C17: on inputs of shape [[b, t, hidden_dim]], [MHA.forward] returns
    a tensor of the same shape, after [b * num_head * t * t] draws. *)
Theorem mha_forward_shape (m : MHA.t R) b t (x : tensor3 R) mask n :
  MHA.wf m → (0 < b)%nat → (0 < t)%nat →
  shape3 b t (MHA.hidden_dim m) x →
  from_option (shape3 b 1 t) True mask →
  ∃ y, MHA.forward m x x x mask n =
         Ok (y, (n + b * MHA.num_head m * t * t)%nat) ∧
    shape3 b t (MHA.hidden_dim m) y.
Proof. intros. by apply mha_forward_ok. Qed.

End attention_properties.

(** ** The properties at concrete inputs, over the rationals *)

(** [init] establishes the invariant when the number of heads divides the
    hidden dimension and the weights are square. *)
Lemma mha_init_wf `{ScalarOps R} hidden heads (p : R) wq wk wv wo :
  (0 < heads)%nat → (0 < hidden)%nat → (hidden mod heads = 0)%nat →
  Forall (shape2 hidden hidden) [wq; wk; wv; wo] →
  MHA.wf (MHA.init hidden heads p wq wk wv wo).
Proof.
  intros HH Hh Hmod Hw. repeat (split; [done|]). simpl.
  repeat (inversion_clear Hw as [|?? ? Hw']; rename Hw' into Hw).
  repeat (apply Forall_cons; [split; [by split|done]|]). apply Forall_nil.
Qed.

Module Attention_examples.

Definition keep_all : Sampler := λ _, true.
Definition keep_none : Sampler := λ _, false.

Definition I2 : tensor2 Qcanon.Qc := [[q 1; q 0]; [q 0; q 1]].
Definition m1 : MHA.t Qcanon.Qc := MHA.init 2 2 p_drop I2 I2 I2 I2.
Definition x1 : tensor3 Qcanon.Qc := [[[q 1; q 2]; [q 3; q 4]]].
Definition Q1 : tensor4 Qcanon.Qc := [[[[q 1]; [q 2]]; [[q 3]; [q 4]]]].

Lemma m1_wf : MHA.wf m1.
Proof. apply mha_init_wf; [lia..|reflexivity|]. repeat constructor. Qed.

End Attention_examples.

Import Attention_examples.

Lemma attention_all_masked_uniform_witness :
  row4 (attention_scores Q1 Q1 (Some [[[false; false]]])) 0 1 0 =
    Some (replicate 2 (1 / sc_of_nat 2)).
Proof.
  apply (attention_all_masked_uniform 1 2 2 1 Q1 Q1 [[[false; false]]]
           0 1 0 [q 3]); try lia; try reflexivity; qc_done.
Defined.

Lemma self_attention_refines_witness :
  ∃ score,
    Dropout.forward4 (H0:=keep_all) true p_drop
        (attention_scores Q1 Q1 (Some [[[true; false]]])) 0%nat =
      Ok (score, (0 + 1 * 2 * 2 * 2)%nat) ∧
    Self_Attention (H0:=keep_all) Q1 Q1 Q1 (Some [[[true; false]]]) 0%nat =
      Ok ((zip_with (zip_with matmul_raw) score Q1, score),
          (0 + 1 * 2 * 2 * 2)%nat) ∧
    shape4 1 2 2 2 score ∧
    shape4 1 2 2 1 (zip_with (zip_with matmul_raw) score Q1).
Proof.
  apply (self_attention_refines (H1:=keep_all) 1 2 2 1 Q1 Q1 Q1
           (Some [[[true; false]]]) 0%nat); try lia; qc_done.
Defined.

Lemma mha_forward_shape_witness :
  ∃ y, MHA.forward (H0:=keep_all) m1 x1 x1 x1 None 0%nat =
         Ok (y, (0 + 1 * MHA.num_head m1 * 2 * 2)%nat) ∧
    shape3 1 2 (MHA.hidden_dim m1) y.
Proof.
  apply (mha_forward_shape (H1:=keep_all) m1 1 2 x1 None 0%nat);
    [apply m1_wf|lia..|qc_done|exact I].
Defined.

Lemma merge_split_heads_witness :
  MHA.split_heads m1 1 x1 ≫= MHA.merge_heads m1 1 = Ok x1.
Proof.
  apply (merge_split_heads m1 1 2 x1); [apply m1_wf|lia..|qc_done].
Defined.
