(* ===== verification/Encoder.v ===== *)
(** * [FFN], [AELayer1] and [AEBlock1]

    [FFN] (lines 60-83 of the source) is two linear layers with a ReLU and
    a dropout between them and a residual connection.  [AELayer1] (lines
    149-179) is one layer of the encoder: multi-head self-attention and
    the feed-forward network, each followed by a dropout, a residual
    connection and a layer normalisation.  [AEBlock1] (lines 182-206)
    computes the padding mask of its input once and runs the layers in
    order, each with this mask.

    The dropout layers that are fields of a module follow the mode of the
    model: [forward] takes it as the flag [training].  The dropout inside
    [Self_Attention] does not: [eval_mode_attention_dropped] shows that in
    evaluation mode, when every draw drops its element, a layer returns
    [AELayer1.without_attention], the value of the layer with the
    attention output replaced by zeros.

    [init] is [__init__] with the trained parameters as arguments: a
    record [AELayer1.weights] per layer, and for the block a function from
    the index of a layer to its weights. *)

From Stdlib Require Import Field Lia.
From S2P Require Import Prelude Scalar ScalarQc Tensor Nn Extractor Attention.

Local Open Scope scalar_scope.

Module FFN.
Section with_scalar.
Context `{ScalarOps R} `{Sampler}.

Record t : Type := make {
  hidden_dim : nat;
  inner_dim : nat;
  fc1 : Linear.t R;
  fc2 : Linear.t R;
  dropout : R;
}.

Definition init (hidden_dim inner_dim : nat) (dropout : R)
    (w1 : tensor2 R) (b1 : list R) (w2 : tensor2 R) (b2 : list R) : t := {|
  hidden_dim := hidden_dim;
  inner_dim := inner_dim;
  fc1 := Linear.make hidden_dim inner_dim w1 (Some b1);
  fc2 := Linear.make inner_dim hidden_dim w2 (Some b2);
  dropout := dropout;
|}.

Definition wf (m : t) : Prop :=
  Linear.wf (fc1 m) ∧ Linear.wf (fc2 m) ∧
  Linear.in_features (fc1 m) = hidden_dim m ∧
  Linear.out_features (fc1 m) = inner_dim m ∧
  Linear.in_features (fc2 m) = inner_dim m ∧
  Linear.out_features (fc2 m) = hidden_dim m.

Definition forward (m : t) (training : bool) (x : tensor3 R) : M (tensor3 R) :=
  let res := x in
  x ← lift (Linear.forward (fc1 m) x);
  let x := map3 relu x in
  x ← Dropout.forward3 training (dropout m) x;
  x ← lift (Linear.forward (fc2 m) x);
  output ← lift (add3 x res);
  mret output.

(** [forward] in evaluation mode on an input of the right shape, as a
    pure function. *)
Definition eval (m : t) (x : tensor3 R) : tensor3 R :=
  add3_raw
    (fmap (M:=list) (Linear.forward_row (fc2 m)) <$>
       map3 relu (fmap (M:=list) (Linear.forward_row (fc1 m)) <$> x))
    x.

End with_scalar.

Arguments t R : clear implicits.
End FFN.

Module AELayer1.
Section with_scalar.
Context `{ScalarOps R} `{Sampler}.

Record t : Type := make {
  hidden_dim : nat;
  num_head : nat;
  inner_dim : nat;
  MHA : MHA.t R;
  layerNorm1 : LayerNorm.t R;
  layerNorm2 : LayerNorm.t R;
  ffn : FFN.t R;
  dropout1 : R;
  dropout2 : R;
}.

(** The trained parameters of one layer. *)
Record weights : Type := make_weights {
  wq : tensor2 R;
  wk : tensor2 R;
  wv : tensor2 R;
  wo : tensor2 R;
  ln1_weight : list R;
  ln1_bias : list R;
  ln2_weight : list R;
  ln2_bias : list R;
  fc1_weight : tensor2 R;
  fc1_bias : list R;
  fc2_weight : tensor2 R;
  fc2_bias : list R;
}.

Definition weights_ok (hidden inner : nat) (w : weights) : Prop :=
  Forall (shape2 hidden hidden) [wq w; wk w; wv w; wo w] ∧
  Forall (shape1 hidden) [ln1_weight w; ln1_bias w; ln2_weight w; ln2_bias w] ∧
  shape2 inner hidden (fc1_weight w) ∧ shape1 inner (fc1_bias w) ∧
  shape2 hidden inner (fc2_weight w) ∧ shape1 hidden (fc2_bias w).

(** [__init__]: [MHA(hidden_dim, num_head)] and [FFN(hidden_dim,
    inner_dim)] with their default dropout 0.1, two
    [LayerNorm(hidden_dim)], and two dropout layers with [p = 0.1]. *)
Definition init (hidden_dim num_head inner_dim : nat) (w : weights) : t := {|
  hidden_dim := hidden_dim;
  num_head := num_head;
  inner_dim := inner_dim;
  MHA := MHA.init hidden_dim num_head p_drop (wq w) (wk w) (wv w) (wo w);
  layerNorm1 := LayerNorm.make hidden_dim (ln1_weight w) (ln1_bias w);
  layerNorm2 := LayerNorm.make hidden_dim (ln2_weight w) (ln2_bias w);
  ffn := FFN.init hidden_dim inner_dim p_drop
           (fc1_weight w) (fc1_bias w) (fc2_weight w) (fc2_bias w);
  dropout1 := p_drop;
  dropout2 := p_drop;
|}.

Definition wf (m : t) : Prop :=
  MHA.wf (MHA m) ∧ MHA.hidden_dim (MHA m) = hidden_dim m ∧
  MHA.num_head (MHA m) = num_head m ∧
  FFN.wf (ffn m) ∧ FFN.hidden_dim (ffn m) = hidden_dim m ∧
  FFN.inner_dim (ffn m) = inner_dim m ∧
  LayerNorm.wf (layerNorm1 m) ∧
  LayerNorm.normalized_shape (layerNorm1 m) = hidden_dim m ∧
  LayerNorm.wf (layerNorm2 m) ∧
  LayerNorm.normalized_shape (layerNorm2 m) = hidden_dim m.

(** The number of Bernoulli draws of one call of [forward] on a batch
    [[b, t, hidden_dim]]: the attention dropout in either mode, the three
    dropout layers of the modules in training mode. *)
Definition draws (hidden num_head inner : nat) (training : bool)
    (b t : nat) : nat :=
  (b * num_head * t * t +
   if training then b * t * hidden + b * t * inner + b * t * hidden
   else 0)%nat.

Definition forward (m : t) (training : bool) (x : tensor3 R)
    (mask : option (tensor3 bool)) : M (tensor3 R) :=
  output ← MHA.forward (MHA m) x x x mask;
  d ← Dropout.forward3 training (dropout1 m) output;
  output ← lift (add3 x d);
  output ← lift (LayerNorm.forward (layerNorm1 m) output);
  output_ ← FFN.forward (ffn m) training output;
  d ← Dropout.forward3 training (dropout2 m) output_;
  output ← lift (add3 output d);
  lift (LayerNorm.forward (layerNorm2 m) output).

(** The layer on an input of the right shape when the attention output
    is replaced by zeros, in evaluation mode: the two normalisations and
    the feed-forward network. *)
Definition without_attention (m : t) (x : tensor3 R) : tensor3 R :=
  let o := fmap (M:=list) (LayerNorm.forward_row (layerNorm1 m)) <$> x in
  fmap (M:=list) (LayerNorm.forward_row (layerNorm2 m)) <$>
    add3_raw o (FFN.eval (ffn m) o).

End with_scalar.

Arguments t R : clear implicits.
Arguments weights R : clear implicits.
End AELayer1.

Module AEBlock1.
Section with_scalar.
Context `{ScalarOps R} `{Sampler}.

Record t : Type := make {
  hidden_dim : nat;
  num_head : nat;
  inner_dim : nat;
  AE1 : list (AELayer1.t R);
}.

(** [__init__]: [n_layers] layers of the same dimensions; [ws i] are the
    trained parameters of layer [i]. *)
Definition init (hidden_dim num_head inner_dim n_layers : nat)
    (ws : nat → AELayer1.weights R) : t := {|
  hidden_dim := hidden_dim;
  num_head := num_head;
  inner_dim := inner_dim;
  AE1 := (λ i, AELayer1.init hidden_dim num_head inner_dim (ws i))
           <$> seq 0 n_layers;
|}.

(** Every layer is well formed and has the dimensions of the block. *)
Definition wf (m : t) : Prop :=
  Forall (λ l, AELayer1.wf l ∧ AELayer1.hidden_dim l = hidden_dim m ∧
               AELayer1.num_head l = num_head m ∧
               AELayer1.inner_dim l = inner_dim m) (AE1 m).

(** [for layer in self.AE1: x = layer(x, masking)] *)
Fixpoint run_layers (layers : list (AELayer1.t R)) (training : bool)
    (masking : tensor3 bool) (x : tensor3 R) : M (tensor3 R) :=
  match layers with
  | [] => mret x
  | layer :: layers =>
      x ← AELayer1.forward layer training x (Some masking);
      run_layers layers training masking x
  end.

(** The number of Bernoulli draws of one call of [forward]. *)
Definition draws (m : t) (training : bool) (b t : nat) : nat :=
  (length (AE1 m) *
   AELayer1.draws (hidden_dim m) (num_head m) (inner_dim m) training b t)%nat.

Definition forward (m : t) (training : bool) (x : tensor3 R) : M (tensor3 R) :=
  let masking := padding_mask_audio x in
  run_layers (AE1 m) training masking x.

End with_scalar.

Arguments t R : clear implicits.
End AEBlock1.

(** ** Shapes and draws of [FFN], [AELayer1] and [AEBlock1] *)

Section ffn_lemmas.
Context `{ScalarOps R} `{Sampler}.

Lemma ffn_forward_ok (m : FFN.t R) training b t x n :
  FFN.wf m → shape3 b t (FFN.hidden_dim m) x →
  ∃ y, FFN.forward m training x n =
         Ok (y, (n + if training then b * t * FFN.inner_dim m else 0)%nat) ∧
    shape3 b t (FFN.hidden_dim m) y.
Proof.
  intros (Hf1 & Hf2 & Hi1 & Ho1 & Hi2 & Ho2) Hx. unfold FFN.forward.
  pose proof Hx as Hx'. rewrite <-Hi1 in Hx'.
  destruct (Linear.linear_forward_ok _ b t x Hf1 Hx') as [-> S1].
  rewrite lift_Ok_bind. cbv zeta. rewrite Ho1 in S1.
  apply (shape3_map3 relu) in S1.
  destruct (dropout3_ok training (FFN.dropout m) _ _ _ _ n S1)
    as (d & E & S2).
  rewrite (M_bind_Ok _ _ _ _ _ E). rewrite <-Hi2 in S2.
  destruct (Linear.linear_forward_ok _ b t d Hf2 S2) as [-> S3].
  rewrite lift_Ok_bind. rewrite Ho2 in S3.
  rewrite (lift_bind_Ok _ _ _ _ (add3_ok _ _ _ _ _ S3 Hx)).
  eexists. split; [done|]. by apply shape3_add3.
Qed.

(** In evaluation mode [FFN.forward] is the pure function [FFN.eval]. *)
Lemma ffn_forward_eval (m : FFN.t R) b t x n :
  FFN.wf m → shape3 b t (FFN.hidden_dim m) x →
  FFN.forward m false x n = Ok (FFN.eval m x, n) ∧
  shape3 b t (FFN.hidden_dim m) (FFN.eval m x).
Proof.
  intros (Hf1 & Hf2 & Hi1 & Ho1 & Hi2 & Ho2) Hx. unfold FFN.forward, FFN.eval.
  pose proof Hx as Hx'. rewrite <-Hi1 in Hx'.
  destruct (Linear.linear_forward_ok _ b t x Hf1 Hx') as [-> S1].
  rewrite lift_Ok_bind. cbv zeta. rewrite Ho1 in S1.
  apply (shape3_map3 relu) in S1.
  rewrite (M_bind_Ok (Dropout.forward3 false _ _) _ n _ n eq_refl).
  rewrite <-Hi2 in S1.
  destruct (Linear.linear_forward_ok _ b t _ Hf2 S1) as [-> S3].
  rewrite lift_Ok_bind. rewrite Ho2 in S3.
  rewrite (lift_bind_Ok _ _ _ _ (add3_ok _ _ _ _ _ S3 Hx)).
  split; [done|]. by apply shape3_add3.
Qed.

End ffn_lemmas.

Section layer_lemmas.
Context `{ScalarOps R} `{Sampler}.

Lemma aelayer_forward_ok (m : AELayer1.t R) training b t x mask n :
  AELayer1.wf m → (0 < b)%nat → (0 < t)%nat →
  shape3 b t (AELayer1.hidden_dim m) x →
  from_option (shape3 b 1 t) True mask →
  ∃ y, AELayer1.forward m training x mask n =
         Ok (y, (n + AELayer1.draws (AELayer1.hidden_dim m)
                       (AELayer1.num_head m) (AELayer1.inner_dim m)
                       training b t)%nat) ∧
    shape3 b t (AELayer1.hidden_dim m) y.
Proof.
  intros (Hmha & Hh1 & HH & Hffn & Hh2 & Hin & Hl1 & Hn1 & Hl2 & Hn2)
    Hb Ht Hx Hmask.
  unfold AELayer1.forward, AELayer1.draws. rewrite <-Hh1 in Hx.
  destruct (mha_forward_ok _ b t x x x mask n Hmha Hb Ht Hx Hx Hx Hmask)
    as (o1 & E1 & S1).
  rewrite (M_bind_Ok _ _ _ _ _ E1).
  destruct (dropout3_ok training (AELayer1.dropout1 m) _ _ _ _
              (n + b * MHA.num_head (AELayer1.MHA m) * t * t)%nat S1)
    as (d1 & E2 & S2).
  rewrite (M_bind_Ok _ _ _ _ _ E2).
  rewrite (lift_bind_Ok _ _ _ _ (add3_ok _ _ _ _ _ Hx S2)).
  pose proof (shape3_add3 _ _ _ _ _ Hx S2) as S3.
  rewrite Hh1, <-Hn1 in S3.
  destruct (layernorm_forward_ok _ b t _ Hl1 S3) as [-> S4].
  rewrite lift_Ok_bind. rewrite Hn1, <-Hh2 in S4.
  destruct (ffn_forward_ok _ training b t _
    (n + b * MHA.num_head (AELayer1.MHA m) * t * t +
       (if training then b * t * MHA.hidden_dim (AELayer1.MHA m) else 0))%nat
    Hffn S4) as (o2 & E3 & S5).
  rewrite (M_bind_Ok _ _ _ _ _ E3).
  destruct (dropout3_ok training (AELayer1.dropout2 m) _ _ _ _
    (n + b * MHA.num_head (AELayer1.MHA m) * t * t +
       (if training then b * t * MHA.hidden_dim (AELayer1.MHA m) else 0) +
       (if training then b * t * FFN.inner_dim (AELayer1.ffn m) else 0))%nat
    S5) as (d2 & E4 & S6).
  rewrite (M_bind_Ok _ _ _ _ _ E4).
  rewrite (lift_bind_Ok _ _ _ _ (add3_ok _ _ _ _ _ S4 S6)).
  pose proof (shape3_add3 _ _ _ _ _ S4 S6) as S7.
  rewrite Hh2, <-Hn2 in S7.
  destruct (layernorm_forward_ok _ b t _ Hl2 S7) as [E5 S8].
  rewrite (lift_Ok _ _ _ E5). rewrite Hn2 in S8. eexists. split; [|done].
  do 2 f_equal. rewrite Hh1, Hh2, Hin, HH. destruct training; lia.
Qed.

End layer_lemmas.

Section block_lemmas.
Context `{ScalarOps R} `{Sampler}.

Lemma run_layers_ok (layers : list (AELayer1.t R)) hidden heads inner
    training b t masking x n :
  Forall (λ l, AELayer1.wf l ∧ AELayer1.hidden_dim l = hidden ∧
               AELayer1.num_head l = heads ∧
               AELayer1.inner_dim l = inner) layers →
  (0 < b)%nat → (0 < t)%nat →
  shape3 b t hidden x → shape3 b 1 t masking →
  ∃ y, AEBlock1.run_layers layers training masking x n =
         Ok (y, (n + length layers *
                   AELayer1.draws hidden heads inner training b t)%nat) ∧
    shape3 b t hidden y.
Proof.
  intros Hls Hb Ht Hx Hmask. revert x n Hx.
  induction Hls as [|l layers (Hl & Hh & HH & Hi) _ IH]; intros x n Hx.
  { exists x. simpl. by rewrite Nat.add_0_r. }
  simpl. rewrite <-Hh in Hx.
  destruct (aelayer_forward_ok l training b t x (Some masking) n)
    as (y & E & Sy); [done..|].
  rewrite (M_bind_Ok _ _ _ _ _ E). rewrite Hh, HH, Hi in *.
  destruct (IH y (n + AELayer1.draws hidden heads inner training b t)%nat Sy)
    as (z & -> & Sz).
  exists z. split; [|done]. do 2 f_equal. lia.
Qed.

(** [AEBlock1.forward] keeps the shape [[b, t, hidden_dim]], and makes the
    draws of every layer. *)
Lemma aeblock_forward_ok (m : AEBlock1.t R) training b t F x n :
  AEBlock1.wf m → (0 < b)%nat → (0 < t)%nat →
  shape3 b t F x → F = AEBlock1.hidden_dim m →
  ∃ y, AEBlock1.forward m training x n =
         Ok (y, (n + AEBlock1.draws m training b t)%nat) ∧
    shape3 b t (AEBlock1.hidden_dim m) y.
Proof.
  intros Hm Hb Ht Hx ->. unfold AEBlock1.forward, AEBlock1.draws.
  eapply run_layers_ok; [exact Hm|done..|].
  by eapply padding_mask_shape.
Qed.

End block_lemmas.

(** ** The constructors build well-formed modules *)

Section init_lemmas.
Context `{ScalarOps R}.

Lemma ffn_init_wf hidden inner (p : R) w1 b1 w2 b2 :
  shape2 inner hidden w1 → shape1 inner b1 →
  shape2 hidden inner w2 → shape1 hidden b2 →
  FFN.wf (FFN.init hidden inner p w1 b1 w2 b2).
Proof. intros. by do 2 (split; [by split|]). Qed.

Lemma aelayer_init_wf hidden heads inner (w : AELayer1.weights R) :
  (0 < heads)%nat → (0 < hidden)%nat → (hidden mod heads = 0)%nat →
  AELayer1.weights_ok hidden inner w →
  AELayer1.wf (AELayer1.init hidden heads inner w).
Proof.
  intros HH Hh Hmod (Hw & Hln & H1 & Hb1 & H2 & Hb2).
  split; [by apply mha_init_wf|]. do 2 (split; [reflexivity|]).
  split; [by apply ffn_init_wf|]. do 2 (split; [reflexivity|]).
  repeat (inversion_clear Hln as [|?? ? Hln']; rename Hln' into Hln).
  by repeat split.
Qed.

Lemma aeblock_init_wf hidden heads inner n_layers
    (ws : nat → AELayer1.weights R) :
  (0 < heads)%nat → (0 < hidden)%nat → (hidden mod heads = 0)%nat →
  (∀ i, (i < n_layers)%nat → AELayer1.weights_ok hidden inner (ws i)) →
  AEBlock1.wf (AEBlock1.init hidden heads inner n_layers ws) ∧
  length (AEBlock1.AE1 (AEBlock1.init hidden heads inner n_layers ws)) =
    n_layers.
Proof.
  intros HH Hh Hmod Hws. split; [|by simpl; rewrite length_fmap, length_seq].
  apply Forall_fmap, Forall_seq. intros i [_ Hi]. simpl.
  split; [|done]. apply aelayer_init_wf; auto.
Qed.

End init_lemmas.

(** ** Evaluation mode when the attention dropout drops every element *)

Section eval_mode.
Context `{ScalarLaws R} `{Sampler}.

Add Field sc_fld_encoder : sc_field.

Lemma add3_raw_zero_r a b c (x y : tensor3 R) :
  shape3 a b c x → shape3 a b c y → Forall (Forall all_zero) y →
  add3_raw x y = x.
Proof.
  intros Hx Hy Hz. unfold add3_raw.
  eapply zip_with_Forall2_l;
    [|exact (shaped_Forall2 _ _ _ _ _ Hx (shaped_and _ _ _ _ Hy Hz))].
  intros xs ys (Hxs & Hys & Hzs).
  eapply zip_with_Forall2_l;
    [|exact (shaped_Forall2 _ _ _ _ _ Hxs (shaped_and _ _ _ _ Hys Hzs))].
  intros u v (Hu & Hv & Hzv). unfold vadd.
  apply (zip_with_Forall2_l _ (λ _ z, z = 0)).
  - intros r ? ->. ring.
  - apply Forall2_of_right; [|done]. destruct Hu, Hv. congruence.
Qed.

Lemma aelayer_eval_all_dropped (m : AELayer1.t R) b t x mask n :
  AELayer1.wf m → (0 < b)%nat → (0 < t)%nat →
  shape3 b t (AELayer1.hidden_dim m) x →
  from_option (shape3 b 1 t) True mask →
  (∀ k, keep k = false) →
  AELayer1.forward m false x mask n =
    Ok (AELayer1.without_attention m x,
        (n + b * AELayer1.num_head m * t * t)%nat) ∧
  shape3 b t (AELayer1.hidden_dim m) (AELayer1.without_attention m x).
Proof.
  intros (Hmha & Hh1 & HH & Hffn & Hh2 & Hin & Hl1 & Hn1 & Hl2 & Hn2)
    Hb Ht Hx Hmask Hdrop.
  unfold AELayer1.forward, AELayer1.without_attention. rewrite <-Hh1 in Hx.
  destruct (mha_forward_all_dropped _ b t x mask n Hmha Hb Ht Hx Hmask Hdrop)
    as (o1 & E1 & S1 & Z1).
  rewrite (M_bind_Ok _ _ _ _ _ E1).
  rewrite (M_bind_Ok (Dropout.forward3 false _ o1) _ _ _ _ eq_refl).
  rewrite (lift_bind_Ok _ _ _ _ (add3_ok _ _ _ _ _ Hx S1)).
  rewrite (add3_raw_zero_r _ _ _ _ _ Hx S1 Z1).
  rewrite Hh1, <-Hn1 in Hx.
  destruct (layernorm_forward_ok _ b t _ Hl1 Hx) as [-> S4].
  rewrite lift_Ok_bind. rewrite Hn1, <-Hh2 in S4.
  destruct (ffn_forward_eval _ b t _
              (n + b * MHA.num_head (AELayer1.MHA m) * t * t)%nat Hffn S4)
    as [E3 S5].
  rewrite (M_bind_Ok _ _ _ _ _ E3).
  rewrite (M_bind_Ok (Dropout.forward3 false _ _) _ _ _ _ eq_refl).
  rewrite (lift_bind_Ok _ _ _ _ (add3_ok _ _ _ _ _ S4 S5)).
  pose proof (shape3_add3 _ _ _ _ _ S4 S5) as S7.
  rewrite Hh2, <-Hn2 in S7.
  destruct (layernorm_forward_ok _ b t _ Hl2 S7) as [E5 S8].
  rewrite (lift_Ok _ _ _ E5), HH. by rewrite Hn2 in S8.
Qed.

End eval_mode.

(** ** The properties of the encoder *)

Section encoder_properties.
Context `{ScalarOps R} `{Sampler}.

(** C4: on a batch of shape [[b, t, hidden_dim]], [AEBlock1.forward]
    succeeds in either mode and returns a batch of the same shape: every
    layer keeps the shape, and the mask computed from the input fits
    every layer.  The run makes [AEBlock1.draws] draws. *)
Theorem aeblock_forward_shape (m : AEBlock1.t R) training b t x n :
  AEBlock1.wf m → (0 < b)%nat → (0 < t)%nat →
  shape3 b t (AEBlock1.hidden_dim m) x →
  ∃ y, AEBlock1.forward m training x n =
         Ok (y, (n + AEBlock1.draws m training b t)%nat) ∧
    shape3 b t (AEBlock1.hidden_dim m) y.
Proof. intros. by eapply aeblock_forward_ok. Qed.

(** C18: one layer of the encoder keeps the shape [[b, t, hidden_dim]],
    with or without a mask; it makes [b * num_head * t * t] draws in
    evaluation mode and one more per element of the three dropout layers
    in training mode. *)
Theorem aelayer_forward_shape (m : AELayer1.t R) training b t x mask n :
  AELayer1.wf m → (0 < b)%nat → (0 < t)%nat →
  shape3 b t (AELayer1.hidden_dim m) x →
  from_option (shape3 b 1 t) True mask →
  ∃ y, AELayer1.forward m training x mask n =
         Ok (y, (n + AELayer1.draws (AELayer1.hidden_dim m)
                       (AELayer1.num_head m) (AELayer1.inner_dim m)
                       training b t)%nat) ∧
    shape3 b t (AELayer1.hidden_dim m) y.
Proof. intros. by apply aelayer_forward_ok. Qed.

(** C19: the feed-forward network keeps the shape [[b, t, hidden_dim]]:
    the residual is added to a tensor of its own shape.  It makes one
    draw per inner feature in training mode and none in evaluation
    mode. *)
Theorem ffn_forward_shape (m : FFN.t R) training b t x n :
  FFN.wf m → shape3 b t (FFN.hidden_dim m) x →
  ∃ y, FFN.forward m training x n =
         Ok (y, (n + if training then b * t * FFN.inner_dim m else 0)%nat) ∧
    shape3 b t (FFN.hidden_dim m) y.
Proof. intros. by apply ffn_forward_ok. Qed.

End encoder_properties.

(** C5: [model.eval()] does not reach the dropout of the attention
    weights, which [Self_Attention] builds itself in training mode.  In
    evaluation mode, on a well-formed layer and a batch of shape
    [[b, t, hidden_dim]], when the sampler drops every element the layer
    still makes its [b * num_head * t * t] draws and returns
    [AELayer1.without_attention]: the attention output is zero, whatever
    the projections and the mask are. *)
Theorem eval_mode_attention_dropped `{ScalarLaws R} `{Sampler}
    (m : AELayer1.t R) b t x mask n :
  AELayer1.wf m → (0 < b)%nat → (0 < t)%nat →
  shape3 b t (AELayer1.hidden_dim m) x →
  from_option (shape3 b 1 t) True mask →
  (∀ k, keep k = false) →
  AELayer1.forward m false x mask n =
    Ok (AELayer1.without_attention m x,
        (n + b * AELayer1.num_head m * t * t)%nat).
Proof. intros. by apply aelayer_eval_all_dropped. Qed.

Module Encoder_examples.
Import Attention_examples.

Definition w1 : AELayer1.weights Qcanon.Qc := {|
  AELayer1.wq := I2; AELayer1.wk := I2; AELayer1.wv := I2; AELayer1.wo := I2;
  AELayer1.ln1_weight := [q 1; q 1]; AELayer1.ln1_bias := [q 0; q 0];
  AELayer1.ln2_weight := [q 1; q 1]; AELayer1.ln2_bias := [q 0; q 0];
  AELayer1.fc1_weight := [[q 1; q 0]; [q 0; q 1]; [q 1; q 1]];
  AELayer1.fc1_bias := [q 0; q 0; q 1];
  AELayer1.fc2_weight := [[q 1; q 0; q 1]; [q 0; q 1; q 1]];
  AELayer1.fc2_bias := [q 1; q 0];
|}.
Definition layer1 : AELayer1.t Qcanon.Qc := AELayer1.init 2 2 3 w1.
Definition ffn1 : FFN.t Qcanon.Qc := AELayer1.ffn layer1.
Definition block1 : AEBlock1.t Qcanon.Qc := AEBlock1.init 2 2 3 2 (λ _, w1).

Lemma w1_ok : AELayer1.weights_ok 2 3 w1.
Proof. repeat split; qc_done. Qed.

Lemma ffn1_wf : FFN.wf ffn1.
Proof. repeat split; qc_done. Qed.

Lemma layer1_wf : AELayer1.wf layer1.
Proof. apply aelayer_init_wf; [lia..|reflexivity|apply w1_ok]. Qed.

Lemma block1_wf : AEBlock1.wf block1.
Proof.
  apply aeblock_init_wf; [lia..|reflexivity|]. intros. apply w1_ok.
Qed.

End Encoder_examples.

Import Attention_examples Encoder_examples.

Lemma eval_mode_attention_dropped_witness :
  AELayer1.forward (H0:=keep_none) layer1 false x1 None 0%nat =
    Ok (AELayer1.without_attention layer1 x1,
        (0 + 1 * AELayer1.num_head layer1 * 2 * 2)%nat).
Proof.
  apply (eval_mode_attention_dropped (H1:=keep_none) layer1 1 2 x1 None
           0%nat); [apply layer1_wf|lia..|qc_done|exact I|done].
Defined.
Lemma aeblock_forward_shape_witness :
  ∃ y, AEBlock1.forward (H0:=keep_all) block1 false x1 0%nat =
         Ok (y, (0 + AEBlock1.draws block1 false 1 2)%nat) ∧
    shape3 1 2 (AEBlock1.hidden_dim block1) y.
Proof.
  apply (aeblock_forward_shape (H0:=keep_all) block1 false 1 2 x1 0%nat);
    [apply block1_wf|lia..|qc_done].
Defined.

Lemma aelayer_forward_shape_witness :
  ∃ y, AELayer1.forward (H0:=keep_all) layer1 true x1
         (Some [[[true; false]]]) 0%nat =
         Ok (y, (0 + AELayer1.draws (AELayer1.hidden_dim layer1)
                       (AELayer1.num_head layer1) (AELayer1.inner_dim layer1)
                       true 1 2)%nat) ∧
    shape3 1 2 (AELayer1.hidden_dim layer1) y.
Proof.
  apply (aelayer_forward_shape (H0:=keep_all) layer1 true 1 2 x1
           (Some [[[true; false]]]) 0%nat);
    [apply layer1_wf|lia..|qc_done|qc_done].
Defined.

Lemma ffn_forward_shape_witness :
  ∃ y, FFN.forward (H0:=keep_all) ffn1 true x1 0%nat =
         Ok (y, (0 + 1 * 2 * FFN.inner_dim ffn1)%nat) ∧
    shape3 1 2 (FFN.hidden_dim ffn1) y.
Proof.
  apply (ffn_forward_shape (H0:=keep_all) ffn1 true 1 2 x1 0%nat);
    [apply ffn1_wf|qc_done].
Defined.
