(* ===== verification/Regressor.v ===== *)
(** * [nn.GRU] and [AudioRegressor]

    [GRU] is the recurrent layer as the source constructs it on line 230:
    two layers, no bias, [batch_first=True], a dropout between the
    layers.  A layer holds [weight_ih] and [weight_hh]; [cell] is one step
    on one sample, with the gates of the PyTorch documentation; [scan]
    runs a layer along the time axis, [run] the layers from the bottom
    up (an initial state with fewer layers than the GRU is a shape
    error), and [forward] checks the shapes of the input and of the
    initial state first.

    [AudioRegressor] (lines 209-247) composes the extractor, the encoder
    and the GRU, reads the last time step of the GRU's output with
    [out[:, -1, :]] and applies the linear head.  The GRU is called
    without the padding mask.

    [AudioRegressor.init] is [__init__] with the trained parameters as a
    record [AudioRegressor.weights]; [AudioRegressor.default] is the model
    with the default hyperparameters 768, 4, 1536 and 6.

    [gru_forward_states_bounded] shows that the hidden states stay in
    (-1, 1); [last_step_reads_last] and [last_step_empty_sample] what
    [out[:, -1, :]] returns; [regressor_forward_shape] that the whole
    model succeeds on a batch of the documented shape, and which value it
    returns: the head applied to step 511 of the output of the GRU on the
    output of the encoder. *)

From Stdlib Require Import Field Lia.
From S2P Require Import Prelude Scalar ScalarQc Tensor Nn Extractor Attention Encoder.

Local Open Scope scalar_scope.

Module GRU.
Section with_scalar.
Context `{ScalarOps R} `{Sampler}.

(** One layer: [weight_ih_l] is [[3 * hidden, input]] and [weight_hh_l]
    is [[3 * hidden, hidden]], the rows of the reset, update and new gates
    in this order; [bias=False]. *)
Record layer : Type := make_layer {
  weight_ih : tensor2 R;
  weight_hh : tensor2 R;
}.

Record t : Type := make {
  input_size : nat;
  hidden_size : nat;
  layers : list layer;   (* [num_layers] of them *)
  dropout : R;
}.

Definition layer_wf (input hidden : nat) (l : layer) : Prop :=
  shape2 (3 * hidden) input (weight_ih l) ∧
  shape2 (3 * hidden) hidden (weight_hh l).

(** The first layer reads the input, the others the layer below. *)
Fixpoint layers_wf (input hidden : nat) (ls : list layer) : Prop :=
  match ls with
  | [] => True
  | l :: ls => layer_wf input hidden l ∧ layers_wf hidden hidden ls
  end.

Definition wf (m : t) : Prop :=
  layers m ≠ [] ∧ layers_wf (input_size m) (hidden_size m) (layers m).

(** Gate [k] of the [3 * hidden] pre-activations. *)
Definition gate (hidden k : nat) (g : list R) : list R :=
  take hidden (drop (k * hidden) g).

(** One step of one layer on one sample:
    [r = sigmoid(W_ir x + W_hr h)], [z = sigmoid(W_iz x + W_hz h)],
    [n = tanh(W_in x + r * (W_hn h))], [h' = (1 - z) * n + z * h]. *)
Definition cell (hidden : nat) (l : layer) (x h : list R) : list R :=
  let gi := dot x <$> weight_ih l in
  let gh := dot h <$> weight_hh l in
  let r := zip_with (λ a b, sigmoid (a + b))
             (gate hidden 0 gi) (gate hidden 0 gh) in
  let z := zip_with (λ a b, sigmoid (a + b))
             (gate hidden 1 gi) (gate hidden 1 gh) in
  let n := zip_with (λ a b, tanh (a + b))
             (gate hidden 2 gi) (zip_with sc_mul r (gate hidden 2 gh)) in
  zip_with (λ z nh, (1 - z) * nh.1 + z * nh.2) z (zip n h).

(** One layer along the time axis of one sample: the hidden state after
    every step. *)
Fixpoint scan (hidden : nat) (l : layer) (h : list R) (xs : tensor2 R) :
    tensor2 R :=
  match xs with
  | [] => []
  | x :: xs => let h' := cell hidden l x h in h' :: scan hidden l h' xs
  end.

(** The layers from the bottom up; the output of every layer but the last
    goes through the dropout. *)
Fixpoint run (hidden : nat) (p : R) (training : bool) (ls : list layer)
    (h0 : tensor3 R) (x : tensor3 R) : M (tensor3 R * tensor3 R) :=
  match ls, h0 with
  | [], _ => mret (x, [])
  | _ :: _, [] => lift (Err ShapeError)
  | l :: ls, h :: h0 =>
      let out := zip_with (scan hidden l) h x in
      let hn := zip_with (λ h xs, List.last (scan hidden l h xs) h) h x in
      match ls with
      | [] => mret (out, [hn])
      | _ :: _ =>
          x' ← Dropout.forward3 training p out;
          '(out', hs) ← run hidden p training ls h0 x';
          mret (out', hn :: hs)
      end
  end.

(** [self.gru(x, h0)] with [batch_first=True]: [x] is [[B, T, input]] and
    [h0] is [[num_layers, B, hidden]]. *)
Definition forward (m : t) (training : bool) (x h0 : tensor3 R) :
    M (tensor3 R * tensor3 R) :=
  _ ← lift (check (bool_decide
         (shape3 (length x) (ncols x) (input_size m) x)));
  _ ← lift (check (bool_decide
         (shape3 (length (layers m)) (length x) (hidden_size m) h0)));
  run (hidden_size m) (dropout m) training (layers m) h0 x.

(** The number of draws of [forward] on a batch [[b, t, input]]. *)
Definition draws (m : t) (training : bool) (b t : nat) : nat :=
  if training then ((length (layers m) - 1) * (b * t * hidden_size m))%nat
  else 0%nat.

End with_scalar.

Arguments layer R : clear implicits.
Arguments t R : clear implicits.
End GRU.

Module AudioRegressor.
Section with_scalar.
Context `{ScalarOps R} `{Sampler}.

Record t : Type := make {
  hidden_dim : nat;
  num_head : nat;
  inner_dim : nat;
  n_layers : nat;
  Extractor : AudioExtractor.t R;
  AEBlock1 : AEBlock1.t R;
  gru : GRU.t R;
  fc : Linear.t R;
}.

(** The trained parameters of the model; [layer_weights i] are those of
    layer [i] of the encoder. *)
Record weights : Type := make_weights {
  conv1_weight : tensor4 R;
  conv2_weight : tensor4 R;
  conv3_weight : tensor4 R;
  conv4_weight : tensor4 R;
  layer_weights : nat → AELayer1.weights R;
  gru_l0 : GRU.layer R;
  gru_l1 : GRU.layer R;
  fc_weight : tensor2 R;
  fc_bias : list R;
}.

Definition weights_ok (hidden_dim inner_dim n_layers : nat) (w : weights) :
    Prop :=
  AudioExtractor.weights_ok (conv1_weight w) (conv2_weight w)
    (conv3_weight w) (conv4_weight w) ∧
  (∀ i, (i < n_layers)%nat →
     AELayer1.weights_ok hidden_dim inner_dim (layer_weights w i)) ∧
  GRU.layer_wf hidden_dim 64 (gru_l0 w) ∧ GRU.layer_wf 64 64 (gru_l1 w) ∧
  shape2 1 64 (fc_weight w) ∧ shape1 1 (fc_bias w).

(** [__init__]: the extractor, the encoder of [n_layers] layers, the GRU
    of two layers from [hidden_dim] to 64 with dropout 0.1 and no bias,
    and the head from 64 to 1. *)
Definition init (hidden_dim num_head inner_dim n_layers : nat)
    (w : weights) : t := {|
  hidden_dim := hidden_dim;
  num_head := num_head;
  inner_dim := inner_dim;
  n_layers := n_layers;
  Extractor := AudioExtractor.init (conv1_weight w) (conv2_weight w)
                 (conv3_weight w) (conv4_weight w);
  AEBlock1 := AEBlock1.init hidden_dim num_head inner_dim n_layers
                (layer_weights w);
  gru := GRU.make hidden_dim 64 [gru_l0 w; gru_l1 w] p_drop;
  fc := Linear.make 64 1 (fc_weight w) (Some (fc_bias w));
|}.

(** [AudioRegressor()]: the default hyperparameters of [__init__]. *)
Definition default (w : weights) : t := init 768 4 1536 6 w.

Definition wf (m : t) : Prop :=
  AudioExtractor.wf (Extractor m) ∧
  AEBlock1.wf (AEBlock1 m) ∧ AEBlock1.hidden_dim (AEBlock1 m) = 768%nat ∧
  GRU.wf (gru m) ∧ GRU.input_size (gru m) = 768%nat ∧
  GRU.hidden_size (gru m) = 64%nat ∧ length (GRU.layers (gru m)) = 2%nat ∧
  Linear.wf (fc m) ∧ Linear.in_features (fc m) = 64%nat ∧
  Linear.out_features (fc m) = 1%nat.

(** [out[:, -1, :]]: the last time step of every sample. *)
Definition last_step (out : tensor3 R) : res (tensor2 R) :=
  mapM (λ o, match o !! (length o - 1)%nat with
             | Some r => Ok r
             | None => Err IndexError
             end) out.

Definition forward (m : t) (training : bool) (audio : tensor4 R) :
    M (tensor2 R * tensor3 R) :=
  let batch_size := length audio in
  audio_output ← lift (AudioExtractor.forward (Extractor m) audio);
  audio_output ← AEBlock1.forward (AEBlock1 m) training audio_output;
  let h0 := replicate 2 (replicate batch_size (replicate 64 0)) in
  '(out, h) ← GRU.forward (gru m) training audio_output h0;
  h_t ← lift (last_step out);
  output ← lift (Linear.forward2 (fc m) h_t);
  mret (output, audio_output).

Definition draws (m : t) (training : bool) (b : nat) : nat :=
  (AEBlock1.draws (AEBlock1 m) training b 512 +
   GRU.draws (gru m) training b 512)%nat.

End with_scalar.

Arguments t R : clear implicits.
Arguments weights R : clear implicits.
End AudioRegressor.

(** ** The GRU: shapes *)

Section gru_shapes.
Context `{ScalarOps R} `{Sampler}.
Import GRU.
Implicit Types (l : GRU.layer R).

Lemma length_gate hidden k (g : list R) :
  ((k + 1) * hidden ≤ length g)%nat → length (gate hidden k g) = hidden.
Proof. intros Hg. unfold gate. rewrite length_take, length_drop. lia. Qed.

Lemma length_cell input hidden l (x h : list R) :
  layer_wf input hidden l → length h = hidden →
  length (cell hidden l x h) = hidden.
Proof.
  intros [[Hi _] [Hh _]] Hlen. unfold cell.
  rewrite !length_zip_with.
  rewrite !length_gate by (rewrite length_fmap; lia). lia.
Qed.

Lemma shape2_scan input hidden l (h : list R) (xs : tensor2 R) :
  layer_wf input hidden l → length h = hidden →
  shape2 (length xs) hidden (scan hidden l h xs).
Proof.
  intros Hl. revert h. induction xs as [|x xs IH]; intros h Hh; [by split|].
  pose proof (length_cell input hidden l x h Hl Hh) as Hc.
  destruct (IH _ Hc) as [Hlen Hall].
  split; [simpl; lia|]. by constructor.
Qed.

Lemma length_scan_last input hidden l (h : list R) (xs : tensor2 R) :
  layer_wf input hidden l → length h = hidden →
  length (List.last (scan hidden l h xs) h) = hidden.
Proof.
  intros Hl Hh. apply (Forall_last (λ r, length r = hidden)); [|done].
  by apply (shape2_scan input hidden l h xs Hl Hh).
Qed.

Lemma run_ok input hidden p training (ls : list (GRU.layer R)) b t
    (h0 x : tensor3 R) n :
  layers_wf input hidden ls → ls ≠ [] →
  shaped b (shaped t (λ _, True)) x → shape3 (length ls) b hidden h0 →
  ∃ out hn,
    run hidden p training ls h0 x n =
      Ok ((out, hn),
          (n + if training then (length ls - 1) * (b * t * hidden) else 0)%nat) ∧
    shape3 b t hidden out ∧ shape3 (length ls) b hidden hn.
Proof.
  revert input h0 x n. induction ls as [|l ls IH]; [done|].
  intros input h0 x n [Hl Hls] _ Hx [Hlen Hh0].
  destruct h0 as [|h h0]; [done|]. inversion_clear Hh0 as [|?? Hh Hh0'].
  cbn [run]. cbv zeta.
  set (out := zip_with (scan hidden l) h x).
  set (hn := zip_with (λ h xs, List.last (scan hidden l h xs) h) h x).
  assert (Sout : shape3 b t hidden out).
  { eapply shaped_zip_with; [|exact Hh|exact Hx]. intros h' xs Hh' [<- _].
    by apply (shape2_scan input). }
  assert (Shn : shape2 b hidden hn).
  { eapply shaped_zip_with; [|exact Hh|exact Hx]. intros h' xs Hh' _.
    by apply (length_scan_last input). }
  destruct ls as [|l' ls].
  { exists out, [hn]. unfold mret, M_ret. split; [|split; [done|]].
    - do 2 f_equal. destruct training; simpl; lia.
    - split; [done|]. by constructor. }
  destruct (dropout3_ok training p b t hidden out n Sout) as (x' & E & Sx').
  rewrite (M_bind_Ok _ _ _ _ _ E).
  destruct (IH hidden h0 x'
    (n + (if training then b * t * hidden else 0))%nat Hls)
    as (out' & hs & E' & Sout' & Shs); [done| | |].
  { eapply shaped_impl; [|exact Sx']. intros s Hs.
    eapply shaped_impl; [|exact Hs]. done. }
  { split; [simpl in *; lia|done]. }
  rewrite (M_bind_Ok _ _ _ _ _ E'). exists out', (hn :: hs).
  unfold mret, M_ret. split; [|split; [done|]].
  - do 2 f_equal. destruct training; cbn [length]; [nia|lia].
  - destruct Shs as [Hlhs Hhs]. split; [simpl in *; lia|by constructor].
Qed.

(** [forward] on a batch [[b, t, input_size]] with an initial state
    [[num_layers, b, hidden_size]]: both checks pass. *)
Lemma gru_forward_ok (m : GRU.t R) training b t (x h0 : tensor3 R) n :
  GRU.wf m → (0 < b)%nat →
  shape3 b t (input_size m) x →
  shape3 (length (layers m)) b (hidden_size m) h0 →
  ∃ out hn,
    GRU.forward m training x h0 n =
      Ok ((out, hn), (n + GRU.draws m training b t)%nat) ∧
    shape3 b t (hidden_size m) out ∧
    shape3 (length (layers m)) b (hidden_size m) hn.
Proof.
  intros [Hne Hls] Hb Hx Hh0. unfold GRU.forward, GRU.draws.
  destruct (shaped_nonempty _ _ _ Hb Hx) as (s & x' & Hxeq & Hs).
  assert (Hc : ncols x = t) by (rewrite Hxeq; apply Hs).
  rewrite Hc, (shape3_length _ _ _ _ Hx).
  rewrite !bool_decide_eq_true_2 by done. simpl check.
  rewrite !lift_Ok_bind.
  destruct (run_ok (input_size m) (hidden_size m) (dropout m) training
    (layers m) b t h0 x n Hls Hne) as (out & hn & E & S1 & S2); [|done|].
  { eapply shaped_impl; [|exact Hx]. intros s' Hs'.
    eapply shaped_impl; [|exact Hs']. done. }
  exists out, hn. by rewrite E.
Qed.

End gru_shapes.

(** ** The GRU: the hidden state stays in the open interval (-1, 1) *)

Section gru_bounds.
Context `{ScalarLaws R} `{Sampler}.
Import GRU.
Implicit Types (l : GRU.layer R).
Add Field sc_fld_gru : sc_field.

Definition bounded (v : R) : Prop := - (1) < v ∧ v < 1.

(** A convex combination of two values of the interval is in the
    interval. *)
Lemma convex_bounded (z n h : R) :
  0 < z → z < 1 → bounded n → bounded h → bounded ((1 - z) * n + z * h).
Proof.
  intros Hz Hz1 [Hn1 Hn2] [Hh1 Hh2].
  apply (proj1 (sc_lt_0_sub _ _)) in Hz1, Hn1, Hn2, Hh1, Hh2.
  split; apply sc_lt_0_sub.
  - replace ((1 - z) * n + z * h - - (1))
      with ((1 - z) * (n - - (1)) + z * (h - - (1))) by ring.
    apply sc_add_pos; by apply sc_mul_pos.
  - replace (1 - ((1 - z) * n + z * h))
      with ((1 - z) * (1 - n) + z * (1 - h)) by ring.
    apply sc_add_pos; by apply sc_mul_pos.
Qed.

Lemma cell_bounded hidden l (x h : list R) :
  Forall bounded h → Forall bounded (cell hidden l x h).
Proof.
  intros Hh. unfold cell. apply Forall_lookup. intros i v Hv.
  apply lookup_zip_with_Some in Hv as (zv & [nv hv] & -> & Hz & Hnh).
  apply lookup_zip_with_Some in Hz as (a & b & -> & _ & _).
  apply lookup_zip_with_Some in Hnh as (nv' & hv' & [= <- <-] & Hn & Hhv).
  apply lookup_zip_with_Some in Hn as (c & d & -> & _ & _). simpl.
  apply convex_bounded; [apply sigmoid_pos|apply sigmoid_lt_1| |].
  - split; [apply tanh_gt_opp_1|apply tanh_lt_1].
  - exact (Forall_lookup_1 _ _ _ _ Hh Hhv).
Qed.

Lemma scan_bounded hidden l (h : list R) (xs : tensor2 R) :
  Forall bounded h → Forall (Forall bounded) (scan hidden l h xs).
Proof.
  revert h. induction xs as [|x xs IH]; intros h Hh; [constructor|].
  pose proof (cell_bounded hidden l x h Hh). constructor; auto.
Qed.

Lemma run_bounded hidden p training (ls : list (GRU.layer R))
    (h0 x out hn : tensor3 R) n n' :
  Forall (Forall (Forall bounded)) h0 →
  run hidden p training ls h0 x n = Ok ((out, hn), n') →
  ls ≠ [] → length h0 = length ls →
  Forall (Forall (Forall bounded)) out.
Proof.
  revert h0 x out hn n n'. induction ls as [|l ls IH]; [done|].
  intros [|h h0] x out hn n n' Hh0 Hrun _ Hlen; [done|].
  inversion_clear Hh0 as [|?? Hh Hh0']. cbn [run] in Hrun. cbv zeta in Hrun.
  destruct ls as [|l' ls].
  { injection Hrun as <- _ _. apply Forall_lookup. intros i o Ho.
    apply lookup_zip_with_Some in Ho as (hi & xi & -> & Hhi & _).
    apply scan_bounded. exact (Forall_lookup_1 _ _ _ _ Hh Hhi). }
  apply M_bind_inv in Hrun as (x' & n1 & _ & Hrun).
  apply M_bind_inv in Hrun as ([out' hs] & n2 & Hrec & Hret).
  injection Hret as <- _ _.
  eapply (IH h0); [done|exact Hrec|done|simpl in *; lia].
Qed.

End gru_bounds.

#[export] Instance bounded_dec `{ScalarOps R} (v : R) : Decision (bounded v).
Proof. unfold bounded, sc_lt. apply _. Defined.

(** ** [AudioRegressor.forward] *)

Section regressor.
Context `{ScalarLaws R} `{Sampler}.
Import AudioRegressor.

Lemma gru_forward_bounded (m : GRU.t R) training (x h0 out hn : tensor3 R) n n' :
  GRU.forward m training x h0 n = Ok ((out, hn), n') →
  GRU.layers m ≠ [] → length h0 = length (GRU.layers m) →
  Forall (Forall (Forall bounded)) h0 →
  Forall (Forall (Forall bounded)) out.
Proof.
  unfold GRU.forward. intros Hf Hne Hlen Hh0.
  apply M_bind_inv in Hf as (_ & n1 & _ & Hf).
  apply M_bind_inv in Hf as (_ & n2 & _ & Hf).
  by eapply run_bounded.
Qed.

(** On samples of [t > 0] steps, [last_step] returns step [t - 1] of every
    sample. *)
Lemma last_step_ok (P : list R → Prop) b t (out : tensor3 R) :
  (0 < t)%nat → shaped b (shaped t P) out →
  ∃ h_t, last_step out = Ok h_t ∧ shaped b P h_t ∧
    Forall2 (λ o r, o !! (t - 1)%nat = Some r) out h_t.
Proof.
  intros Ht [<- Hall]. unfold last_step.
  induction Hall as [|o out [Hlen Ho] _ (h_t & E & [Hl Hh] & Hlast)].
  { exists []. repeat split; constructor. }
  destruct (lookup_lt_is_Some_2 o (length o - 1)) as [r Hr]; [lia|].
  exists (r :: h_t). simpl. rewrite Hr. simpl. rewrite E. simpl.
  split; [done|]. split.
  - split; [simpl; lia|].
    constructor; [exact (Forall_lookup_1 _ _ _ _ Ho Hr)|done].
  - constructor; [by rewrite <-Hlen|done].
Qed.

(** The GRU of the model from the zero state: it succeeds, and the last
    step of its output is in (-1, 1). *)
Lemma gru_zero_state_ok (g : GRU.t R) training b t (x : tensor3 R) n :
  GRU.wf g → GRU.hidden_size g = 64%nat → length (GRU.layers g) = 2%nat →
  (0 < b)%nat → (0 < t)%nat → shape3 b t (GRU.input_size g) x →
  ∃ out hn h_t,
    GRU.forward g training x (replicate 2 (replicate b (replicate 64 0))) n =
      Ok ((out, hn), (n + GRU.draws g training b t)%nat) ∧
    shape3 b t 64 out ∧ last_step out = Ok h_t ∧
    Forall2 (λ o r, o !! (t - 1)%nat = Some r) out h_t ∧
    shape2 b 64 h_t ∧ Forall (Forall bounded) h_t.
Proof.
  intros Hg Hgh Hgl Hb Ht Hx.
  set (h0 := replicate 2 (replicate b (replicate 64 0))).
  assert (Sh0 : shape3 (length (GRU.layers g)) b (GRU.hidden_size g) h0).
  { rewrite Hgl, Hgh. apply shape3_replicate. }
  destruct (gru_forward_ok g training b t x h0 n Hg Hb Hx Sh0)
    as (out & hn & E3 & S3 & _).
  assert (Hbd : Forall (Forall (Forall bounded)) out).
  { eapply gru_forward_bounded; [exact E3|by destruct Hg| |].
    - unfold h0. by rewrite length_replicate.
    - unfold h0. do 2 apply Forall_replicate. apply Forall_replicate.
      split; [apply sc_opp_pos_neg|]; apply sc_0_lt_1. }
  rewrite Hgh in S3.
  destruct (last_step_ok (λ r, shape1 64 r ∧ Forall bounded r) b t out)
    as (h_t & E4 & S4 & L4); [lia| |].
  { split; [exact (shaped_length _ _ _ S3)|].
    eapply Forall_impl; [|apply Forall_conj;
      [exact (shaped_Forall _ _ _ S3)|exact Hbd]].
    intros o [So Hbo]. by apply shaped_and. }
  exists out, hn, h_t. repeat (split; [done|]). split.
  - eapply shaped_impl; [|exact S4]. by intros r [? _].
  - eapply Forall_impl; [|exact (shaped_Forall _ _ _ S4)]. by intros r [_ ?].
Qed.

Lemma last_step_err (out : tensor3 R) :
  Exists (λ o, o = []) out → last_step out = Err IndexError.
Proof.
  unfold last_step. induction 1 as [o out ->|o out _ IH]; [done|].
  simpl. destruct (o !! _); [|done]. simpl. by rewrite IH.
Qed.

Lemma regressor_init_wf heads inner n (w : AudioRegressor.weights R) :
  (0 < heads)%nat → (768 mod heads = 0)%nat → weights_ok 768 inner n w →
  wf (init 768 heads inner n w).
Proof.
  intros HH Hmod (Hc & Hls & Hg0 & Hg1 & Hw & Hb).
  split; [by apply wf_init|]. split.
  { apply aeblock_init_wf; [done|lia|done..]. }
  split; [reflexivity|]. split; [by split|].
  do 3 (split; [reflexivity|]). split; [|done]. by split.
Qed.

(** C3: on a batch of shape [[b, 2, 512, 128]] the whole model succeeds
    in either mode.  The encoder output, which is returned with the
    prediction, is [AEBlock1.forward] of the features of the extractor and
    has shape [[b, 512, 768]].  The GRU runs on it from a zero initial
    state of shape [[2, b, 64]], without the padding mask; [h_t] holds
    step 511 of every sample of the GRU's output, whether this step is
    padding or not; every entry of it is in the open interval (-1, 1);
    and the prediction, of shape [[b, 1]], is the linear head applied to
    every row of [h_t]. *)
Theorem regressor_forward_shape (m : AudioRegressor.t R) training b
    (audio : tensor4 R) n :
  wf m → (0 < b)%nat → shape4 b 2 512 128 audio →
  ∃ output audio_output feats out hn h_t,
    forward m training audio n =
      Ok ((output, audio_output), (n + draws m training b)%nat) ∧
    shape2 b 1 output ∧ shape3 b 512 768 audio_output ∧
    AudioExtractor.forward (Extractor m) audio = Ok feats ∧
    AEBlock1.forward (AEBlock1 m) training feats n =
      Ok (audio_output, (n + AEBlock1.draws (AEBlock1 m) training b 512)%nat) ∧
    GRU.forward (gru m) training audio_output
        (replicate 2 (replicate b (replicate 64 0)))
        (n + AEBlock1.draws (AEBlock1 m) training b 512)%nat =
      Ok ((out, hn), (n + draws m training b)%nat) ∧
    shape3 b 512 64 out ∧
    Forall2 (λ o r, o !! 511%nat = Some r) out h_t ∧
    shape2 b 64 h_t ∧ Forall (Forall bounded) h_t ∧
    Linear.forward2 (fc m) h_t = Ok output ∧
    output = Linear.forward_row (fc m) <$> h_t.
Proof.
  intros (He & Hb1 & Hh & Hg & Hgi & Hgh & Hgl & Hfc & Hfi & Hfo) Hb Ha.
  unfold forward, draws. rewrite (shape4_length _ _ _ _ _ Ha).
  destruct (extractor_forward_ok _ b audio He Hb Ha) as [E1 S1].
  rewrite E1, lift_Ok_bind.
  destruct (aeblock_forward_ok (AEBlock1 m) training b 512 768 _ n Hb1 Hb
              ltac:(lia) S1 (eq_sym Hh)) as (ao & E2 & S2).
  rewrite (M_bind_Ok _ _ _ _ _ E2). cbv zeta. rewrite Hh in S2.
  pose proof S2 as S2'. rewrite <-Hgi in S2'.
  destruct (gru_zero_state_ok (gru m) training b 512 ao
    (n + AEBlock1.draws (AEBlock1 m) training b 512)%nat Hg Hgh Hgl Hb
    ltac:(lia) S2') as (out & hn & h_t & E3 & S3 & E4 & L4 & S5 & B5).
  rewrite (M_bind_Ok _ _ _ _ _ E3). cbv beta iota.
  rewrite (lift_bind_Ok _ _ _ _ E4).
  pose proof S5 as S5'. rewrite <-Hfi in S5'.
  destruct (Linear.forward2_ok (fc m) b h_t Hfc S5') as [E5 S6].
  rewrite (lift_bind_Ok _ _ _ _ E5). rewrite Hfo in S6.
  exists (Linear.forward_row (fc m) <$> h_t), ao,
    (AudioExtractor.features (Extractor m) <$> audio), out, hn, h_t.
  rewrite <-Nat.add_assoc in E3.
  split; [unfold mret, M_ret; do 2 f_equal; lia|].
  by repeat (split; [first [done|exact E1|exact E2|exact E3|exact L4]|]).
Qed.

(** C10: [out[:, -1, :]] on samples of [t > 0] time steps succeeds and
    returns, for every sample, its step [t - 1]. *)
Theorem last_step_reads_last b t h (out : tensor3 R) :
  (0 < t)%nat → shape3 b t h out →
  ∃ h_t, last_step out = Ok h_t ∧ shape2 b h h_t ∧
    Forall2 (λ o r, o !! (t - 1)%nat = Some r) out h_t.
Proof. intros. by apply last_step_ok. Qed.

(** C11: [out[:, -1, :]] fails with an index error when a sample has no
    time step. *)
Theorem last_step_empty_sample (out : tensor3 R) :
  Exists (λ o, o = []) out → last_step out = Err IndexError.
Proof. apply last_step_err. Qed.

(** C9: on a batch [[b, t, input_size]] with an initial state
    [[num_layers, b, hidden_size]] whose entries are in the open interval
    (-1, 1), the GRU succeeds, its output is [[b, t, hidden_size]], and
    every hidden state it returns is again in (-1, 1): a state is a convex
    combination of a [tanh] and the state before it. *)
Theorem gru_forward_states_bounded (m : GRU.t R) training b t
    (x h0 : tensor3 R) n :
  GRU.wf m → (0 < b)%nat →
  shape3 b t (GRU.input_size m) x →
  shape3 (length (GRU.layers m)) b (GRU.hidden_size m) h0 →
  Forall (Forall (Forall bounded)) h0 →
  ∃ out hn,
    GRU.forward m training x h0 n =
      Ok ((out, hn), (n + GRU.draws m training b t)%nat) ∧
    shape3 b t (GRU.hidden_size m) out ∧
    shape3 (length (GRU.layers m)) b (GRU.hidden_size m) hn ∧
    Forall (Forall (Forall bounded)) out.
Proof.
  intros Hm Hb Hx Hh0 Hbd.
  destruct (gru_forward_ok m training b t x h0 n Hm Hb Hx Hh0)
    as (out & hn & E & S1 & S2).
  exists out, hn. repeat split; try done; try apply S1; try apply S2.
  eapply gru_forward_bounded; [exact E|by destruct Hm| |done].
  by destruct Hh0.
Qed.

End regressor.

(** ** The properties at concrete inputs, over the rationals *)

Module Regressor_examples.
Import Attention_examples Extractor_examples.

Definition ones2 (a b : nat) : tensor2 Qcanon.Qc := replicate a (replicate b (q 1)).

(** A GRU of two layers with one input feature and one hidden unit. *)
Definition g1 : GRU.t Qcanon.Qc :=
  GRU.make 1 1 [GRU.make_layer (ones2 (3 * 1) 1) (ones2 (3 * 1) 1);
                GRU.make_layer (ones2 (3 * 1) 1) (ones2 (3 * 1) 1)] p_drop.

(** The model with the default hyperparameters, all of whose weights
    are 1 and biases 0. *)
Definition lw2 : AELayer1.weights Qcanon.Qc := {|
  AELayer1.wq := ones2 768 768; AELayer1.wk := ones2 768 768;
  AELayer1.wv := ones2 768 768; AELayer1.wo := ones2 768 768;
  AELayer1.ln1_weight := replicate 768 (q 1);
  AELayer1.ln1_bias := replicate 768 (q 0);
  AELayer1.ln2_weight := replicate 768 (q 1);
  AELayer1.ln2_bias := replicate 768 (q 0);
  AELayer1.fc1_weight := ones2 1536 768;
  AELayer1.fc1_bias := replicate 1536 (q 0);
  AELayer1.fc2_weight := ones2 768 1536;
  AELayer1.fc2_bias := replicate 768 (q 0);
|}.
Definition w2 : AudioRegressor.weights Qcanon.Qc := {|
  AudioRegressor.conv1_weight := ones 8 2 1 4;
  AudioRegressor.conv2_weight := ones 8 8 1 7;
  AudioRegressor.conv3_weight := ones 24 8 1 4;
  AudioRegressor.conv4_weight := ones 24 24 1 7;
  AudioRegressor.layer_weights := λ _, lw2;
  AudioRegressor.gru_l0 :=
    GRU.make_layer (ones2 (3 * 64) 768) (ones2 (3 * 64) 64);
  AudioRegressor.gru_l1 :=
    GRU.make_layer (ones2 (3 * 64) 64) (ones2 (3 * 64) 64);
  AudioRegressor.fc_weight := ones2 1 64;
  AudioRegressor.fc_bias := [q 0];
|}.
Definition m2 : AudioRegressor.t Qcanon.Qc := AudioRegressor.default w2.

Lemma g1_wf : GRU.wf g1.
Proof. split; [done|]. repeat split; apply shape2_replicate. Qed.

Lemma lw2_ok : AELayer1.weights_ok 768 1536 lw2.
Proof.
  split; [|split].
  - repeat (apply Forall_cons; [apply shape2_replicate|]). apply Forall_nil.
  - repeat (apply Forall_cons; [apply length_replicate|]). apply Forall_nil.
  - repeat split; try apply shape2_replicate; apply length_replicate.
Qed.

Lemma w2_ok : AudioRegressor.weights_ok 768 1536 6 w2.
Proof.
  split; [repeat split; apply shape4_replicate|].
  split; [intros; apply lw2_ok|].
  repeat split; try apply shape2_replicate; reflexivity.
Qed.

Lemma m2_wf : AudioRegressor.wf m2.
Proof. apply regressor_init_wf; [lia|reflexivity|apply w2_ok]. Qed.

End Regressor_examples.

Import Attention_examples Extractor_examples Regressor_examples.

Lemma gru_forward_states_bounded_witness :
  ∃ out hn,
    GRU.forward (H0:=keep_all) g1 true [[[q 1]; [q 2]]] [[[0]]; [[0]]] 0%nat =
      Ok ((out, hn), (0 + GRU.draws g1 true 1 2)%nat) ∧
    shape3 1 2 (GRU.hidden_size g1) out ∧
    shape3 (length (GRU.layers g1)) 1 (GRU.hidden_size g1) hn ∧
    Forall (Forall (Forall bounded)) out.
Proof.
  apply (gru_forward_states_bounded (H1:=keep_all) g1 true 1 2
           [[[q 1]; [q 2]]] [[[0]]; [[0]]] 0%nat);
    [apply g1_wf|lia|qc_done..].
Defined.

Lemma regressor_forward_shape_witness :
  ∃ output audio_output feats out hn h_t,
    AudioRegressor.forward (H0:=keep_all) m2 false x0 0%nat =
      Ok ((output, audio_output),
          (0 + AudioRegressor.draws m2 false 1)%nat) ∧
    shape2 1 1 output ∧ shape3 1 512 768 audio_output ∧
    AudioExtractor.forward (AudioRegressor.Extractor m2) x0 = Ok feats ∧
    AEBlock1.forward (H0:=keep_all) (AudioRegressor.AEBlock1 m2) false feats
        0%nat =
      Ok (audio_output,
          (0 + AEBlock1.draws (AudioRegressor.AEBlock1 m2) false 1 512)%nat) ∧
    GRU.forward (H0:=keep_all) (AudioRegressor.gru m2) false audio_output
        (replicate 2 (replicate 1 (replicate 64 0)))
        (0 + AEBlock1.draws (AudioRegressor.AEBlock1 m2) false 1 512)%nat =
      Ok ((out, hn), (0 + AudioRegressor.draws m2 false 1)%nat) ∧
    shape3 1 512 64 out ∧
    Forall2 (λ o r, o !! 511%nat = Some r) out h_t ∧
    shape2 1 64 h_t ∧ Forall (Forall bounded) h_t ∧
    Linear.forward2 (AudioRegressor.fc m2) h_t = Ok output ∧
    output = Linear.forward_row (AudioRegressor.fc m2) <$> h_t.
Proof.
  apply (regressor_forward_shape (H1:=keep_all) m2 false 1 x0 0%nat);
    [apply m2_wf|lia|apply x0_shape].
Defined.

Lemma last_step_reads_last_witness :
  ∃ h_t, AudioRegressor.last_step [[[q 1]; [q 2]]] = Ok h_t ∧
    shape2 1 1 h_t ∧
    Forall2 (λ o r, o !! (2 - 1)%nat = Some r) [[[q 1]; [q 2]]] h_t.
Proof.
  apply (last_step_reads_last 1 2 1 [[[q 1]; [q 2]]]); [lia|qc_done].
Defined.

Lemma last_step_empty_sample_witness :
  AudioRegressor.last_step (R:=Qcanon.Qc) [[[q 1]]; []] = Err IndexError.
Proof.
  apply (last_step_empty_sample [[[q 1]]; []]).
  apply Exists_cons_tl, Exists_cons_hd. reflexivity.
Defined.
