(* ===== verification/ScalarR.v ===== *)
(** * The scalar interface on the real numbers

    The real numbers of the Standard Library, with their exponential and
    square root, satisfy the laws of [Scalar.ScalarLaws]: every theorem of
    the development holds of the exact real arithmetic that the floating
    point numbers of the program approximate.  The corollaries at the end
    state three of them for the reals. *)

From Stdlib Require Import Reals RealField Lra.
From S2P Require Import Prelude Scalar Tensor Nn Extractor Regressor.

#[export] Instance R_ops : ScalarOps R := {|
  sc_zero := 0%R;
  sc_one := 1%R;
  sc_add := Rplus;
  sc_mul := Rmult;
  sc_sub := Rminus;
  sc_opp := Ropp;
  sc_div := Rdiv;
  sc_inv := Rinv;
  sc_le := Rle;
  sc_exp := exp;
  sc_sqrt := sqrt;
  sc_eq_dec := Req_dec_T;
  sc_le_dec := Rle_dec;
|}.

Lemma R_lt_iff (x y : R) : sc_lt x y ↔ (x < y)%R.
Proof.
  unfold sc_lt. simpl. split; [intros [Hle Hne]|intros Hlt].
  - destruct Hle as [?|?]; [done|by destruct Hne].
  - split; [by left|]. by apply Rlt_not_eq.
Qed.

#[export] Instance R_laws : ScalarLaws R.
Proof.
  split; simpl.
  - exact Rfield.
  - exact Rle_refl.
  - exact Rle_trans.
  - exact Rle_antisym.
  - intros x y. destruct (Rle_or_lt x y); [by left|right; by left].
  - intros x y z. apply Rplus_le_compat_l.
  - exact Rmult_le_pos.
  - intros x. apply R_lt_iff, exp_pos.
  - intros x Hx%R_lt_iff. apply R_lt_iff. by apply sqrt_lt_R0.
Qed.

(** ** Corollaries for the reals *)

Lemma softmax_real_sum (x : list R) : x ≠ [] → vsum (softmax x) = 1%R.
Proof. intros Hx. exact (softmax_sum x Hx). Qed.

Lemma gru_cell_real_bounded hidden (l : GRU.layer R) (x h : list R) :
  Forall (λ v, (-1 < v < 1)%R) h →
  Forall (λ v, (-1 < v < 1)%R) (GRU.cell hidden l x h).
Proof.
  intros Hh. eapply Forall_impl; [|apply (cell_bounded hidden l x h)].
  - intros v [H1 H2]. split; apply R_lt_iff; [|done].
    replace (-1)%R with (- (1))%R by lra. exact H1.
  - eapply Forall_impl; [|exact Hh]. intros v [H1 H2].
    split; apply R_lt_iff; [|done].
    change (- (1) < v)%R. lra.
Qed.

Lemma features_real_zero_row (m : AudioExtractor.t R) (s : tensor3 R) t row :
  AudioExtractor.wf m → zero_at_time t s →
  AudioExtractor.features m s !! t = Some row → Forall (λ v, v = 0%R) row.
Proof. intros Hm Hz Hr. exact (features_zero_row m s t row Hm Hz Hr). Qed.
